(** * Async-Mojang: retry engine, error classifier and profile decoder

    A shallow embedding of the package [async_mojang]
    ([_http_client.py], [api.py], [errors.py], [_types.py], [_utils.py])
    and the properties of its request loop, its status classifier and its
    profile decoder.

    Python values that come out of [resp.json()] and [json.loads] are
    modelled by the type [pyval]; exceptions by [exn]; code that may raise
    by the monad [outcome]; code that also talks to the network or sleeps
    by the monad [io], which threads a [world] holding the remote server
    and the chronological trace of effects. *)

From Stdlib Require Import ZArith QArith String Ascii List Bool Lia.
From Stdlib Require Import DecimalString.
From Stdlib.Strings Require Import Byte.
Import ListNotations.
Open Scope string_scope.
Open Scope list_scope.
Open Scope Z_scope.
Set Warnings "-register-all".

(* ================================================================== *)
(** ** Python values and exceptions *)
(* ================================================================== *)

Module Py.

(** The values [json.loads] and [resp.json()] produce.  A [dict] keeps its
    items in insertion order; its keys are the strings of a JSON object.
    A [str] is a [string]: its characters are the code points below 256,
    those from 128 on being the ones [isascii] rejects.  A [float] is the
    rational it denotes. *)
Inductive pyval : Type :=
| PyNone
| PyBool (b : bool)
| PyInt (z : Z)
| PyFloat (q : Q)
| PyStr (s : string)
| PyList (l : list pyval)
| PyDict (d : list (string * pyval)).

(** [type(v).__name__], as it appears in the interpreter's messages. *)
Definition type_name (v : pyval) : string :=
  match v with
  | PyNone => "NoneType"
  | PyBool _ => "bool"
  | PyInt _ => "int"
  | PyFloat _ => "float"
  | PyStr _ => "str"
  | PyList _ => "list"
  | PyDict _ => "dict"
  end.

(** [bool(v)]: the truth value used by [or], [if] and the conditional
    expression. *)
Definition truthy (v : pyval) : bool :=
  match v with
  | PyNone => false
  | PyBool b => b
  | PyInt z => negb (z =? 0)
  | PyFloat q => negb (Qnum q =? 0)
  | PyStr s => negb (String.eqb s "")
  | PyList l => match l with [] => false | _ :: _ => true end
  | PyDict d => match d with [] => false | _ :: _ => true end
  end.

(** Exception classes raised by the interpreter and the libraries the
    package calls ([json], [binascii], [aiohttp]). *)
Inductive builtin_exc : Type :=
| KeyError | IndexError | TypeError | AttributeError | ValueError
| UnicodeDecodeError | JSONDecodeError | binascii_Error
| ClientError | ContentTypeError | ClientPayloadError.

(** The classes of [errors.py]. *)
Inductive mojang_exc : Type :=
| MojangError | BadRequest | Unauthorized | Forbidden | NotFound
| TooManyRequests | ServerError | MalformedResponse
| LoginFailure | MissingMinecraftLicense | MissingMinecraftProfile.

Inductive pyclass : Type :=
| Builtin (c : builtin_exc)
| Mojang (c : mojang_exc).

(** A raised exception: a builtin one with its [str(exc)] text, or an
    instance of a class of [errors.py] with its attributes [status] and
    [detail]. *)
Inductive exn : Type :=
| PyErr (c : builtin_exc) (msg : string)
| MojangErr (c : mojang_exc) (status : Z) (detail : pyval).

Definition builtin_eqb (a b : builtin_exc) : bool :=
  match a, b with
  | KeyError, KeyError | IndexError, IndexError | TypeError, TypeError
  | AttributeError, AttributeError | ValueError, ValueError
  | UnicodeDecodeError, UnicodeDecodeError
  | JSONDecodeError, JSONDecodeError | binascii_Error, binascii_Error
  | ClientError, ClientError | ContentTypeError, ContentTypeError
  | ClientPayloadError, ClientPayloadError => true
  | _, _ => false
  end.

Definition mojang_eqb (a b : mojang_exc) : bool :=
  match a, b with
  | MojangError, MojangError | BadRequest, BadRequest
  | Unauthorized, Unauthorized | Forbidden, Forbidden
  | NotFound, NotFound | TooManyRequests, TooManyRequests
  | ServerError, ServerError | MalformedResponse, MalformedResponse
  | LoginFailure, LoginFailure
  | MissingMinecraftLicense, MissingMinecraftLicense
  | MissingMinecraftProfile, MissingMinecraftProfile => true
  | _, _ => false
  end.

(** [issubclass(c, base)] among the builtin classes: [JSONDecodeError],
    [binascii.Error] and [UnicodeDecodeError] derive from [ValueError],
    [ContentTypeError] and [ClientPayloadError] from [ClientError]. *)
Definition builtin_subclass (c base : builtin_exc) : bool :=
  builtin_eqb c base ||
  match c, base with
  | JSONDecodeError, ValueError
  | binascii_Error, ValueError
  | UnicodeDecodeError, ValueError
  | ContentTypeError, ClientError
  | ClientPayloadError, ClientError => true
  | _, _ => false
  end.

(** Every class of [errors.py] derives directly from [MojangError]. *)
Definition mojang_subclass (c base : mojang_exc) : bool :=
  mojang_eqb c base || mojang_eqb base MojangError.

(** [isinstance(e, cls)]. *)
Definition instance_of (e : exn) (cls : pyclass) : bool :=
  match e, cls with
  | PyErr c _, Builtin base => builtin_subclass c base
  | MojangErr c _ _, Mojang base => mojang_subclass c base
  | _, _ => false
  end.

(** [isinstance(e, (c1, ..., cn))]: what an [except (c1, ..., cn)] clause
    tests. *)
Definition isinstance (e : exn) (classes : list pyclass) : bool :=
  existsb (instance_of e) classes.

(** Code that returns a value or raises. *)
Inductive outcome (A : Type) : Type :=
| Ret (a : A)
| Raise (e : exn).
Arguments Ret {A} a.
Arguments Raise {A} e.

Definition bind {A B} (m : outcome A) (k : A -> outcome B) : outcome B :=
  match m with
  | Ret a => k a
  | Raise e => Raise e
  end.

(** [try: body  except classes: handler] without [as]. *)
Definition try_except {A} (body : outcome A) (classes : list pyclass)
    (handler : outcome A) : outcome A :=
  match body with
  | Ret a => Ret a
  | Raise e => if isinstance e classes then handler else Raise e
  end.

(** [try: body  except classes as exc: handler], for builtin classes; the
    handler receives [str(exc)]. *)
Definition try_except_as {A} (body : outcome A) (classes : list builtin_exc)
    (handler : string -> outcome A) : outcome A :=
  match body with
  | Ret a => Ret a
  | Raise (PyErr c msg) =>
      if existsb (builtin_subclass c) classes then handler msg
      else Raise (PyErr c msg)
  | Raise e => Raise e
  end.

(** [str(n)] for an [int]. *)
Definition str_int (z : Z) : string := NilZero.string_of_int (Z.to_int z).

(** [repr(s)] for a [str] without quotes, backslashes or control
    characters. *)
Definition repr_str (s : string) : string := "'" ++ s ++ "'".

Fixpoint dict_lookup (key : string) (d : list (string * pyval)) : option pyval :=
  match d with
  | [] => None
  | (k, v) :: rest => if String.eqb k key then Some v else dict_lookup key rest
  end.

(** [o.get(key, default)]: defined on [dict] only. *)
Definition get (o : pyval) (key : string) (default : pyval) : outcome pyval :=
  match o with
  | PyDict d =>
      match dict_lookup key d with
      | Some v => Ret v
      | None => Ret default
      end
  | _ => Raise (PyErr AttributeError
                  ("'" ++ type_name o ++ "' object has no attribute 'get'"))
  end.

(** [o[key]] for a [str] key. *)
Definition getitem (o : pyval) (key : string) : outcome pyval :=
  match o with
  | PyDict d =>
      match dict_lookup key d with
      | Some v => Ret v
      | None => Raise (PyErr KeyError (repr_str key))
      end
  | PyList _ =>
      Raise (PyErr TypeError "list indices must be integers or slices, not str")
  | PyStr _ =>
      Raise (PyErr TypeError "string indices must be integers, not 'str'")
  | _ => Raise (PyErr TypeError
                  ("'" ++ type_name o ++ "' object is not subscriptable"))
  end.

(** The position a Python index [i] denotes in a sequence of length [n]. *)
Definition index_pos (n : nat) (i : Z) : option nat :=
  if (0 <=? i) && (i <? Z.of_nat n) then Some (Z.to_nat i)
  else if (- Z.of_nat n <=? i) && (i <? 0) then Some (Z.to_nat (Z.of_nat n + i))
  else None.

(** [o[i]] for an [int] index.  A [dict] read from JSON has only [str]
    keys, so an [int] key is never found. *)
Definition getitem_int (o : pyval) (i : Z) : outcome pyval :=
  match o with
  | PyList l =>
      match index_pos (List.length l) i with
      | Some n =>
          match nth_error l n with
          | Some v => Ret v
          | None => Raise (PyErr IndexError "list index out of range")
          end
      | None => Raise (PyErr IndexError "list index out of range")
      end
  | PyStr s =>
      match index_pos (String.length s) i with
      | Some n =>
          match String.get n s with
          | Some c => Ret (PyStr (String c ""))
          | None => Raise (PyErr IndexError "string index out of range")
          end
      | None => Raise (PyErr IndexError "string index out of range")
      end
  | PyDict _ => Raise (PyErr KeyError (str_int i))
  | _ => Raise (PyErr TypeError
                  ("'" ++ type_name o ++ "' object is not subscriptable"))
  end.

(** [range(a, b)]. *)
Definition range (a b : Z) : list Z :=
  map (fun i => a + Z.of_nat i) (seq 0 (Z.to_nat (b - a))).

(** [s.isascii()]. *)
Fixpoint isascii (s : string) : bool :=
  match s with
  | EmptyString => true
  | String c rest => (N_of_ascii c <? 128)%N && isascii rest
  end.

(** [len(s)] for a [str]. *)
Definition len (s : string) : Z := Z.of_nat (String.length s).

End Py.
Import Py.

Declare Scope py_scope.
Delimit Scope py_scope with py.
Notation "x <- m ;; k" := (Py.bind m (fun x => k))
  (at level 61, m at next level, right associativity) : py_scope.
Notation "m ;; k" := (Py.bind m (fun _ => k))
  (at level 61, right associativity) : py_scope.

(* ================================================================== *)
(** ** [errors.py] *)
(* ================================================================== *)

Module errors.

(** [MojangError.__init__]: the text handed to [Exception.__init__]. *)
Definition message (status : Z) (detail : string) : string :=
  if negb (status =? 0) then "[HTTP " ++ str_int status ++ "] " ++ detail
  else detail.

(** [cls(status=status, detail=detail)] for [MojangError] and the classes
    whose [__init__] forwards both keywords. *)
Definition new (cls : mojang_exc) (status : Z) (detail : pyval) : exn :=
  MojangErr cls status detail.

(** [MalformedResponse(detail=detail)]: its [__init__] takes no status and
    calls [super().__init__(status=0, detail=detail)]. *)
Definition new_MalformedResponse (detail : string) : exn :=
  MojangErr MalformedResponse 0 (PyStr detail).

End errors.

(* ================================================================== *)
(** ** Library calls: [uuid], [base64], [json] *)
(* ================================================================== *)

Module uuid.

(** A [uuid.UUID] object, by its 128-bit [int] attribute. *)
Record UUID : Type := { int : Z }.

Definition hex_digit (n : Z) : ascii :=
  if n <? 10 then ascii_of_N (Z.to_N (48 + n)) else ascii_of_N (Z.to_N (87 + n)).

Fixpoint hex_digits (n : nat) (z : Z) : string :=
  match n with
  | O => ""
  | S k => hex_digits k (z / 16) ++ String (hex_digit (z mod 16)) ""
  end.

(** [u.hex]: ['%032x' % u.int]. *)
Definition hex (u : UUID) : string := hex_digits 32 (int u).

End uuid.

(** The library functions [_parse_profile], [_parse_uuid] and the lookups
    call.  Their code is not part of the package: the package is verified
    for every implementation of them.
    - [uuid_parse s] is [uuid.UUID(s)] for a [str]; [inr msg] stands for
      [ValueError(msg)], the only exception it raises on a [str];
    - [b64decode v] is [base64.b64decode(v)];
    - [json_loads b] is [json.loads(b)] for [bytes]. *)
Class PyLib : Type := {
  uuid_parse : string -> uuid.UUID + string;
  b64decode : pyval -> outcome (list byte);
  json_loads : list byte -> outcome pyval
}.

(** [uuid.UUID(v)] for an arbitrary value: the constructor calls
    [v.replace], which only a [str] has; [None] is the default of [hex],
    hence "no argument given". *)
Definition uuid_UUID {L : PyLib} (v : pyval) : outcome uuid.UUID :=
  match v with
  | PyStr s =>
      match uuid_parse s with
      | inl u => Ret u
      | inr msg => Raise (PyErr ValueError msg)
      end
  | PyNone =>
      Raise (PyErr TypeError
        "one of the hex, bytes, bytes_le, fields, or int arguments must be given")
  | _ => Raise (PyErr AttributeError
                  ("'" ++ type_name v ++ "' object has no attribute 'replace'"))
  end.

(* ================================================================== *)
(** ** [_types.py] and [_utils.py] *)
(* ================================================================== *)

(** The dataclass [UserProfile].  It is frozen and keyword-only and has no
    [__post_init__]: its fields hold whatever object they are given, so
    the annotated types [int], [str] and [str | None] are not enforced and
    the fields filled from the payload are [pyval]s. *)
Record UserProfile : Type := {
  id : uuid.UUID;
  timestamp : pyval;
  name : pyval;
  is_legacy_profile : bool;
  skin_variant : pyval;
  skin_url : pyval;
  cape_url : pyval
}.

Definition _assert_valid_username (username : string) : outcome unit :=
  if (len username <? 3) || (len username >? 16) then
    Raise (PyErr ValueError
      ("Invalid username " ++ repr_str username
         ++ ": must be between 3 and 16 characters"))
  else if negb (isascii username) then
    Raise (PyErr ValueError
      ("Invalid username " ++ repr_str username
         ++ ": contains non-ASCII characters"))
  else Ret tt.

(** [value] is a [uuid.UUID] ([inl]) or a [str] ([inr]). *)
Definition _parse_uuid {L : PyLib} (value : uuid.UUID + string) : outcome uuid.UUID :=
  match value with
  | inl u => Ret u
  | inr s =>
      match uuid_parse s with
      | inl u => Ret u
      | inr _ => Raise (PyErr ValueError ("Invalid UUID: " ++ repr_str s))
      end
  end.

(* ================================================================== *)
(** ** The transport: [aiohttp] responses, effects and the [io] monad *)
(* ================================================================== *)

(** What the package reads from an [aiohttp.ClientResponse]: [resp.status],
    [resp.reason], [resp.url.path], and what awaiting [resp.json()],
    [resp.text()] and [resp.read()] does (a value or an exception).  The
    package discards the bytes [resp.read()] returns, so only whether the
    body could be read off the connection is kept. *)
Record ClientResponse : Type := {
  status : Z;
  reason : option string;
  url_path : string;
  json : outcome pyval;
  text : outcome string;
  read : outcome unit
}.

(** [resp.ok]: aiohttp defines it as [400 > self.status]. *)
Definition ok (resp : ClientResponse) : bool := 400 >? status resp.

Inductive log_arg : Type :=
| LStr (s : string)
| LInt (z : Z)
| LNum (q : Q).

(** The observable effects of a call, in the order they happen. *)
Inductive event : Type :=
| Request (method url : string) (kwargs : list (string * pyval))
| Log (level fmt : string) (args : list log_arg)
| Read
| Sleep (delay : Q).

(** What [session.request] gives: a response, or an exception of the
    transport. *)
Inductive reply : Type :=
| Answer (resp : ClientResponse)
| Fails (e : exn).

(** The world a call runs in: the remote end, which decides the reply to
    the [n]-th request sent to it, and the trace of effects so far. *)
Record world : Type := {
  server : nat -> reply;
  trace : list event
}.

Definition is_request (e : event) : bool :=
  match e with Request _ _ _ => true | _ => false end.

(** Number of HTTP attempts recorded in a trace. *)
Definition requests (t : list event) : nat :=
  List.length (filter is_request t).

(** The delays slept in a trace, in order. *)
Fixpoint sleeps (t : list event) : list Q :=
  match t with
  | [] => []
  | Sleep d :: rest => d :: sleeps rest
  | _ :: rest => sleeps rest
  end.

Definition emit_to (w : world) (e : event) : world :=
  {| server := server w; trace := trace w ++ [e] |}.

(** Effectful code: it may raise, and it extends the trace. *)
Definition io (A : Type) : Type := world -> outcome A * world.

Module IO.

Definition ret {A} (a : A) : io A := fun w => (Ret a, w).

Definition raise {A} (e : exn) : io A := fun w => (Raise e, w).

Definition bind {A B} (m : io A) (k : A -> io B) : io B :=
  fun w =>
    match m w with
    | (Ret a, w') => k a w'
    | (Raise e, w') => (Raise e, w')
    end.

(** Run code that only computes. *)
Definition lift {A} (m : outcome A) : io A := fun w => (m, w).

Definition emit (e : event) : io unit := fun w => (Ret tt, emit_to w e).

(** [await resp.read()]: the body is read off the connection, which may
    fail (aiohttp raises [ClientPayloadError] on a truncated body). *)
Definition await_read (resp : ClientResponse) : io unit :=
  fun w => (read resp, emit_to w Read).

(** [async with session.request(method, url, **kwargs) as resp]. *)
Definition session_request (method url : string)
    (kwargs : list (string * pyval)) : io ClientResponse :=
  fun w =>
    let w' := emit_to w (Request method url kwargs) in
    match server w (requests (trace w)) with
    | Answer resp => (Ret resp, w')
    | Fails e => (Raise e, w')
    end.

(** [try: body  except classes: return None] around effectful code: [None]
    when an exception of [classes] was caught. *)
Definition catch {A} (m : io A) (classes : list pyclass) : io (option A) :=
  fun w =>
    match m w with
    | (Ret a, w') => (Ret (Some a), w')
    | (Raise e, w') =>
        if isinstance e classes then (Ret None, w') else (Raise e, w')
    end.

(** What one turn of a [for] loop asks for: go on with the next item, or
    leave the function with [return a]. *)
Inductive flow (A : Type) : Type :=
| Continue
| Return (a : A).
Arguments Continue {A}.
Arguments Return {A} a.

(** [for i in items: body(i)]; a function whose loop runs out returns
    Python's [None], here [None]. *)
Fixpoint for_each {I A} (items : list I) (body : I -> io (flow A)) : io (option A) :=
  match items with
  | [] => ret None
  | i :: rest =>
      bind (body i) (fun f =>
        match f with
        | Continue => for_each rest body
        | Return a => ret (Some a)
        end)
  end.

End IO.

Declare Scope io_scope.
Delimit Scope io_scope with io.
Notation "x <- m ;; k" := (IO.bind m (fun x => k))
  (at level 61, m at next level, right associativity) : io_scope.
Notation "m ;; k" := (IO.bind m (fun _ => k))
  (at level 61, right associativity) : io_scope.

(* ================================================================== *)
(** ** [_http_client.py] *)
(* ================================================================== *)

(** Status -> exception class. *)
Definition _STATUS_TO_ERROR : list (Z * mojang_exc) :=
  [ (400, BadRequest); (401, Unauthorized); (403, Forbidden);
    (404, NotFound); (429, TooManyRequests) ].

Fixpoint status_lookup (s : Z) (table : list (Z * mojang_exc)) : option mojang_exc :=
  match table with
  | [] => None
  | (k, c) :: rest => if k =? s then Some c else status_lookup s rest
  end.

Definition _DEFAULT_MAX_ATTEMPTS : Z := 3.

(** The slots of [_HTTPClient]; the session itself is the [server] of the
    world. *)
Record _HTTPClient : Type := {
  _max_attempts : Z;
  _owns_session : bool;
  _retry : bool;
  _retry_delay : Q
}.

(** [_HTTPClient.__init__]; [session_given] tells whether a session was
    passed. *)
Definition _HTTPClient_init (session_given : bool) (retry_on_ratelimit : bool)
    (ratelimit_sleep_time : Q) (max_attempts : Z) : outcome _HTTPClient :=
  if max_attempts <? 1 then
    Raise (PyErr ValueError
      ("max_attempts must be at least 1, got " ++ str_int max_attempts))
  else
    Ret {| _max_attempts := max_attempts;
           _owns_session := negb session_given;
           _retry := retry_on_ratelimit;
           _retry_delay := ratelimit_sleep_time |}.

(** [2 ** n] for an int [n]: the int [2^n] when [n >= 0]; otherwise a float,
    which is [2^n] itself down to the smallest subnormal [2^-1074] and
    [0.0] below it. *)
Definition pow2 (n : Z) : Z + Q :=
  if 0 <=? n then inl (2 ^ n)
  else inr (if n <? -1074 then 0 else Qpower 2 n)%Q.

(** An int or a float as an argument of a log record, and as the number of
    seconds given to [asyncio.sleep]. *)
Definition log_number (x : Z + Q) : log_arg :=
  match x with inl z => LInt z | inr q => LNum q end.

Definition seconds (x : Z + Q) : Q :=
  match x with inl z => inject_Z z | inr q => q end.

(** Retry on 429 (if enabled) or transient 5xx. *)
Definition _maybe_retry (self : _HTTPClient) (resp : ClientResponse)
    (attempt : Z) : io bool :=
  (if attempt >=? _max_attempts self then IO.ret false
   else
     IO.await_read resp ;;
     if (status resp =? 429) && _retry self then
       IO.emit (Log "warning" "Rate-limited (attempt %d/%d). Sleeping %ss."
                  [LInt attempt; LInt (_max_attempts self);
                   LNum (_retry_delay self)]) ;;
       IO.emit (Sleep (_retry_delay self)) ;;
       IO.ret true
     else if existsb (Z.eqb (status resp)) [502; 503; 504] then
       let delay := pow2 (attempt - 1) in
       IO.emit (Log "warning"
                  "Transient server error %d (attempt %d/%d). Retrying in %ds."
                  [LInt (status resp); LInt attempt;
                   LInt (_max_attempts self); log_number delay]) ;;
       IO.emit (Sleep (seconds delay)) ;;
       IO.ret true
     else IO.ret false)%io.

(** [resp.reason or 'error']. *)
Definition reason_or_error (resp : ClientResponse) : string :=
  match reason resp with
  | Some r => if String.eqb r "" then "error" else r
  | None => "error"
  end.

(** The [try] block of [_raise_for_status]: the detail of the error. *)
Definition error_detail (resp : ClientResponse) : outcome pyval :=
  try_except_as
    (error_data <- json resp ;;
     errorMessage <- get error_data "errorMessage" PyNone ;;
     if truthy errorMessage then Ret errorMessage
     else
       error <- get error_data "error" PyNone ;;
       if truthy error then Ret error
       else Ret (PyStr ("HTTP " ++ str_int (status resp))))%py
    [JSONDecodeError; ContentTypeError]
    (fun _ =>
       Ret (PyStr ("HTTP " ++ str_int (status resp) ++ " "
                     ++ reason_or_error resp ++ " for " ++ url_path resp))).

(** Map a non-2xx response to the appropriate exception.  The function is
    [NoReturn]: the result is the exception it raises. *)
Definition _raise_for_status (resp : ClientResponse) : exn :=
  match error_detail resp with
  | Raise e => e
  | Ret detail =>
      match status_lookup (status resp) _STATUS_TO_ERROR with
      | Some exc_cls => errors.new exc_cls (status resp) detail
      | None =>
          if status resp >=? 500 then errors.new ServerError (status resp) detail
          else errors.new MojangError (status resp) detail
      end
  end.

Section Request.

Context {T : Type}.

(** One turn of the loop of [_request]. *)
Definition _request_attempt (self : _HTTPClient) (method url : string)
    (deserialize : ClientResponse -> outcome T)
    (kwargs : list (string * pyval)) (attempt : Z) : io (IO.flow T) :=
  (resp <- IO.session_request method url kwargs ;;
   IO.emit (Log "debug" "API %s %s -> %d (attempt %d)"
              [LStr method; LStr url; LInt (status resp); LInt attempt]) ;;
   if ok resp then
     IO.lift
       (try_except_as
          (v <- deserialize resp ;; Ret (IO.Return v))%py
          [JSONDecodeError; ContentTypeError]
          (fun exc =>
             Raise (errors.new_MalformedResponse
                      ("Failed to deserialize " ++ method ++ " " ++ url
                         ++ ": " ++ exc))))
   else
     retry <- _maybe_retry self resp attempt ;;
     if retry : bool then IO.ret IO.Continue
     else IO.raise (_raise_for_status resp))%io.

Definition _request (self : _HTTPClient) (method url : string)
    (deserialize : ClientResponse -> outcome T)
    (kwargs : list (string * pyval)) : io (option T) :=
  IO.for_each (range 1 (_max_attempts self + 1))
    (_request_attempt self method url deserialize kwargs).

End Request.

(** A function that falls off its end returns [None]. *)
Definition or_None (o : option pyval) : pyval :=
  match o with Some v => v | None => PyNone end.

(** GET and return parsed JSON. *)
Definition _get_json (self : _HTTPClient) (url : string)
    (kwargs : list (string * pyval)) : io pyval :=
  (r <- _request self "GET" url json kwargs ;; IO.ret (or_None r))%io.

(** POST and return parsed JSON. *)
Definition _post_json (self : _HTTPClient) (url : string)
    (kwargs : list (string * pyval)) : io pyval :=
  (r <- _request self "POST" url json kwargs ;; IO.ret (or_None r))%io.

(** GET and return plain text. *)
Definition _get_text (self : _HTTPClient) (url : string)
    (kwargs : list (string * pyval)) : io (option string) :=
  _request self "GET" url text kwargs.

(* ================================================================== *)
(** ** [api.py] *)
(* ================================================================== *)

Definition _API_BASE_URL : string := "https://api.mojang.com".
Definition _SESSIONSERVER_BASE_URL : string := "https://sessionserver.mojang.com".
Definition _UUID_API_URL : string :=
  "https://api.minecraftservices.com/minecraft/profile/lookup/name".

Definition _MAX_BATCH : Z := 10.

(** Mojang endpoints may return 400 or 404 for "player not found". *)
Definition _NOT_FOUND_ERRORS : list pyclass := [Mojang NotFound; Mojang BadRequest].

Record API : Type := { _http : _HTTPClient }.

Definition API_init (session_given : bool) (retry_on_ratelimit : bool)
    (ratelimit_sleep_time : Q) (max_attempts : Z) : outcome API :=
  (http <- _HTTPClient_init session_given retry_on_ratelimit
             ratelimit_sleep_time max_attempts ;;
   Ret {| _http := http |})%py.

(** The body of the first [try] of [_parse_profile]:
    [json.loads(base64.b64decode(data["properties"][0]["value"]))]. *)
Definition decode_textures {L : PyLib} (data : pyval) : outcome pyval :=
  (properties <- getitem data "properties" ;;
   first <- getitem_int properties 0 ;;
   value <- getitem first "value" ;;
   raw <- b64decode value ;;
   json_loads raw)%py.

(** The rest of [_parse_profile], once the blob is decoded: the two
    [get]s that precede the second [try], then that [try]. *)
Definition build_profile {L : PyLib} (decoded : pyval) : outcome UserProfile :=
  (textures <- get decoded "textures" (PyDict []) ;;
   skin <- get textures "SKIN" (PyDict []) ;;
   try_except_as
     (profileId <- getitem decoded "profileId" ;;
      id_ <- uuid_UUID profileId ;;
      timestamp_ <- getitem decoded "timestamp" ;;
      name_ <- getitem decoded "profileName" ;;
      legacy <- get decoded "legacy" PyNone ;;
      skin_url_ <- get skin "url" PyNone ;;
      metadata <- get skin "metadata" (PyDict []) ;;
      skin_variant_ <- get metadata "model" (PyStr "classic") ;;
      cape <- get textures "CAPE" (PyDict []) ;;
      cape_url_ <- get cape "url" PyNone ;;
      Ret {| id := id_;
             timestamp := timestamp_;
             name := name_;
             is_legacy_profile := truthy legacy;
             skin_url := skin_url_;
             skin_variant := skin_variant_;
             cape_url := cape_url_ |})
     [KeyError; ValueError]
     (fun exc =>
        Raise (errors.new_MalformedResponse
                 ("Profile payload missing or invalid field: " ++ exc))))%py.

(** Decode the base64 textures blob into a [UserProfile]. *)
Definition _parse_profile {L : PyLib} (data : pyval) : outcome UserProfile :=
  (decoded <-
     try_except_as (decode_textures data)
       [KeyError; IndexError; JSONDecodeError; binascii_Error]
       (fun exc =>
          Raise (errors.new_MalformedResponse
                   ("Cannot decode profile textures: " ++ exc))) ;;
   build_profile decoded)%py.

(** Look up a player's UUID by username, or [None] if not found. *)
Definition get_uuid {L : PyLib} (self : API) (username : string)
    : io (option uuid.UUID) :=
  (IO.lift (_assert_valid_username username) ;;
   found <- IO.catch
              (_get_json (_http self) (_UUID_API_URL ++ "/" ++ username) [])
              _NOT_FOUND_ERRORS ;;
   match found with
   | None => IO.ret None
   | Some data =>
       raw <- IO.lift
                (try_except_as (getitem data "id")
                   [KeyError; TypeError; AttributeError]
                   (fun exc =>
                      Raise (errors.new_MalformedResponse
                               ("UUID lookup response missing 'id': " ++ exc)))) ;;
       if truthy raw then
         u <- IO.lift (uuid_UUID raw) ;; IO.ret (Some u)
       else IO.ret None
   end)%io.

(** [for name in names: _assert_valid_username(name)]. *)
Fixpoint assert_valid_usernames (names : list string) : outcome unit :=
  match names with
  | [] => Ret tt
  | name_ :: rest =>
      (_assert_valid_username name_ ;; assert_valid_usernames rest)%py
  end.

(** The items [for entry in data] visits. *)
Definition iter (data : pyval) : outcome (list pyval) :=
  match data with
  | PyList l => Ret l
  | PyDict d => Ret (map (fun kv => PyStr (fst kv)) d)
  | PyStr s => Ret (map (fun c => PyStr (String c "")) (list_ascii_of_string s))
  | _ => Raise (PyErr TypeError
                  ("'" ++ type_name data ++ "' object is not iterable"))
  end.

(** The number a hashable key compares as: [True == 1 == 1.0]. *)
Definition key_number (k : pyval) : option Q :=
  match k with
  | PyBool b => Some (inject_Z (if b then 1 else 0))
  | PyInt z => Some (inject_Z z)
  | PyFloat q => Some q
  | _ => None
  end.

(** [k1 == k2] for the hashable values [None], [bool], [int], [float], [str]. *)
Definition key_eqb (k1 k2 : pyval) : bool :=
  match k1, k2 with
  | PyNone, PyNone => true
  | PyStr a, PyStr b => String.eqb a b
  | _, _ =>
      match key_number k1, key_number k2 with
      | Some a, Some b => Qeq_bool a b
      | _, _ => false
      end
  end.

(** [d[k] = v] on a [dict] in insertion order: an equal key keeps its place
    and its first spelling; a [list] or [dict] key is unhashable. *)
Fixpoint dict_store {V} (d : list (pyval * V)) (k : pyval) (v : V) : list (pyval * V) :=
  match d with
  | [] => [(k, v)]
  | (k', v') :: rest =>
      if key_eqb k' k then (k', v) :: rest else (k', v') :: dict_store rest k v
  end.

Definition hashable (k : pyval) : outcome unit :=
  match k with
  | PyList _ | PyDict _ =>
      Raise (PyErr TypeError ("unhashable type: '" ++ type_name k ++ "'"))
  | _ => Ret tt
  end.

(** [{entry["name"]: uuid.UUID(entry["id"]) for entry in entries}], with
    [acc] the dict built so far. *)
Fixpoint names_to_uuids {L : PyLib} (entries : list pyval)
    (acc : list (pyval * uuid.UUID)) : outcome (list (pyval * uuid.UUID)) :=
  match entries with
  | [] => Ret acc
  | entry :: rest =>
      (key <- getitem entry "name" ;;
       raw <- getitem entry "id" ;;
       u <- uuid_UUID raw ;;
       hashable key ;;
       names_to_uuids rest (dict_store acc key u))%py
  end.

(** Batch-convert up to 10 usernames to UUIDs. *)
Definition get_uuids {L : PyLib} (self : API) (names : list string)
    : io (list (pyval * uuid.UUID)) :=
  (if Z.of_nat (List.length names) >? _MAX_BATCH then
     IO.raise (PyErr ValueError
       ("Mojang batch API accepts at most " ++ str_int _MAX_BATCH
          ++ " names, got " ++ str_int (Z.of_nat (List.length names))))
   else
     IO.lift (assert_valid_usernames names) ;;
     found <- IO.catch
                (_post_json (_http self) (_API_BASE_URL ++ "/profiles/minecraft")
                   [("json", PyList (map PyStr names))])
                _NOT_FOUND_ERRORS ;;
     match found with
     | None => IO.ret []
     | Some data =>
         IO.lift
           (try_except_as
              (entries <- iter data ;; names_to_uuids entries [])%py
              [TypeError; KeyError; ValueError]
              (fun exc =>
                 Raise (errors.new_MalformedResponse
                          ("Unexpected batch-lookup response shape: " ++ exc))))
     end)%io.

(** Convert a UUID to its current username, or [None] if not found. *)
Definition get_username {L : PyLib} (self : API) (player : uuid.UUID + string)
    : io pyval :=
  (uid <- IO.lift (_parse_uuid player) ;;
   found <- IO.catch
              (_get_json (_http self)
                 (_SESSIONSERVER_BASE_URL ++ "/session/minecraft/profile/"
                    ++ uuid.hex uid) [])
              _NOT_FOUND_ERRORS ;;
   match found with
   | None => IO.ret PyNone
   | Some data =>
       IO.lift
         (try_except_as (getitem data "name")
            [KeyError; TypeError; AttributeError]
            (fun exc =>
               Raise (errors.new_MalformedResponse
                        ("Profile response missing 'name': " ++ exc))))
   end)%io.

(** Full profile with decoded texture data, or [None] if not found. *)
Definition get_profile {L : PyLib} (self : API) (player : uuid.UUID + string)
    : io (option UserProfile) :=
  (uid <- IO.lift (_parse_uuid player) ;;
   found <- IO.catch
              (_get_json (_http self)
                 (_SESSIONSERVER_BASE_URL ++ "/session/minecraft/profile/"
                    ++ uuid.hex uid) [])
              _NOT_FOUND_ERRORS ;;
   match found with
   | None => IO.ret None
   | Some data => p <- IO.lift (_parse_profile data) ;; IO.ret (Some p)
   end)%io.

(* ================================================================== *)
(** ** A reference instance of the library calls *)
(* ================================================================== *)

(** Executable versions of the three library calls, used to run the
    package on concrete documents.
    - [a2b_base64] transcribes the loop of CPython's [binascii.a2b_base64]
      in its default, non-strict mode, and [base64_b64decode] the wrapper
      [base64.b64decode];
    - [loads] reads ASCII documents without fractions, exponents and
      [\u] escapes, and does not reproduce the position that
      [JSONDecodeError] appends to its message;
    - [UUID_of_str] reads 32 hexadecimal digits with optional dashes. *)
Module CPython.

(** [table_a2b_base64]: the value of a character of the alphabet. *)
Definition b64_value (c : ascii) : option Z :=
  let n := Z.of_N (N_of_ascii c) in
  if (65 <=? n) && (n <=? 90) then Some (n - 65)
  else if (97 <=? n) && (n <=? 122) then Some (n - 71)
  else if (48 <=? n) && (n <=? 57) then Some (n + 4)
  else if n =? 43 then Some 62
  else if n =? 47 then Some 63
  else None.

Definition to_byte (z : Z) : byte :=
  match Byte.of_N (Z.to_N z) with Some b => b | None => x00 end.

Fixpoint a2b_base64 (data : list ascii) (quad_pos leftchar pads : Z)
    (bin : list byte) : outcome (list byte) :=
  match data with
  | [] =>
      if quad_pos =? 0 then Ret bin
      else if quad_pos =? 1 then
        Raise (PyErr binascii_Error
          ("Invalid base64-encoded string: number of data characters ("
             ++ str_int (Z.of_nat (List.length bin) / 3 * 4 + 1)
             ++ ") cannot be 1 more than a multiple of 4"))
      else Raise (PyErr binascii_Error "Incorrect padding")
  | this_ch :: rest =>
      if Ascii.eqb this_ch "=" then
        if (quad_pos >=? 2) && (quad_pos + (pads + 1) >=? 4) then Ret bin
        else a2b_base64 rest quad_pos leftchar
               (if quad_pos >=? 2 then pads + 1 else pads) bin
      else
        match b64_value this_ch with
        | None => a2b_base64 rest quad_pos leftchar pads bin
        | Some v =>
            if quad_pos =? 0 then a2b_base64 rest 1 v 0 bin
            else if quad_pos =? 1 then
              a2b_base64 rest 2 (Z.land v 15) 0
                (bin ++ [to_byte (Z.lor (Z.shiftl leftchar 2) (Z.shiftr v 4))])
            else if quad_pos =? 2 then
              a2b_base64 rest 3 (Z.land v 3) 0
                (bin ++ [to_byte (Z.lor (Z.shiftl leftchar 4) (Z.shiftr v 2))])
            else
              a2b_base64 rest 0 0 0
                (bin ++ [to_byte (Z.lor (Z.shiftl leftchar 6) v)])
        end
  end.

Definition base64_b64decode (s : pyval) : outcome (list byte) :=
  match s with
  | PyStr text_ =>
      if isascii text_ then a2b_base64 (list_ascii_of_string text_) 0 0 0 []
      else Raise (PyErr ValueError
                    "string argument should contain only ASCII characters")
  | _ => Raise (PyErr TypeError
                  ("argument should be a bytes-like object or ASCII string, not '"
                     ++ type_name s ++ "'"))
  end.

Definition is_ws (c : ascii) : bool :=
  let n := N_of_ascii c in
  ((n =? 32) || (n =? 9) || (n =? 10) || (n =? 13))%N.

Fixpoint skip_ws (s : list ascii) : list ascii :=
  match s with
  | c :: rest => if is_ws c then skip_ws rest else s
  | [] => []
  end.

Definition digit_value (c : ascii) : option Z :=
  let n := Z.of_N (N_of_ascii c) in
  if (48 <=? n) && (n <=? 57) then Some (n - 48) else None.

Fixpoint digits (s : list ascii) (acc : Z) : Z * list ascii :=
  match s with
  | c :: rest =>
      match digit_value c with
      | Some d => digits rest (10 * acc + d)
      | None => (acc, s)
      end
  | [] => (acc, [])
  end.

(** An integer literal: [-]? ( 0 | [1-9][0-9]* ), not followed by a
    fraction or an exponent. *)
Definition number (s : list ascii) : option (Z * list ascii) :=
  let '(negative, s1) :=
    match s with
    | "-"%char :: r => (true, r)
    | _ => (false, s)
    end in
  match s1 with
  | c :: r =>
      match digit_value c with
      | Some d =>
          let '(n, rest) := if d =? 0 then (0, r) else digits r d in
          match rest with
          | "."%char :: _ | "e"%char :: _ | "E"%char :: _ => None
          | _ => Some (if negative : bool then - n else n, rest)
          end
      | None => None
      end
  | [] => None
  end.

Definition escape (c : ascii) : option ascii :=
  match c with
  | "034"%char => Some "034"%char
  | "\"%char => Some "\"%char
  | "/"%char => Some "/"%char
  | "b"%char => Some "008"%char
  | "f"%char => Some "012"%char
  | "n"%char => Some "010"%char
  | "r"%char => Some "013"%char
  | "t"%char => Some "009"%char
  | _ => None
  end.

(** The rest of a string literal, after its opening quote. *)
Fixpoint string_body (s : list ascii) (acc : string) : option (string * list ascii) :=
  match s with
  | [] => None
  | "034"%char :: rest => Some (acc, rest)
  | "\"%char :: e :: rest =>
      match escape e with
      | Some c => string_body rest (acc ++ String c "")
      | None => None
      end
  | c :: rest =>
      if (N_of_ascii c <? 32)%N then None
      else string_body rest (acc ++ String c "")
  end.

(** A repeated name keeps its place and takes the last value. *)
Fixpoint member_store (d : list (string * pyval)) (k : string) (v : pyval)
    : list (string * pyval) :=
  match d with
  | [] => [(k, v)]
  | (k', v') :: rest =>
      if String.eqb k' k then (k', v) :: rest
      else (k', v') :: member_store rest k v
  end.

Fixpoint value (fuel : nat) (s : list ascii) {struct fuel}
    : option (pyval * list ascii) :=
  match fuel with
  | O => None
  | S f =>
      match skip_ws s with
      | "{"%char :: rest =>
          match skip_ws rest with
          | "}"%char :: rest' => Some (PyDict [], rest')
          | rest' => members f rest' []
          end
      | "["%char :: rest =>
          match skip_ws rest with
          | "]"%char :: rest' => Some (PyList [], rest')
          | rest' => elements f rest' []
          end
      | "034"%char :: rest =>
          match string_body rest "" with
          | Some (str, rest') => Some (PyStr str, rest')
          | None => None
          end
      | "t"%char :: "r"%char :: "u"%char :: "e"%char :: rest =>
          Some (PyBool true, rest)
      | "f"%char :: "a"%char :: "l"%char :: "s"%char :: "e"%char :: rest =>
          Some (PyBool false, rest)
      | "n"%char :: "u"%char :: "l"%char :: "l"%char :: rest =>
          Some (PyNone, rest)
      | s' =>
          match number s' with
          | Some (n, rest) => Some (PyInt n, rest)
          | None => None
          end
      end
  end
with elements (fuel : nat) (s : list ascii) (acc : list pyval) {struct fuel}
    : option (pyval * list ascii) :=
  match fuel with
  | O => None
  | S f =>
      match value f s with
      | Some (v, rest) =>
          match skip_ws rest with
          | ","%char :: rest' => elements f rest' (acc ++ [v])
          | "]"%char :: rest' => Some (PyList (acc ++ [v]), rest')
          | _ => None
          end
      | None => None
      end
  end
with members (fuel : nat) (s : list ascii) (acc : list (string * pyval))
    {struct fuel} : option (pyval * list ascii) :=
  match fuel with
  | O => None
  | S f =>
      match skip_ws s with
      | "034"%char :: rest =>
          match string_body rest "" with
          | Some (key, rest1) =>
              match skip_ws rest1 with
              | ":"%char :: rest2 =>
                  match value f rest2 with
                  | Some (v, rest3) =>
                      match skip_ws rest3 with
                      | ","%char :: rest4 =>
                          members f rest4 (member_store acc key v)
                      | "}"%char :: rest4 =>
                          Some (PyDict (member_store acc key v), rest4)
                      | _ => None
                      end
                  | None => None
                  end
              | _ => None
              end
          | None => None
          end
      | _ => None
      end
  end.

Definition loads (b : list byte) : outcome pyval :=
  let doc := string_of_list_byte b in
  if isascii doc then
    let s := list_ascii_of_string doc in
    match value (2 * List.length s + 2) s with
    | Some (v, rest) =>
        match skip_ws rest with
        | [] => Ret v
        | _ => Raise (PyErr JSONDecodeError "Extra data")
        end
    | None => Raise (PyErr JSONDecodeError "Expecting value")
    end
  else Raise (PyErr UnicodeDecodeError "'utf-8' codec can't decode byte").

Definition hex_value (c : ascii) : option Z :=
  let n := Z.of_N (N_of_ascii c) in
  if (48 <=? n) && (n <=? 57) then Some (n - 48)
  else if (97 <=? n) && (n <=? 102) then Some (n - 87)
  else if (65 <=? n) && (n <=? 70) then Some (n - 55)
  else None.

Fixpoint int16 (s : list ascii) (acc : Z) : option Z :=
  match s with
  | [] => Some acc
  | c :: rest =>
      match hex_value c with
      | Some d => int16 rest (16 * acc + d)
      | None => None
      end
  end.

Definition UUID_of_str (s : string) : uuid.UUID + string :=
  let hex := filter (fun c => negb (Ascii.eqb c "-")) (list_ascii_of_string s) in
  if negb (Nat.eqb (List.length hex) 32) then
    inr "badly formed hexadecimal UUID string"%string
  else
    match int16 hex 0 with
    | Some n => inl {| uuid.int := n |}
    | None =>
        inr ("invalid literal for int() with base 16: "
               ++ repr_str (string_of_list_ascii hex))%string
    end.

Definition lib : PyLib :=
  {| uuid_parse := UUID_of_str;
     b64decode := base64_b64decode;
     json_loads := loads |}.

End CPython.

(* ================================================================== *)
(** ** Traces and documents: vocabulary of the statements *)
(* ================================================================== *)

(** [extends w w' t]: running from [w] to [w'] left the server alone and
    appended the effects [t]. *)
Definition extends (w w' : world) (t : list event) : Prop :=
  server w' = server w /\ trace w' = trace w ++ t.

(** The debug line [_request] logs for each attempt. *)
Definition attempt_log (method url : string) (resp : ClientResponse)
    (attempt : Z) : event :=
  Log "debug" "API %s %s -> %d (attempt %d)"
    [LStr method; LStr url; LInt (status resp); LInt attempt].

(** The warning [_maybe_retry] logs before an exponential backoff. *)
Definition backoff_log (self : _HTTPClient) (resp : ClientResponse)
    (attempt : Z) : event :=
  Log "warning" "Transient server error %d (attempt %d/%d). Retrying in %ds."
    [LInt (status resp); LInt attempt; LInt (_max_attempts self);
     log_number (pow2 (attempt - 1))].

(** The warning [_maybe_retry] logs before a rate-limit pause. *)
Definition ratelimit_log (self : _HTTPClient) (attempt : Z) : event :=
  Log "warning" "Rate-limited (attempt %d/%d). Sleeping %ss."
    [LInt attempt; LInt (_max_attempts self); LNum (_retry_delay self)].

(** The body of [resp] can be drained: [await resp.read()] returns. *)
Definition drains (resp : ClientResponse) : Prop := read resp = Ret tt.

(** The statuses [_maybe_retry] backs off on. *)
Definition transient (resp : ClientResponse) : bool :=
  existsb (Z.eqb (status resp)) [502; 503; 504].

(** The responses [_maybe_retry] retries while attempts remain. *)
Definition retry_eligible (self : _HTTPClient) (resp : ClientResponse) : bool :=
  ((status resp =? 429) && _retry self) || transient resp.

(** The world [w] once the effects [t] have happened. *)
Definition after (w : world) (t : list event) : world :=
  {| server := server w; trace := trace w ++ t |}.

(** The reply the server gives to the next request sent from [w]. *)
Definition next_reply (w : world) : reply := server w (requests (trace w)).

(** The reply to the request that follows [n] further requests. *)
Definition reply_after (w : world) (n : nat) : reply :=
  server w (requests (trace w) + n)%nat.

(** The status-to-kind table of the classifier: the five entries of
    [_STATUS_TO_ERROR], then [ServerError] from 500 on, then the base
    class. *)
Definition classify (s : Z) : mojang_exc :=
  match status_lookup s _STATUS_TO_ERROR with
  | Some cls => cls
  | None => if s >=? 500 then ServerError else MojangError
  end.

(** The detail [_raise_for_status] reads from a JSON object: the first
    truthy one of its fields [errorMessage] and [error], else
    ["HTTP <status>"]. *)
Definition object_detail (s : Z) (d : list (string * pyval)) : pyval :=
  match dict_lookup "errorMessage" d with
  | Some m =>
      if truthy m then m
      else match dict_lookup "error" d with
           | Some e => if truthy e then e else PyStr ("HTTP " ++ str_int s)
           | None => PyStr ("HTTP " ++ str_int s)
           end
  | None =>
      match dict_lookup "error" d with
      | Some e => if truthy e then e else PyStr ("HTTP " ++ str_int s)
      | None => PyStr ("HTTP " ++ str_int s)
      end
  end.

(** The detail for a body that is not JSON. *)
Definition fallback_detail (resp : ClientResponse) : pyval :=
  PyStr ("HTTP " ++ str_int (status resp) ++ " " ++ reason_or_error resp
           ++ " for " ++ url_path resp).

(** The message of the [MalformedResponse] that [_request] raises. *)
Definition deserialize_failure (method url exc : string) : exn :=
  MojangErr MalformedResponse 0
    (PyStr ("Failed to deserialize " ++ method ++ " " ++ url ++ ": " ++ exc)).

(** *** Concrete runs *)

Definition client3 : _HTTPClient :=
  {| _max_attempts := 3; _owns_session := true;
     _retry := false; _retry_delay := 60 |}.

(** A response whose body is the JSON document [[]]. *)
Definition array_body (s : Z) (phrase : string) : ClientResponse :=
  {| status := s; reason := Some phrase; url_path := "/lookup";
     json := Ret (PyList []); text := Ret "[]"; read := Ret tt |}.

(** A response whose body is the JSON object
    [{"errorMessage": "<message>"}]. *)
Definition object_body (s : Z) (phrase message : string) : ClientResponse :=
  {| status := s; reason := Some phrase; url_path := "/lookup";
     json := Ret (PyDict [("errorMessage", PyStr message)]);
     text := Ret ""; read := Ret tt |}.

(** A 200 whose bytes are not text in the charset of the response: both
    [resp.text()] and [resp.json()] fail to decode them. *)
Definition undecodable_success : ClientResponse :=
  {| status := 200; reason := Some "OK"; url_path := "/blockedservers";
     json := Raise (PyErr UnicodeDecodeError
       "'utf-8' codec can't decode byte 0xff in position 0: invalid start byte");
     text := Raise (PyErr UnicodeDecodeError
       "'utf-8' codec can't decode byte 0xff in position 0: invalid start byte");
     read := Ret tt |}.

(** A success whose body is not JSON. *)
Definition garbled_success : ClientResponse :=
  {| status := 200; reason := Some "OK"; url_path := "/lookup";
     json := Raise (PyErr JSONDecodeError
                      "Expecting value: line 1 column 1 (char 0)");
     text := Ret "<html>"; read := Ret tt |}.

(** A server that gives the same response to every request, seen before
    any request was sent. *)
Definition always (resp : ClientResponse) : world :=
  {| server := fun _ => Answer resp; trace := [] |}.

(** The URL [get_username] and [get_profile] request. *)
Definition profile_url (uid : uuid.UUID) : string :=
  _SESSIONSERVER_BASE_URL ++ "/session/minecraft/profile/" ++ uuid.hex uid.

Definition api3 : API := {| _http := client3 |}.

(** A 200 whose body is the JSON object [{"id": ""}]. *)
Definition empty_id_success : ClientResponse :=
  {| status := 200; reason := Some "OK"; url_path := "/lookup";
     json := Ret (PyDict [("id", PyStr "")]); text := Ret ""; read := Ret tt |}.

Definition notch_uuid : uuid.UUID :=
  {| uuid.int := 8777455215484550409597702120127638261 |}.

(** *** Profile documents *)

(** The value found by following the keys [path] through nested objects. *)
Fixpoint at_path (path : list string) (v : pyval) : option pyval :=
  match path with
  | [] => Some v
  | key :: rest =>
      match v with
      | PyDict d =>
          match dict_lookup key d with
          | Some v' => at_path rest v'
          | None => None
          end
      | _ => None
      end
  end.

Definition is_dict (v : pyval) : bool :=
  match v with PyDict _ => true | _ => false end.

Definition is_str (v : pyval) : bool :=
  match v with PyStr _ => true | _ => false end.

Definition is_int (v : pyval) : bool :=
  match v with PyInt _ => true | _ => false end.

Definition is_bool (v : pyval) : bool :=
  match v with PyBool _ => true | _ => false end.

Definition is_nonempty_str (v : pyval) : bool :=
  match v with PyStr s => negb (String.eqb s "") | _ => false end.

Definition present (p : pyval -> bool) (o : option pyval) : bool :=
  match o with Some v => p v | None => false end.

Definition absent_or (p : pyval -> bool) (o : option pyval) : bool :=
  match o with Some v => p v | None => true end.

(** The shape [build_profile] relies on: an object with the three required
    keys, [profileId] a string, and objects (or nothing) where it descends:
    [textures], [textures.SKIN], [textures.SKIN.metadata],
    [textures.CAPE]. *)
Definition payload_shape (payload : pyval) : bool :=
  is_dict payload
  && present is_str (at_path ["profileId"] payload)
  && present (fun _ => true) (at_path ["timestamp"] payload)
  && present (fun _ => true) (at_path ["profileName"] payload)
  && absent_or is_dict (at_path ["textures"] payload)
  && absent_or is_dict (at_path ["textures"; "SKIN"] payload)
  && absent_or is_dict (at_path ["textures"; "SKIN"; "metadata"] payload)
  && absent_or is_dict (at_path ["textures"; "CAPE"] payload).

(** Well-formed profile JSON: the shape above with every field of its
    documented type: [timestamp] an integer, [profileName] a string,
    [legacy] a boolean if present, the URLs and the model strings if
    present. *)
Definition well_formed_payload (payload : pyval) : bool :=
  payload_shape payload
  && present is_int (at_path ["timestamp"] payload)
  && present is_str (at_path ["profileName"] payload)
  && absent_or is_bool (at_path ["legacy"] payload)
  && absent_or is_str (at_path ["textures"; "SKIN"; "url"] payload)
  && absent_or is_str (at_path ["textures"; "SKIN"; "metadata"; "model"] payload)
  && absent_or is_str (at_path ["textures"; "CAPE"; "url"] payload).

(** The profile the specification describes for a payload: [id] parsed
    from [profileId], [name] from [profileName], [is_legacy_profile] from
    [legacy] with absent = false, [skin_url] and [skin_variant] from
    [textures.SKIN], the variant defaulting to ["classic"], [cape_url] from
    [textures.CAPE.url]; an absent optional field is [None]. *)
Definition spec_profile (uid : uuid.UUID) (payload : pyval) : UserProfile :=
  {| id := uid;
     timestamp := or_None (at_path ["timestamp"] payload);
     name := or_None (at_path ["profileName"] payload);
     is_legacy_profile :=
       match at_path ["legacy"] payload with
       | Some v => truthy v
       | None => false
       end;
     skin_variant :=
       match at_path ["textures"; "SKIN"; "metadata"; "model"] payload with
       | Some model => model
       | None => PyStr "classic"
       end;
     skin_url := or_None (at_path ["textures"; "SKIN"; "url"] payload);
     cape_url := or_None (at_path ["textures"; "CAPE"; "url"] payload) |}.

(** [properties[0].value] of a raw profile document, when the document is
    an object whose [properties] is a list that starts with an object
    holding [value]. *)
Definition textures_value (raw : pyval) : option pyval :=
  match at_path ["properties"] raw with
  | Some (PyList (PyDict first :: _)) => dict_lookup "value" first
  | _ => None
  end.

(** The structural problems of a raw profile document that
    [_parse_profile] reports. *)
Inductive structural_problem {L : PyLib} : pyval -> Prop :=
| no_properties (d : list (string * pyval)) :
    dict_lookup "properties" d = None ->
    structural_problem (PyDict d)
| empty_properties (d : list (string * pyval)) :
    dict_lookup "properties" d = Some (PyList []) ->
    structural_problem (PyDict d)
| no_value (d first : list (string * pyval)) (others : list pyval) :
    dict_lookup "properties" d = Some (PyList (PyDict first :: others)) ->
    dict_lookup "value" first = None ->
    structural_problem (PyDict d)
| not_base64 (raw value : pyval) (msg : string) :
    textures_value raw = Some value ->
    b64decode value = Raise (PyErr binascii_Error msg) ->
    structural_problem raw
| not_json (raw value : pyval) (blob : list byte) (msg : string) :
    textures_value raw = Some value ->
    b64decode value = Ret blob ->
    json_loads blob = Raise (PyErr JSONDecodeError msg) ->
    structural_problem raw
| missing_profileId (raw payload : pyval) :
    decode_textures raw = Ret payload ->
    is_dict payload = true ->
    absent_or is_dict (at_path ["textures"] payload) = true ->
    at_path ["profileId"] payload = None ->
    structural_problem raw
| invalid_profileId (raw payload : pyval) (s msg : string) :
    decode_textures raw = Ret payload ->
    absent_or is_dict (at_path ["textures"] payload) = true ->
    at_path ["profileId"] payload = Some (PyStr s) ->
    uuid_parse s = inr msg ->
    structural_problem raw
| missing_timestamp_or_name (raw payload : pyval) (s : string) :
    decode_textures raw = Ret payload ->
    absent_or is_dict (at_path ["textures"] payload) = true ->
    at_path ["profileId"] payload = Some (PyStr s) ->
    at_path ["timestamp"] payload = None
      \/ at_path ["profileName"] payload = None ->
    structural_problem raw.

(** A raw profile document as the session server sends it, with [blob] as
    [properties[0].value]. *)
Definition raw_profile (blob : string) : pyval :=
  PyDict [("id", PyStr "069a79f444e94726a5befca90e38aaf5");
          ("name", PyStr "Notch");
          ("properties",
           PyList [PyDict [("name", PyStr "textures");
                           ("value", PyStr blob)]])].

(** base64 of
    [{"profileId":"069a79f444e94726a5befca90e38aaf5","timestamp":1,"profileName":"Notch","legacy":false,"textures":{"SKIN":{"url":"http://x","metadata":{"model":"slim"}}}}]. *)
Definition notch_blob : string :=
  "eyJwcm9maWxlSWQiOiIwNjlhNzlmNDQ0ZTk0NzI2YTViZWZjYTkwZTM4YWFmNSIsInRpbWVzdGFtcCI6MSwicHJvZmlsZU5hbWUiOiJOb3RjaCIsImxlZ2FjeSI6ZmFsc2UsInRleHR1cmVzIjp7IlNLSU4iOnsidXJsIjoiaHR0cDovL3giLCJtZXRhZGF0YSI6eyJtb2RlbCI6InNsaW0ifX19fQ==".

Definition notch_payload : pyval :=
  PyDict [("profileId", PyStr "069a79f444e94726a5befca90e38aaf5");
          ("timestamp", PyInt 1);
          ("profileName", PyStr "Notch");
          ("legacy", PyBool false);
          ("textures",
           PyDict [("SKIN",
                    PyDict [("url", PyStr "http://x");
                            ("metadata", PyDict [("model", PyStr "slim")])])])].

(** base64 of
    [{"profileId":"069a79f444e94726a5befca90e38aaf5","timestamp":1,"profileName":"Notch","textures":{"SKIN":{"url":"http://x","metadata":{"model":""}}}}]:
    the model is the empty string. *)
Definition empty_model_blob : string :=
  "eyJwcm9maWxlSWQiOiIwNjlhNzlmNDQ0ZTk0NzI2YTViZWZjYTkwZTM4YWFmNSIsInRpbWVzdGFtcCI6MSwicHJvZmlsZU5hbWUiOiJOb3RjaCIsInRleHR1cmVzIjp7IlNLSU4iOnsidXJsIjoiaHR0cDovL3giLCJtZXRhZGF0YSI6eyJtb2RlbCI6IiJ9fX19".

(** base64 of
    [{"profileId":"069a79f444e94726a5befca90e38aaf5","timestamp":"soon","profileName":12345,"textures":{}}]:
    [timestamp] is a string and [profileName] a number. *)
Definition mistyped_blob : string :=
  "eyJwcm9maWxlSWQiOiIwNjlhNzlmNDQ0ZTk0NzI2YTViZWZjYTkwZTM4YWFmNSIsInRpbWVzdGFtcCI6InNvb24iLCJwcm9maWxlTmFtZSI6MTIzNDUsInRleHR1cmVzIjp7fX0=".

(** base64 of
    [{"profileId":"069a79f444e94726a5befca90e38aaf5","timestamp":1,"textures":{}}]:
    no [profileName]. *)
Definition nameless_blob : string :=
  "eyJwcm9maWxlSWQiOiIwNjlhNzlmNDQ0ZTk0NzI2YTViZWZjYTkwZTM4YWFmNSIsInRpbWVzdGFtcCI6MSwidGV4dHVyZXMiOnt9fQ==".

(** The bytes a base64 text stands for, none if it is not base64. *)
Definition blob_of (text_ : string) : list byte :=
  match CPython.base64_b64decode (PyStr text_) with
  | Ret blob => blob
  | Raise _ => []
  end.

(* ================================================================== *)
(** ** The rest of the package *)
(* ================================================================== *)

(** *** [errors.py]: the defaults of the constructors *)

(** The default of the keyword [status] in each class; the three login
    classes inherit [MojangError.__init__]. *)
Definition default_status (cls : mojang_exc) : Z :=
  match cls with
  | BadRequest => 400
  | Unauthorized => 401
  | Forbidden => 403
  | NotFound => 404
  | TooManyRequests => 429
  | ServerError => 500
  | MalformedResponse => 0
  | MojangError | LoginFailure | MissingMinecraftLicense
  | MissingMinecraftProfile => 0
  end.

(** The default of the keyword [detail] in each class. *)
Definition default_detail (cls : mojang_exc) : string :=
  match cls with
  | BadRequest => "Bad request"
  | Unauthorized => "Unauthorized"
  | Forbidden => "Forbidden"
  | NotFound => "Not found"
  | TooManyRequests => "Rate-limited"
  | ServerError => "Server error"
  | MalformedResponse => "Malformed response payload"
  | MojangError | LoginFailure | MissingMinecraftLicense
  | MissingMinecraftProfile => "Unknown Mojang API error"
  end.

(** [cls()]: the instance built without arguments. *)
Definition new_default (cls : mojang_exc) : exn :=
  MojangErr cls (default_status cls) (PyStr (default_detail cls)).

(** *** [_HTTPClient.close] and [API.close] *)

(** What [close] reads and changes of an [aiohttp.ClientSession]: its
    [closed] flag, which [session.close()] sets; [close_calls] counts how
    often [session.close()] ran. *)
Record ClientSession : Type := {
  closed : bool;
  close_calls : nat
}.

(** [await session.close()]. *)
Definition session_close (s : ClientSession) : ClientSession :=
  {| closed := true; close_calls := S (close_calls s) |}.

(** Close the session if we created it. *)
Definition close (self : _HTTPClient) (session : ClientSession) : ClientSession :=
  if _owns_session self && negb (closed session) then session_close session
  else session.

(** Close the underlying HTTP session. *)
Definition API_close (self : API) (session : ClientSession) : ClientSession :=
  close (_http self) session.

(** [API.__aenter__] returns the client itself. *)
Definition __aenter__ (self : API) : API := self.

(** [API.__aexit__] closes, whatever the exception information is. *)
Definition __aexit__ (self : API) (session : ClientSession) : ClientSession :=
  API_close self session.

(** *** [API.get_blocked_servers] *)

(** The line boundaries of [str.splitlines] among the code points below
    256: LF, VT, FF, CR, FS, GS, RS and NEL. *)
Definition is_linebreak (c : ascii) : bool :=
  existsb (N.eqb (N_of_ascii c)) [10; 11; 12; 13; 28; 29; 30; 133]%N.

(** [text.splitlines()], with [line] the characters read since the last
    boundary: a boundary ends the line, CR LF counting as one, and what
    follows the last boundary is a line only if it is not empty. *)
Fixpoint splitlines_from (text_ : string) (line : string) : list string :=
  match text_ with
  | EmptyString => if String.eqb line "" then [] else [line]
  | String c rest =>
      if is_linebreak c then
        line ::
        match rest with
        | String c' rest' =>
            if Ascii.eqb c "013" && Ascii.eqb c' "010"
            then splitlines_from rest' ""
            else splitlines_from rest ""
        | EmptyString => splitlines_from rest ""
        end
      else splitlines_from rest (line ++ String c "")
  end.

Definition splitlines (text_ : string) : list string :=
  splitlines_from text_ "".

(** SHA-1 hashes of blocked Minecraft servers. *)
Definition get_blocked_servers (self : API) : io (list string) :=
  (text_ <- _get_text (_http self)
              (_SESSIONSERVER_BASE_URL ++ "/blockedservers") [] ;;
   match text_ with
   | Some t => IO.ret (splitlines t)
   | None =>
       IO.raise (PyErr AttributeError
                   "'NoneType' object has no attribute 'splitlines'")
   end)%io.

(** *** Vocabulary of the further statements *)

(** The pause [_maybe_retry] makes before retrying [resp] after
    [attempt]. *)
Definition retry_pause (self : _HTTPClient) (resp : ClientResponse)
    (attempt : Z) : Q :=
  if (status resp =? 429) && _retry self then _retry_delay self
  else seconds (pow2 (attempt - 1)).

(** Every request recorded in [t] is the request [method url kwargs]. *)
Definition only_requests (method url : string)
    (kwargs : list (string * pyval)) (t : list event) : Prop :=
  Forall (fun e => is_request e = true -> e = Request method url kwargs) t.

(** The lines put end to end. *)
Definition join (lines : list string) : string :=
  fold_right String.append "" lines.

(** A username that [_assert_valid_username] accepts: 3 to 16 characters,
    all of them ASCII. *)
Definition valid_username (username : string) : Prop :=
  3 <= len username <= 16 /\ isascii username = true.

(** The text without its line boundaries. *)
Fixpoint without_linebreaks (text_ : string) : string :=
  match text_ with
  | EmptyString => ""
  | String c rest =>
      if is_linebreak c then without_linebreaks rest
      else String c (without_linebreaks rest)
  end.

Fixpoint has_linebreak (text_ : string) : bool :=
  match text_ with
  | EmptyString => false
  | String c rest => is_linebreak c || has_linebreak rest
  end.

(** An entry [{"name": n, "id": s}] of a batch response whose [s] is the
    UUID [u]. *)
Definition batch_entry {L : PyLib} (entry : pyval) (pair : string * uuid.UUID)
    : Prop :=
  exists (d : list (string * pyval)) (s : string),
    entry = PyDict d
    /\ dict_lookup "name" d = Some (PyStr (fst pair))
    /\ dict_lookup "id" d = Some (PyStr s)
    /\ uuid_parse s = inl (snd pair).

(** The dict [get_uuids] returns for the pairs (name, UUID). *)
Definition as_dict (pairs : list (string * uuid.UUID))
    : list (pyval * uuid.UUID) :=
  map (fun pair => (PyStr (fst pair), snd pair)) pairs.


(** A server the connection to which fails. *)
Definition unreachable : world :=
  {| server := fun _ => Fails (PyErr ClientError "Cannot connect to host");
     trace := [] |}.

(** A 200 whose JSON body is [body]. *)
Definition json_success (body : pyval) : ClientResponse :=
  {| status := 200; reason := Some "OK"; url_path := "/lookup";
     json := Ret body; text := Ret ""; read := Ret tt |}.

(** A 200 whose text is [body]. *)
Definition text_success (body : string) : ClientResponse :=
  {| status := 200; reason := Some "OK"; url_path := "/blockedservers";
     json := Raise (PyErr ContentTypeError "unexpected mimetype: text/plain");
     text := Ret body; read := Ret tt |}.

(** A response whose body breaks off before it is complete: the status
    and the headers are there, [await resp.read()] raises. *)
Definition truncated_body (s : Z) (phrase : string) : ClientResponse :=
  {| status := s; reason := Some phrase; url_path := "/lookup";
     json := Raise (PyErr ClientPayloadError "Response payload is not completed");
     text := Raise (PyErr ClientPayloadError "Response payload is not completed");
     read := Raise (PyErr ClientPayloadError "Response payload is not completed") |}.

Definition client_retrying : _HTTPClient :=
  {| _max_attempts := 3; _owns_session := true;
     _retry := true; _retry_delay := 60 |}.

(* ================================================================== *)
(** ** Traces *)
(* ================================================================== *)

Lemma requests_app (t1 t2 : list event) :
  requests (t1 ++ t2) = (requests t1 + requests t2)%nat.
Proof.
  unfold requests. now rewrite filter_app, length_app.
Qed.

Lemma sleeps_app (t1 t2 : list event) :
  sleeps (t1 ++ t2) = sleeps t1 ++ sleeps t2.
Proof.
  induction t1 as [|e t1 IH]; simpl; [reflexivity|].
  destruct e; simpl; now rewrite IH.
Qed.

Lemma extends_refl (w : world) : extends w w [].
Proof. split; [reflexivity | now rewrite app_nil_r]. Qed.

Lemma extends_trans (w1 w2 w3 : world) (t1 t2 : list event) :
  extends w1 w2 t1 -> extends w2 w3 t2 -> extends w1 w3 (t1 ++ t2).
Proof.
  intros [S1 T1] [S2 T2]. split.
  - congruence.
  - now rewrite T2, T1, app_assoc.
Qed.

Lemma extends_emit (w : world) (e : event) : extends w (emit_to w e) [e].
Proof. split; reflexivity. Qed.

(** Closes a goal [extends w w' ?t] where [w'] is [w] after some
    [emit_to]s. *)
Ltac trace_steps :=
  repeat first
    [ apply extends_refl
    | apply extends_emit
    | eapply extends_trans; [| apply extends_emit ] ].

(* ================================================================== *)
(** ** The attempt loop *)
(* ================================================================== *)

Lemma range_length (a b : Z) : List.length (range a b) = Z.to_nat (b - a).
Proof. unfold range. now rewrite length_map, length_seq. Qed.

Lemma range_In (a b i : Z) : In i (range a b) <-> a <= i < b.
Proof.
  unfold range. rewrite in_map_iff. split.
  - intros [n [E Hn]]. apply in_seq in Hn. lia.
  - intros Hi. exists (Z.to_nat (i - a)). split; [lia|].
    apply in_seq. lia.
Qed.

(** Once the attempts are used up, [_maybe_retry] declines and has no
    effect: it neither drains the body nor sleeps. *)
Lemma maybe_retry_exhausted (self : _HTTPClient) (resp : ClientResponse)
    (attempt : Z) (w : world) :
  _max_attempts self <= attempt ->
  _maybe_retry self resp attempt w = (Ret false, w).
Proof.
  intros Hle. unfold _maybe_retry.
  destruct (attempt >=? _max_attempts self) eqn:E; [reflexivity | lia].
Qed.

(** [_maybe_retry] sends no request, whether it returns or the drain of
    the body raises. *)
Lemma maybe_retry_effects (self : _HTTPClient) (resp : ClientResponse)
    (attempt : Z) (w : world) :
  exists (r : outcome bool) (w' : world) (t : list event),
    _maybe_retry self resp attempt w = (r, w')
    /\ extends w w' t /\ requests t = 0%nat.
Proof.
  unfold _maybe_retry.
  destruct (attempt >=? _max_attempts self).
  - exists (Ret false), w, [].
    split; [reflexivity | split; [apply extends_refl | reflexivity]].
  - cbv [IO.bind IO.await_read IO.emit IO.ret].
    destruct (read resp) as [[] | e].
    + destruct ((status resp =? 429) && _retry self);
        [| destruct (existsb (Z.eqb (status resp)) [502; 503; 504]) ];
        do 3 eexists; (split; [reflexivity | split; [trace_steps | reflexivity]]).
    + do 3 eexists. split; [reflexivity | split; [trace_steps | reflexivity]].
Qed.

(** A drain that raises ends [_maybe_retry] with that exception, before any
    warning or sleep. *)
Lemma maybe_retry_drain_fails (self : _HTTPClient) (resp : ClientResponse)
    (attempt : Z) (w : world) (e : exn) :
  attempt < _max_attempts self ->
  read resp = Raise e ->
  _maybe_retry self resp attempt w = (Raise e, emit_to w Read).
Proof.
  intros Hlt Hread. unfold _maybe_retry.
  destruct (attempt >=? _max_attempts self) eqn:E; [lia|].
  cbv [IO.bind IO.await_read]. now rewrite Hread.
Qed.

Lemma pow2_int (n : Z) : 0 <= n -> pow2 n = inl (2 ^ n).
Proof.
  intros Hn. unfold pow2. destruct (0 <=? n) eqn:E; [reflexivity | lia].
Qed.

Section Loop.

Context {T : Type}.
Variables (self : _HTTPClient) (method url : string).
Variable deserialize : ClientResponse -> outcome T.
Variable kwargs : list (string * pyval).

(** One turn of the loop sends exactly one request, whatever happens
    next. *)
Lemma request_attempt_effects (attempt : Z) (w : world) :
  exists (r : outcome (IO.flow T)) (w' : world) (t : list event),
    _request_attempt self method url deserialize kwargs attempt w = (r, w')
    /\ extends w w' t /\ requests t = 1%nat.
Proof.
  unfold _request_attempt, IO.session_request.
  cbv [IO.bind].
  destruct (server w (requests (trace w))) as [resp | e].
  - cbv [IO.emit IO.lift].
    destruct (ok resp).
    + do 3 eexists. split; [reflexivity | split; [trace_steps | reflexivity]].
    + match goal with
      | |- context [_maybe_retry self resp attempt ?w0] =>
          destruct (maybe_retry_effects self resp attempt w0)
            as (r0 & w1 & t1 & E & X & R); rewrite E
      end.
      exists (match r0 with
              | Ret true => Ret IO.Continue
              | Ret false => Raise (_raise_for_status resp)
              | Raise e => Raise e
              end),
        w1, ([Request method url kwargs] ++
             [Log "debug" "API %s %s -> %d (attempt %d)"
                [LStr method; LStr url; LInt (status resp); LInt attempt]] ++ t1).
      split; [now destruct r0 as [[|]|e] |].
      split.
      * rewrite app_assoc. eapply extends_trans; [| exact X]. trace_steps.
      * rewrite !requests_app, R. reflexivity.
  - do 3 eexists. split; [reflexivity | split; [trace_steps | reflexivity]].
Qed.

(** A loop over [items] sends at most one request per item. *)
Lemma for_each_attempts (items : list Z) (w : world) :
  exists (r : outcome (option T)) (w' : world) (t : list event),
    IO.for_each items (_request_attempt self method url deserialize kwargs) w
      = (r, w')
    /\ extends w w' t /\ (requests t <= List.length items)%nat.
Proof.
  revert w. induction items as [|attempt rest IH]; intros w.
  - exists (Ret None), w, [].
    split; [reflexivity | split; [apply extends_refl | apply Nat.le_refl]].
  - simpl IO.for_each. unfold IO.bind at 1.
    destruct (request_attempt_effects attempt w) as (r & w1 & t1 & E & X & R).
    rewrite E. destruct r as [[|v]|e].
    + destruct (IH w1) as (r2 & w2 & t2 & E2 & X2 & R2).
      exists r2, w2, (t1 ++ t2). split; [exact E2|]. split.
      * eapply extends_trans; eassumption.
      * rewrite requests_app. simpl. lia.
    + exists (Ret (Some v)), w1, t1.
      split; [reflexivity | split; [exact X | simpl; lia]].
    + exists (Raise e), w1, t1.
      split; [reflexivity | split; [exact X | simpl; lia]].
Qed.

End Loop.

(** *** What one turn does, response by response *)

Lemma after_after (w : world) (t1 t2 : list event) :
  after (after w t1) t2 = after w (t1 ++ t2).
Proof. unfold after. simpl. now rewrite <- app_assoc. Qed.

(** Closes an equation between results whose worlds differ only in how
    their traces are bracketed. *)
Ltac same_world :=
  unfold emit_to, after, attempt_log, backoff_log, ratelimit_log; simpl;
  repeat rewrite <- app_assoc; reflexivity.

Lemma reply_after_0 (w : world) : reply_after w 0 = next_reply w.
Proof. unfold reply_after, next_reply. now rewrite Nat.add_0_r. Qed.

Lemma for_each_cons {I A} (i : I) (rest : list I) (body : I -> io (IO.flow A))
    (w : world) :
  IO.for_each (i :: rest) body w =
    match body i w with
    | (Ret IO.Continue, w') => IO.for_each rest body w'
    | (Ret (IO.Return a), w') => (Ret (Some a), w')
    | (Raise e, w') => (Raise e, w')
    end.
Proof.
  simpl. unfold IO.bind. destruct (body i w) as [[[|a]|e] w']; reflexivity.
Qed.

Lemma maybe_retry_backoff (self : _HTTPClient) (resp : ClientResponse)
    (attempt : Z) (w : world) :
  attempt < _max_attempts self ->
  drains resp ->
  (status resp =? 429) && _retry self = false ->
  transient resp = true ->
  _maybe_retry self resp attempt w =
    (Ret true,
     after w [Read; backoff_log self resp attempt;
              Sleep (seconds (pow2 (attempt - 1)))]).
Proof.
  intros Hlt Hread H429 Htr. unfold _maybe_retry.
  destruct (attempt >=? _max_attempts self) eqn:E; [lia|].
  cbv [IO.bind IO.await_read IO.emit IO.ret]. rewrite Hread, H429.
  unfold transient in Htr. rewrite Htr.
  same_world.
Qed.

Lemma maybe_retry_ratelimit (self : _HTTPClient) (resp : ClientResponse)
    (attempt : Z) (w : world) :
  attempt < _max_attempts self ->
  drains resp ->
  status resp = 429 ->
  _retry self = true ->
  _maybe_retry self resp attempt w =
    (Ret true,
     after w [Read; ratelimit_log self attempt; Sleep (_retry_delay self)]).
Proof.
  intros Hlt Hread H429 Hr. unfold _maybe_retry.
  destruct (attempt >=? _max_attempts self) eqn:E; [lia|].
  cbv [IO.bind IO.await_read IO.emit IO.ret]. rewrite Hread, H429, Hr. simpl.
  same_world.
Qed.

Lemma maybe_retry_declines (self : _HTTPClient) (resp : ClientResponse)
    (attempt : Z) (w : world) :
  attempt < _max_attempts self ->
  drains resp ->
  retry_eligible self resp = false ->
  _maybe_retry self resp attempt w = (Ret false, after w [Read]).
Proof.
  intros Hlt Hread He. unfold _maybe_retry.
  destruct (attempt >=? _max_attempts self) eqn:E; [lia|].
  unfold retry_eligible in He. apply orb_false_iff in He as [H429 Htr].
  cbv [IO.bind IO.await_read IO.emit IO.ret]. rewrite Hread, H429.
  unfold transient in Htr. now rewrite Htr.
Qed.

Section Turn.

Context {T : Type}.
Variables (self : _HTTPClient) (method url : string).
Variable deserialize : ClientResponse -> outcome T.
Variable kwargs : list (string * pyval).

Let turn := _request_attempt self method url deserialize kwargs.

(** A response with [resp.ok]: the turn ends the call with what the
    deserializer gives, a parse failure turned into [MalformedResponse]. *)
Lemma turn_ok (attempt : Z) (w : world) (resp : ClientResponse) :
  next_reply w = Answer resp ->
  ok resp = true ->
  turn attempt w =
    (try_except_as
       (v <- deserialize resp ;; Ret (IO.Return v))%py
       [JSONDecodeError; ContentTypeError]
       (fun exc =>
          Raise (errors.new_MalformedResponse
                   ("Failed to deserialize " ++ method ++ " " ++ url
                      ++ ": " ++ exc))),
     after w [Request method url kwargs; attempt_log method url resp attempt]).
Proof.
  intros Hr Hok. unfold turn, _request_attempt, IO.session_request.
  cbv [IO.bind]. unfold next_reply in Hr. rewrite Hr.
  cbv [IO.emit IO.lift]. rewrite Hok.
  same_world.
Qed.

(** A transient status with attempts left and a body that drains: drain,
    back off, go on. *)
Lemma turn_backoff (attempt : Z) (w : world) (resp : ClientResponse) :
  next_reply w = Answer resp ->
  ok resp = false ->
  attempt < _max_attempts self ->
  drains resp ->
  transient resp = true ->
  turn attempt w =
    (Ret IO.Continue,
     after w [Request method url kwargs; attempt_log method url resp attempt;
              Read; backoff_log self resp attempt;
              Sleep (seconds (pow2 (attempt - 1)))]).
Proof.
  intros Hr Hok Hlt Hread Htr.
  unfold turn, _request_attempt, IO.session_request.
  cbv [IO.bind]. unfold next_reply in Hr. rewrite Hr.
  cbv [IO.emit]. rewrite Hok.
  rewrite maybe_retry_backoff; try assumption.
  - cbv [IO.ret]. same_world.
  - unfold transient in Htr. simpl in Htr.
    destruct (status resp =? 429) eqn:E; [|reflexivity].
    apply Z.eqb_eq in E. rewrite E in Htr. discriminate.
Qed.


(** No attempt left: the turn raises what [_raise_for_status] raises,
    without draining or sleeping. *)
Lemma turn_exhausted (attempt : Z) (w : world) (resp : ClientResponse) :
  next_reply w = Answer resp ->
  ok resp = false ->
  _max_attempts self <= attempt ->
  turn attempt w =
    (Raise (_raise_for_status resp),
     after w [Request method url kwargs; attempt_log method url resp attempt]).
Proof.
  intros Hr Hok Hle. unfold turn, _request_attempt, IO.session_request.
  cbv [IO.bind]. unfold next_reply in Hr. rewrite Hr.
  cbv [IO.emit]. rewrite Hok.
  rewrite maybe_retry_exhausted by assumption.
  cbv [IO.raise]. same_world.
Qed.

(** A status that is not retried, attempts left or not: the turn raises
    what [_raise_for_status] raises and never sleeps; while attempts are
    left the body is drained first, which must succeed. *)
Lemma turn_surfaces (attempt : Z) (w : world) (resp : ClientResponse) :
  next_reply w = Answer resp ->
  ok resp = false ->
  retry_eligible self resp = false ->
  (attempt < _max_attempts self -> drains resp) ->
  exists t : list event,
    turn attempt w = (Raise (_raise_for_status resp), after w t)
    /\ requests t = 1%nat /\ sleeps t = [].
Proof.
  intros Hr Hok He Hread.
  destruct (Z.lt_ge_cases attempt (_max_attempts self)) as [Hlt | Hge].
  - exists [Request method url kwargs; attempt_log method url resp attempt; Read].
    split; [| split; reflexivity].
    unfold turn, _request_attempt, IO.session_request.
    cbv [IO.bind]. unfold next_reply in Hr. rewrite Hr.
    cbv [IO.emit]. rewrite Hok.
    rewrite maybe_retry_declines by auto.
    cbv [IO.raise]. same_world.
  - exists [Request method url kwargs; attempt_log method url resp attempt].
    split; [| split; reflexivity].
    now apply turn_exhausted.
Qed.

(** Attempts left and a body that cannot be drained: the turn raises the
    exception of the drain, whatever the status, and never sleeps. *)
Lemma turn_drain_fails (attempt : Z) (w : world) (resp : ClientResponse)
    (e : exn) :
  next_reply w = Answer resp ->
  ok resp = false ->
  attempt < _max_attempts self ->
  read resp = Raise e ->
  turn attempt w =
    (Raise e,
     after w [Request method url kwargs; attempt_log method url resp attempt;
              Read]).
Proof.
  intros Hr Hok Hlt Hread. unfold turn, _request_attempt, IO.session_request.
  cbv [IO.bind]. unfold next_reply in Hr. rewrite Hr.
  cbv [IO.emit]. rewrite Hok.
  rewrite (maybe_retry_drain_fails self resp attempt _ e Hlt Hread).
  same_world.
Qed.

End Turn.

(** *** The classifier *)

Lemma error_detail_object (resp : ClientResponse) (d : list (string * pyval)) :
  json resp = Ret (PyDict d) ->
  error_detail resp = Ret (object_detail (status resp) d).
Proof.
  intros Hj. unfold error_detail, object_detail. rewrite Hj. simpl.
  destruct (dict_lookup "errorMessage" d) as [m|]; simpl;
    [destruct (truthy m); [reflexivity|] |];
    (destruct (dict_lookup "error" d) as [e|]; simpl;
      [destruct (truthy e); reflexivity | reflexivity]).
Qed.

Lemma error_detail_unparsable (resp : ClientResponse) (c : builtin_exc)
    (msg : string) :
  json resp = Raise (PyErr c msg) ->
  c = JSONDecodeError \/ c = ContentTypeError ->
  error_detail resp = Ret (fallback_detail resp).
Proof.
  intros Hj [-> | ->]; unfold error_detail; rewrite Hj; reflexivity.
Qed.

(** A body that is JSON but not an object has no [get]: the
    [AttributeError] is not among the caught classes and leaves the
    function. *)
Lemma error_detail_not_object (resp : ClientResponse) (v : pyval) :
  json resp = Ret v ->
  (forall d, v <> PyDict d) ->
  error_detail resp =
    Raise (PyErr AttributeError
             ("'" ++ type_name v ++ "' object has no attribute 'get'")).
Proof.
  intros Hj Hv. unfold error_detail. rewrite Hj.
  destruct v; try reflexivity. now destruct (Hv d).
Qed.

Lemma raise_for_status_classified (resp : ClientResponse) (detail : pyval) :
  error_detail resp = Ret detail ->
  _raise_for_status resp =
    MojangErr (classify (status resp)) (status resp) detail.
Proof.
  intros Hd. unfold _raise_for_status, classify. rewrite Hd.
  destruct (status_lookup (status resp) _STATUS_TO_ERROR); [reflexivity|].
  now destruct (status resp >=? 500).
Qed.

Lemma classify_table :
  classify 400 = BadRequest /\ classify 401 = Unauthorized
  /\ classify 403 = Forbidden /\ classify 404 = NotFound
  /\ classify 429 = TooManyRequests
  /\ (forall s, 500 <= s -> classify s = ServerError).
Proof.
  repeat (split; [reflexivity|]).
  intros s Hs. unfold classify, _STATUS_TO_ERROR. cbn [status_lookup].
  repeat match goal with
         | |- context [?k =? s] => destruct (Z.eqb_spec k s); [lia|]
         end.
  destruct (s >=? 500) eqn:E; [reflexivity | lia].
Qed.

(** *** The loop, from its first turn *)

Lemma range_cons (a b : Z) : a < b -> range a b = a :: range (a + 1) b.
Proof.
  intros Hlt. unfold range.
  replace (Z.to_nat (b - a)) with (S (Z.to_nat (b - (a + 1)))) by lia.
  simpl. f_equal; [lia|].
  rewrite <- seq_shift, map_map. apply map_ext. intros n. lia.
Qed.

Lemma range_nil (a b : Z) : b <= a -> range a b = [].
Proof.
  intros Hle. unfold range. now replace (Z.to_nat (b - a)) with O by lia.
Qed.

Lemma success_is_ok (resp : ClientResponse) :
  200 <= status resp < 300 -> ok resp = true.
Proof. intros H. unfold ok. lia. Qed.

(** C1. For every client with [max_attempts >= 1], every deserializer and
    every server (every sequence of replies, responses or transport
    failures), one call to [_request] sends at most [max_attempts] requests:
    the loop visits exactly the attempt numbers [1 .. max_attempts], each
    turn sends one request, and [_maybe_retry] declines to retry as soon as
    [attempt >= max_attempts]. *)
Theorem request_attempts_bounded :
  forall (T : Type) (self : _HTTPClient) (method url : string)
         (deserialize : ClientResponse -> outcome T)
         (kwargs : list (string * pyval)) (w : world),
    1 <= _max_attempts self ->
    (exists t : list event,
        extends w (snd (_request self method url deserialize kwargs w)) t
        /\ Z.of_nat (requests t) <= _max_attempts self)
    /\ (forall attempt : Z,
          In attempt (range 1 (_max_attempts self + 1))
          <-> 1 <= attempt <= _max_attempts self)
    /\ (forall (resp : ClientResponse) (attempt : Z) (w0 : world),
          _max_attempts self <= attempt ->
          _maybe_retry self resp attempt w0 = (Ret false, w0)).
Proof.
  intros T self method url deserialize kwargs w Hmax. split; [| split].
  - unfold _request.
    destruct (for_each_attempts self method url deserialize kwargs
                (range 1 (_max_attempts self + 1)) w)
      as (r & w' & t & E & X & R).
    rewrite E. exists t. split; [exact X|].
    rewrite range_length in R. lia.
  - intros attempt. rewrite range_In. lia.
  - intros resp attempt w0. apply maybe_retry_exhausted.
Qed.

(** The decode failures that [_request] does turn into
    [MalformedResponse].  When the reply to an attempt has a 2xx status and
    the supplied deserializer raises [JSONDecodeError] or
    [ContentTypeError], the loop stops there with [MalformedResponse],
    whose status is 0 and whose detail quotes the parse failure, whatever
    attempts remain ([rest]); when this is the reply to the first attempt of
    [_request], the call has sent one request and slept zero times. *)
Theorem undecodable_success_is_malformed :
  forall (T : Type) (self : _HTTPClient) (method url : string)
         (deserialize : ClientResponse -> outcome T)
         (kwargs : list (string * pyval)) (w : world)
         (resp : ClientResponse) (c : builtin_exc) (msg : string),
    next_reply w = Answer resp ->
    200 <= status resp < 300 ->
    deserialize resp = Raise (PyErr c msg) ->
    c = JSONDecodeError \/ c = ContentTypeError ->
    (forall (attempt : Z) (rest : list Z),
        IO.for_each (attempt :: rest)
          (_request_attempt self method url deserialize kwargs) w
        = (Raise (deserialize_failure method url msg),
           after w [Request method url kwargs;
                    attempt_log method url resp attempt]))
    /\ (1 <= _max_attempts self ->
        exists t : list event,
          _request self method url deserialize kwargs w
          = (Raise (MojangErr MalformedResponse 0
                      (PyStr ("Failed to deserialize " ++ method ++ " " ++ url
                                ++ ": " ++ msg))),
             after w t)
          /\ requests t = 1%nat /\ sleeps t = []).
Proof.
  intros T self method url deserialize kwargs w resp c msg Hr Hs Hd Hc.
  assert (Hloop : forall attempt rest,
             IO.for_each (attempt :: rest)
               (_request_attempt self method url deserialize kwargs) w
             = (Raise (deserialize_failure method url msg),
                after w [Request method url kwargs;
                         attempt_log method url resp attempt])).
  { intros attempt rest. rewrite for_each_cons.
    rewrite (turn_ok self method url deserialize kwargs attempt w resp Hr
               (success_is_ok resp Hs)).
    rewrite Hd. destruct Hc as [-> | ->]; reflexivity. }
  split; [exact Hloop|].
  intros Hmax. unfold _request.
  rewrite range_cons by lia. rewrite Hloop.
  eexists. split; [reflexivity | split; reflexivity].
Qed.

(** The same for a deserializer that fails in any other way, as
    [resp.text()] does on undecodable bytes: the exception leaves
    [_request] unchanged, after one request and no sleep. *)
Lemma other_deserializer_failure_propagates :
  forall (T : Type) (self : _HTTPClient) (method url : string)
         (deserialize : ClientResponse -> outcome T)
         (kwargs : list (string * pyval)) (w : world)
         (resp : ClientResponse) (e : exn),
    next_reply w = Answer resp ->
    ok resp = true ->
    deserialize resp = Raise e ->
    isinstance e [Builtin JSONDecodeError; Builtin ContentTypeError] = false ->
    forall (attempt : Z) (rest : list Z),
      IO.for_each (attempt :: rest)
        (_request_attempt self method url deserialize kwargs) w
      = (Raise e,
         after w [Request method url kwargs;
                  attempt_log method url resp attempt]).
Proof.
  intros T self method url deserialize kwargs w resp e Hr Hok Hd He attempt rest.
  rewrite for_each_cons.
  rewrite (turn_ok self method url deserialize kwargs attempt w resp Hr Hok).
  rewrite Hd. destruct e as [c msg | c s d]; [| reflexivity].
  simpl. simpl in He. rewrite !orb_false_r in He.
  now rewrite orb_false_r, He.
Qed.

(** A successful response that deserializes ends the call with the value. *)
Lemma success_returns :
  forall (T : Type) (self : _HTTPClient) (method url : string)
         (deserialize : ClientResponse -> outcome T)
         (kwargs : list (string * pyval)) (w : world)
         (resp : ClientResponse) (v : T),
    next_reply w = Answer resp ->
    ok resp = true ->
    deserialize resp = Ret v ->
    1 <= _max_attempts self ->
    _request self method url deserialize kwargs w
    = (Ret (Some v),
       after w [Request method url kwargs; attempt_log method url resp 1]).
Proof.
  intros T self method url deserialize kwargs w resp v Hr Hok Hd Hmax.
  unfold _request. rewrite range_cons by lia. rewrite for_each_cons.
  rewrite (turn_ok self method url deserialize kwargs 1 w resp Hr Hok).
  now rewrite Hd.
Qed.

(** *** Transient statuses: exponential backoff until the attempts run out *)

Lemma transient_not_ok (resp : ClientResponse) :
  transient resp = true -> ok resp = false.
Proof.
  unfold transient, ok. simpl. intros H.
  repeat (apply orb_true_iff in H; destruct H as [H | H]);
    try discriminate; apply Z.eqb_eq in H; rewrite H; reflexivity.
Qed.

Lemma reply_after_after (w : world) (t : list event) (n : nat) :
  reply_after (after w t) n = reply_after w (requests t + n).
Proof.
  unfold reply_after, after. simpl. rewrite requests_app.
  now rewrite Nat.add_assoc.
Qed.

Section Backoff.

Context {T : Type}.
Variables (self : _HTTPClient) (method url : string).
Variable deserialize : ClientResponse -> outcome T.
Variable kwargs : list (string * pyval).

(** The delays of the attempts [a], [a + 1], ..., [b - 1]. *)
Let delays (a b : Z) : list Q :=
  map (fun attempt => inject_Z (2 ^ (attempt - 1))) (range a b).

(** With [k] attempts left after attempt [a] and only transient replies,
    the loop sends [k + 1] requests, backs off after each but the last,
    and raises for the last response. *)
Lemma backoff_loop (k : nat) :
  forall (a : Z) (w : world),
    1 <= a ->
    a + Z.of_nat k = _max_attempts self ->
    (forall n, (n <= k)%nat ->
       exists resp,
         reply_after w n = Answer resp /\ transient resp = true
         /\ ((n < k)%nat -> drains resp)) ->
    exists (t : list event) (last : ClientResponse),
      reply_after w k = Answer last
      /\ IO.for_each (range a (_max_attempts self + 1))
           (_request_attempt self method url deserialize kwargs) w
         = (Raise (_raise_for_status last), after w t)
      /\ requests t = S k
      /\ sleeps t = delays a (_max_attempts self).
Proof.
  induction k as [|k IH]; intros a w Hpos Ha Hreplies.
  - destruct (Hreplies O (Nat.le_refl _)) as (resp & Hr & Htr & _).
    exists [Request method url kwargs; attempt_log method url resp a], resp.
    split; [exact Hr|]. rewrite reply_after_0 in Hr.
    rewrite range_cons, (range_nil (a + 1)) by lia.
    rewrite for_each_cons.
    rewrite (turn_exhausted self method url deserialize kwargs a w resp Hr
               (transient_not_ok resp Htr)) by lia.
    unfold delays. rewrite range_nil by lia.
    split; [reflexivity | split; reflexivity].
  - destruct (Hreplies O (Nat.le_0_l _)) as (resp & Hr & Htr & Hread).
    rewrite reply_after_0 in Hr.
    set (t1 := [Request method url kwargs; attempt_log method url resp a;
                Read; backoff_log self resp a;
                Sleep (inject_Z (2 ^ (a - 1)))]).
    destruct (IH (a + 1) (after w t1)) as (t2 & last & Hlast & Hrun & Hreq & Hsl).
    + lia.
    + lia.
    + intros n Hn. rewrite reply_after_after.
      destruct (Hreplies (requests t1 + n)%nat) as (r & Hrn & Htn & Hdn);
        [simpl; lia |].
      exists r. split; [exact Hrn | split; [exact Htn |]].
      intros Hlt. apply Hdn. simpl. lia.
    + exists (t1 ++ t2), last.
      rewrite reply_after_after in Hlast. split; [exact Hlast|].
      rewrite range_cons by lia. rewrite for_each_cons.
      rewrite (turn_backoff self method url deserialize kwargs a w resp Hr
                 (transient_not_ok resp Htr))
        by (lia || assumption || (apply Hread; lia)).
      rewrite (pow2_int (a - 1)) by lia. cbn [seconds].
      fold t1. replace (a + 1 + 1 - 1) with (a + 1) in * by lia.
      rewrite Hrun, after_after.
      split; [reflexivity|]. split.
      * rewrite requests_app, Hreq. reflexivity.
      * rewrite sleeps_app, Hsl. unfold delays.
        rewrite (range_cons a) by lia. reflexivity.
Qed.

(** Replies that are all transient use up exactly [max_attempts] attempts,
    with the delays [1, 2, 4, ...] between them. *)
Lemma transient_exhausts_attempts (w : world) :
  1 <= _max_attempts self ->
  (forall n, (n < Z.to_nat (_max_attempts self))%nat ->
     exists resp,
       reply_after w n = Answer resp /\ transient resp = true
       /\ ((S n < Z.to_nat (_max_attempts self))%nat -> drains resp)) ->
  exists (t : list event) (last : ClientResponse),
    reply_after w (Z.to_nat (_max_attempts self) - 1) = Answer last
    /\ _request self method url deserialize kwargs w
       = (Raise (_raise_for_status last), after w t)
    /\ Z.of_nat (requests t) = _max_attempts self
    /\ sleeps t = delays 1 (_max_attempts self).
Proof.
  intros Hmax Hreplies.
  destruct (backoff_loop (Z.to_nat (_max_attempts self) - 1) 1 w)
    as (t & last & Hlast & Hrun & Hreq & Hsl).
  - lia.
  - lia.
  - intros n Hn.
    destruct (Hreplies n) as (r & Hrn & Htn & Hdn); [lia |].
    exists r. split; [exact Hrn | split; [exact Htn |]].
    intros Hlt. apply Hdn. lia.
  - exists t, last. unfold _request. rewrite Hrun, Hreq.
    split; [exact Hlast|]. split; [reflexivity|]. split; [lia | exact Hsl].
Qed.


(** A reply that is not retried ends the call at the attempt it answers:
    one request, no sleep, and the exception of [_raise_for_status]; the
    body is drained first while attempts are left. *)
Lemma not_retried_surfaces (w : world) (resp : ClientResponse)
    (attempt : Z) (rest : list Z) :
  next_reply w = Answer resp ->
  ok resp = false ->
  retry_eligible self resp = false ->
  (attempt < _max_attempts self -> drains resp) ->
  exists t : list event,
    IO.for_each (attempt :: rest)
      (_request_attempt self method url deserialize kwargs) w
    = (Raise (_raise_for_status resp), after w t)
    /\ requests t = 1%nat /\ sleeps t = [].
Proof.
  intros Hr Hok He Hread.
  destruct (turn_surfaces self method url deserialize kwargs attempt w resp
              Hr Hok He Hread) as (t & Hturn & Hreq & Hsl).
  exists t. rewrite for_each_cons, Hturn. now repeat split.
Qed.

End Backoff.

(** Three 503 replies, the first two with bodies that drain, the last with
    a body that is a JSON object or not JSON at all: three requests, the
    delays 1 and 2, and [ServerError(status=503)]. *)
Lemma three_503_then_ServerError :
  forall (T : Type) (self : _HTTPClient) (method url : string)
         (deserialize : ClientResponse -> outcome T)
         (kwargs : list (string * pyval)) (w : world)
         (r1 r2 r3 : ClientResponse) (detail : pyval),
    _max_attempts self = 3 ->
    reply_after w 0 = Answer r1 -> status r1 = 503 -> drains r1 ->
    reply_after w 1 = Answer r2 -> status r2 = 503 -> drains r2 ->
    reply_after w 2 = Answer r3 -> status r3 = 503 ->
    error_detail r3 = Ret detail ->
    exists t : list event,
      _request self method url deserialize kwargs w
      = (Raise (MojangErr ServerError 503 detail), after w t)
      /\ requests t = 3%nat /\ sleeps t = [1%Q; 2%Q].
Proof.
  intros T self method url deserialize kwargs w r1 r2 r3 detail
         Hmax H1 S1 D1 H2 S2 D2 H3 S3 Hd.
  destruct (transient_exhausts_attempts self method url deserialize kwargs w)
    as (t & last & Hlast & Hrun & Hreq & Hsl).
  - lia.
  - rewrite Hmax. intros n Hn.
    destruct n as [|[|[|n]]]; [exists r1 | exists r2 | exists r3 | simpl in Hn; lia];
      (split; [assumption |]); unfold transient;
      [rewrite S1 | rewrite S2 | rewrite S3];
      (split; [reflexivity |]); intros Hlt; try assumption; simpl in Hlt; lia.
  - rewrite Hmax in *. simpl in Hlast. rewrite H3 in Hlast.
    injection Hlast as <-.
    rewrite (raise_for_status_classified r3 detail Hd), S3 in Hrun.
    exists t. split; [exact Hrun|]. split; [lia | exact Hsl].
Qed.

(** A 429 without [retry_on_ratelimit] whose body drains and is a JSON
    object or not JSON at all: [TooManyRequests(status=429)] at once. *)
Lemma ratelimit_without_retry_surfaces :
  forall (T : Type) (self : _HTTPClient) (method url : string)
         (deserialize : ClientResponse -> outcome T)
         (kwargs : list (string * pyval)) (w : world)
         (resp : ClientResponse) (detail : pyval),
    1 <= _max_attempts self ->
    _retry self = false ->
    next_reply w = Answer resp ->
    status resp = 429 ->
    drains resp ->
    error_detail resp = Ret detail ->
    exists t : list event,
      _request self method url deserialize kwargs w
      = (Raise (MojangErr TooManyRequests 429 detail), after w t)
      /\ requests t = 1%nat /\ sleeps t = [].
Proof.
  intros T self method url deserialize kwargs w resp detail
         Hmax Hretry Hr Hs Hread Hd.
  unfold _request. rewrite range_cons by lia.
  destruct (not_retried_surfaces self method url deserialize kwargs w resp 1
              (range (1 + 1) (_max_attempts self + 1)) Hr)
    as (t & Hrun & Hreq & Hsl).
  - unfold ok. now rewrite Hs.
  - unfold retry_eligible, transient. now rewrite Hs, Hretry.
  - intros _. exact Hread.
  - exists t. rewrite Hrun, (raise_for_status_classified resp detail Hd), Hs.
    now repeat split.
Qed.

(** C2 (defect of the code).  A 200 whose bytes are not text in the charset
    of the response cannot be decoded by either deserializer of the package:
    [resp.text()] and [resp.json()] raise [UnicodeDecodeError].  [_request]
    does stop at that attempt, after one request and no sleep although two
    attempts remain, but it does not raise [MalformedResponse]: the [except]
    clause names [JSONDecodeError] and [ContentTypeError] only, and the
    [UnicodeDecodeError] leaves [_get_text], [_get_json] and
    [get_blocked_servers] as it is. *)
Theorem undecodable_bytes_escape :
  let e :=
    PyErr UnicodeDecodeError
      "'utf-8' codec can't decode byte 0xff in position 0: invalid start byte" in
  let text_run :=
    _get_text client3 "https://sessionserver.mojang.com/blockedservers" []
      (always undecodable_success) in
  let json_run :=
    _get_json client3 "/lookup" [] (always undecodable_success) in
  200 <= status undecodable_success < 300
  /\ fst text_run = Raise e
  /\ requests (trace (snd text_run)) = 1%nat
  /\ sleeps (trace (snd text_run)) = []
  /\ fst json_run = Raise e
  /\ requests (trace (snd json_run)) = 1%nat
  /\ sleeps (trace (snd json_run)) = []
  /\ fst (get_blocked_servers api3 (always undecodable_success)) = Raise e
  /\ isinstance e [Mojang MalformedResponse] = false
  /\ isinstance e [Mojang MojangError] = false.
Proof. vm_compute. repeat split; discriminate. Qed.

(** C3 (defect of the code).  With [max_attempts = 3] and every attempt
    answered by a 503 whose body is the JSON array [[]], [_request] does send
    exactly 3 requests and sleep exactly 1 and 2 time units between them,
    but it does not raise [ServerError(status=503)]: [_raise_for_status]
    calls [.get] on the list and the [AttributeError] leaves the call. *)
Theorem three_503_array_body_escapes :
  let run :=
    _request client3 "GET" "/lookup" json []
      (always (array_body 503 "Service Unavailable")) in
  fst run = Raise (PyErr AttributeError "'list' object has no attribute 'get'")
  /\ requests (trace (snd run)) = 3%nat
  /\ sleeps (trace (snd run)) = [1%Q; 2%Q]
  /\ isinstance (PyErr AttributeError "'list' object has no attribute 'get'")
       [Mojang MojangError] = false.
Proof. vm_compute. repeat split. Qed.

(** C4 (defect of the code).  A 429 with [retry_on_ratelimit = false] whose
    body is the JSON array [[]] ends the call at the first attempt, after one
    request and no sleep although two attempts remain, but what is raised is
    not [TooManyRequests(status=429)]: the [AttributeError] of
    [_raise_for_status] leaves the call. *)
Theorem ratelimit_array_body_escapes :
  let run :=
    _request client3 "GET" "/lookup" json []
      (always (array_body 429 "Too Many Requests")) in
  fst run = Raise (PyErr AttributeError "'list' object has no attribute 'get'")
  /\ requests (trace (snd run)) = 1%nat
  /\ sleeps (trace (snd run)) = []
  /\ isinstance (PyErr AttributeError "'list' object has no attribute 'get'")
       [Mojang MojangError] = false.
Proof. vm_compute. repeat split. Qed.

(** C5 (defect of the code).  For a response whose body parses as JSON but
    is not an object, here the array [[]] with status 500, the detail
    derivation fails: [error_data.get] raises [AttributeError], which the
    [except] clause does not catch, so [_raise_for_status] raises it instead
    of a classified error with a fallback detail. *)
Theorem raise_for_status_array_body_escapes :
  error_detail (array_body 500 "Internal Server Error")
    = Raise (PyErr AttributeError "'list' object has no attribute 'get'")
  /\ _raise_for_status (array_body 500 "Internal Server Error")
     = PyErr AttributeError "'list' object has no attribute 'get'".
Proof. split; reflexivity. Qed.

(** What the classifier does on the bodies it is written for: a JSON
    object gives the first truthy one of [errorMessage] and [error], else
    ["HTTP <status>"]; a body that is not JSON gives
    ["HTTP <status> <reason or 'error'> for <path>"]; the class follows
    the status. *)
Lemma raise_for_status_on_expected_bodies (resp : ClientResponse) :
  (forall d, json resp = Ret (PyDict d) ->
     _raise_for_status resp =
       MojangErr (classify (status resp)) (status resp)
         (object_detail (status resp) d))
  /\ (forall c msg, json resp = Raise (PyErr c msg) ->
        c = JSONDecodeError \/ c = ContentTypeError ->
        _raise_for_status resp =
          MojangErr (classify (status resp)) (status resp)
            (fallback_detail resp)).
Proof.
  split.
  - intros d Hj. apply raise_for_status_classified.
    now apply error_detail_object.
  - intros c msg Hj Hc. apply raise_for_status_classified.
    now apply (error_detail_unparsable resp c msg).
Qed.

Lemma request_attempts_bounded_witness :
  1 <= _max_attempts client3
  /\ exists t : list event,
       extends (always (object_body 503 "Service Unavailable" "down"))
         (snd (_request client3 "GET" "/lookup" json []
                 (always (object_body 503 "Service Unavailable" "down")))) t
       /\ Z.of_nat (requests t) <= _max_attempts client3.
Proof.
  split; [simpl; lia |].
  apply (request_attempts_bounded pyval client3 "GET" "/lookup" json []
           (always (object_body 503 "Service Unavailable" "down"))).
  simpl; lia.
Defined.

Lemma undecodable_success_is_malformed_witness :
  next_reply (always garbled_success) = Answer garbled_success
  /\ 200 <= status garbled_success < 300
  /\ json garbled_success
     = Raise (PyErr JSONDecodeError "Expecting value: line 1 column 1 (char 0)")
  /\ (1 <= _max_attempts client3 ->
      exists t : list event,
        _request client3 "GET" "/lookup" json [] (always garbled_success)
        = (Raise (MojangErr MalformedResponse 0
                    (PyStr ("Failed to deserialize " ++ "GET" ++ " " ++ "/lookup"
                              ++ ": "
                              ++ "Expecting value: line 1 column 1 (char 0)"))),
           after (always garbled_success) t)
        /\ requests t = 1%nat /\ sleeps t = []).
Proof.
  split; [reflexivity |]. split; [simpl; lia |]. split; [reflexivity |].
  apply (undecodable_success_is_malformed pyval client3 "GET" "/lookup" json []
           (always garbled_success) garbled_success JSONDecodeError
           "Expecting value: line 1 column 1 (char 0)").
  - reflexivity.
  - simpl; lia.
  - reflexivity.
  - left; reflexivity.
Defined.

(* ================================================================== *)
(** ** The lookups of [api.py] *)
(* ================================================================== *)

Lemma catch_not_found {A} (m : io A) (w w' : world) (cls : mojang_exc)
    (st : Z) (detail : pyval) :
  cls = NotFound \/ cls = BadRequest ->
  m w = (Raise (MojangErr cls st detail), w') ->
  IO.catch m _NOT_FOUND_ERRORS w = (Ret None, w').
Proof.
  intros Hc Hm. unfold IO.catch. rewrite Hm.
  destruct Hc as [-> | ->]; reflexivity.
Qed.

(** C8. In each of the four lookups, when the request ends with a
    [NotFound] (404) or with a [BadRequest] (400) error, the lookup does not
    raise: [get_uuid], [get_username] and [get_profile] return [None] and
    [get_uuids] returns the empty dict, the same for both errors. *)
Theorem not_found_and_bad_request_are_absent :
  forall (L : PyLib) (self : API) (w w' : world)
         (cls : mojang_exc) (st : Z) (detail : pyval),
    cls = NotFound \/ cls = BadRequest ->
    (forall username : string,
        _assert_valid_username username = Ret tt ->
        _get_json (_http self) (_UUID_API_URL ++ "/" ++ username) [] w
          = (Raise (MojangErr cls st detail), w') ->
        get_uuid self username w = (Ret None, w'))
    /\ (forall names : list string,
          Z.of_nat (List.length names) <= _MAX_BATCH ->
          assert_valid_usernames names = Ret tt ->
          _post_json (_http self) (_API_BASE_URL ++ "/profiles/minecraft")
            [("json", PyList (map PyStr names))] w
            = (Raise (MojangErr cls st detail), w') ->
          get_uuids self names w = (Ret [], w'))
    /\ (forall (player : uuid.UUID + string) (uid : uuid.UUID),
          _parse_uuid player = Ret uid ->
          _get_json (_http self) (profile_url uid) [] w
            = (Raise (MojangErr cls st detail), w') ->
          get_username self player w = (Ret PyNone, w')
          /\ get_profile self player w = (Ret None, w')).
Proof.
  intros L self w w' cls st detail Hc. split; [| split].
  - intros username Hvalid Hreq. unfold get_uuid.
    cbv [IO.bind IO.lift]. rewrite Hvalid.
    now rewrite (catch_not_found _ w w' cls st detail Hc Hreq).
  - intros names Hlen Hvalid Hreq. unfold get_uuids.
    destruct (Z.of_nat (List.length names) >? _MAX_BATCH) eqn:E; [lia|].
    cbv [IO.bind IO.lift]. rewrite Hvalid.
    now rewrite (catch_not_found _ w w' cls st detail Hc Hreq).
  - intros player uid Hparse Hreq. unfold profile_url in Hreq. split.
    + unfold get_username. cbv [IO.bind IO.lift]. rewrite Hparse.
      now rewrite (catch_not_found _ w w' cls st detail Hc Hreq).
    + unfold get_profile. cbv [IO.bind IO.lift]. rewrite Hparse.
      now rewrite (catch_not_found _ w w' cls st detail Hc Hreq).
Qed.

(** The terminal errors of the statuses 404 and 400: with a body that
    drains and is a JSON object, the request of a lookup ends at once with
    [NotFound] and [BadRequest]. *)
Lemma get_json_404_400 (self : _HTTPClient) (url : string) (w : world)
    (resp : ClientResponse) (d : list (string * pyval)) :
  1 <= _max_attempts self ->
  next_reply w = Answer resp ->
  status resp = 404 \/ status resp = 400 ->
  drains resp ->
  json resp = Ret (PyDict d) ->
  exists (t : list event) (cls : mojang_exc),
    _get_json self url [] w
      = (Raise (MojangErr cls (status resp) (object_detail (status resp) d)),
         after w t)
    /\ (status resp = 404 -> cls = NotFound)
    /\ (status resp = 400 -> cls = BadRequest)
    /\ requests t = 1%nat /\ sleeps t = [].
Proof.
  intros Hmax Hr Hs Hread Hj. unfold _get_json, _request.
  rewrite range_cons by lia. cbv [IO.bind].
  destruct (not_retried_surfaces self "GET" url json [] w resp 1
              (range (1 + 1) (_max_attempts self + 1)) Hr)
    as (t & Hrun & Hreq & Hsl).
  - unfold ok. destruct Hs as [-> | ->]; reflexivity.
  - unfold retry_eligible, transient. destruct Hs as [-> | ->]; reflexivity.
  - intros _. exact Hread.
  - exists t, (classify (status resp)). rewrite Hrun.
    rewrite (raise_for_status_classified resp _ (error_detail_object resp d Hj)).
    split; [reflexivity|].
    split; [intros ->; reflexivity|].
    split; [intros ->; reflexivity|]. now split.
Qed.

Lemma not_found_and_bad_request_are_absent_witness :
  (NotFound = NotFound \/ NotFound = BadRequest)
  /\ (BadRequest = NotFound \/ BadRequest = BadRequest)
  /\ _assert_valid_username "Notch" = Ret tt
  /\ get_uuid (L := CPython.lib) api3 "Notch"
       (always (object_body 404 "Not Found" "no such player"))
     = (Ret None,
        snd (_get_json client3 (_UUID_API_URL ++ "/" ++ "Notch") []
               (always (object_body 404 "Not Found" "no such player"))))
  /\ get_uuid (L := CPython.lib) api3 "Notch"
       (always (object_body 400 "Bad Request" "no such player"))
     = (Ret None,
        snd (_get_json client3 (_UUID_API_URL ++ "/" ++ "Notch") []
               (always (object_body 400 "Bad Request" "no such player")))).
Proof.
  split; [left; reflexivity |]. split; [right; reflexivity |].
  split; [reflexivity |]. split.
  - apply (proj1 (not_found_and_bad_request_are_absent CPython.lib api3
                    (always (object_body 404 "Not Found" "no such player"))
                    (snd (_get_json client3 (_UUID_API_URL ++ "/" ++ "Notch") []
                            (always (object_body 404 "Not Found" "no such player"))))
                    NotFound 404 (PyStr "no such player")
                    (or_introl eq_refl))).
    + reflexivity.
    + vm_compute. reflexivity.
  - apply (proj1 (not_found_and_bad_request_are_absent CPython.lib api3
                    (always (object_body 400 "Bad Request" "no such player"))
                    (snd (_get_json client3 (_UUID_API_URL ++ "/" ++ "Notch") []
                            (always (object_body 400 "Bad Request" "no such player"))))
                    BadRequest 400 (PyStr "no such player")
                    (or_intror eq_refl))).
    + reflexivity.
    + vm_compute. reflexivity.
Defined.

(** C10. When the name lookup is answered by a 2xx response whose JSON
    object binds ["id"] to a falsy value (the empty string, [null], 0,
    ...), [get_uuid] returns [None], as it does for a not-found status: it
    neither raises [MalformedResponse] nor hands the value to [uuid.UUID],
    whatever that constructor would do with it. *)
Theorem get_uuid_falsy_id_is_None :
  forall (L : PyLib) (self : API) (username : string) (w : world)
         (resp : ClientResponse) (d : list (string * pyval)) (raw : pyval),
    _assert_valid_username username = Ret tt ->
    1 <= _max_attempts (_http self) ->
    next_reply w = Answer resp ->
    200 <= status resp < 300 ->
    json resp = Ret (PyDict d) ->
    dict_lookup "id" d = Some raw ->
    truthy raw = false ->
    get_uuid self username w
    = (Ret None,
       after w [Request "GET" (_UUID_API_URL ++ "/" ++ username) [];
                attempt_log "GET" (_UUID_API_URL ++ "/" ++ username) resp 1]).
Proof.
  intros L self username w resp d raw Hvalid Hmax Hr Hs Hj Hid Hfalsy.
  unfold get_uuid. cbv [IO.bind IO.lift IO.catch]. rewrite Hvalid.
  unfold _get_json. cbv [IO.bind].
  rewrite (success_returns pyval (_http self) "GET" _ json [] w resp (PyDict d)
             Hr (success_is_ok resp Hs) Hj Hmax).
  cbv [IO.ret]. simpl. rewrite Hid. simpl. now rewrite Hfalsy.
Qed.

Lemma get_uuid_falsy_id_is_None_witness :
  _assert_valid_username "Notch" = Ret tt
  /\ 1 <= _max_attempts (_http api3)
  /\ next_reply (always empty_id_success) = Answer empty_id_success
  /\ 200 <= status empty_id_success < 300
  /\ json empty_id_success = Ret (PyDict [("id", PyStr "")])
  /\ dict_lookup "id" [("id", PyStr "")] = Some (PyStr "")
  /\ truthy (PyStr "") = false
  /\ get_uuid (L := CPython.lib) api3 "Notch" (always empty_id_success)
     = (Ret None,
        after (always empty_id_success)
          [Request "GET" (_UUID_API_URL ++ "/" ++ "Notch") [];
           attempt_log "GET" (_UUID_API_URL ++ "/" ++ "Notch")
             empty_id_success 1]).
Proof.
  split; [reflexivity |]. split; [simpl; lia |]. split; [reflexivity |].
  split; [simpl; lia |]. split; [reflexivity |]. split; [reflexivity |].
  split; [reflexivity |].
  apply (get_uuid_falsy_id_is_None CPython.lib api3 "Notch"
           (always empty_id_success) empty_id_success
           [("id", PyStr "")] (PyStr "")).
  - reflexivity.
  - simpl; lia.
  - reflexivity.
  - simpl; lia.
  - reflexivity.
  - reflexivity.
  - reflexivity.
Defined.

(* ================================================================== *)
(** ** The profile decoder *)
(* ================================================================== *)

(** Case analysis along the lookups an expression performs: each
    [dict_lookup] is split into found and missing, each inspected value
    into its constructors, and the impossible branches are discarded. *)
Ltac lookups :=
  repeat (simpl in *; try discriminate;
    match goal with
    | H : context [match dict_lookup ?k ?d with _ => _ end] |- _ =>
        destruct (dict_lookup k d) eqn:?
    | |- context [match dict_lookup ?k ?d with _ => _ end] =>
        destruct (dict_lookup k d) eqn:?
    | H : context [match ?v with PyNone => _ | _ => _ end] |- _ =>
        is_var v; destruct v
    | |- context [match ?v with PyNone => _ | _ => _ end] =>
        is_var v; destruct v
    | H : context [match uuid_parse ?s with _ => _ end] |- _ =>
        destruct (uuid_parse s) eqn:?
    end).

(** Exposes the lookups of [build_profile]. *)
Ltac open_profile :=
  unfold build_profile, uuid_UUID, get, getitem, try_except_as, Py.bind,
    absent_or, present, is_dict in *.

Section Decoder.

Context {L : PyLib}.

Lemma decode_textures_found (raw value : pyval) :
  textures_value raw = Some value ->
  decode_textures raw = (blob <- b64decode value ;; json_loads blob)%py.
Proof.
  unfold textures_value, decode_textures. intros H.
  destruct raw as [| | | | | |d]; try discriminate. simpl in *.
  destruct (dict_lookup "properties" d)
    as [[| | | | |[|[| | | | | |first] others]|]|]; try discriminate.
  simpl. now rewrite H.
Qed.

(** [textures_value] is what the three subscripts of the source find. *)
Lemma textures_value_iff (raw value : pyval) :
  textures_value raw = Some value <->
  (properties <- getitem raw "properties" ;;
   first <- getitem_int properties 0 ;;
   getitem first "value")%py = Ret value.
Proof.
  unfold textures_value.
  destruct raw as [| | | | | |d]; try (split; discriminate). simpl.
  destruct (dict_lookup "properties" d) as [[| | | | s|items|]|];
    try (split; discriminate).
  - split; [discriminate|]. simpl. unfold getitem_int.
    destruct (index_pos (String.length s) 0) as [n|]; [| discriminate].
    destruct (String.get n s); discriminate.
  - destruct items as [|[| | | | | |first] others]; try (split; discriminate).
    simpl. destruct (dict_lookup "value" first); split; congruence.
Qed.

Lemma parse_profile_decoded (raw payload : pyval) :
  decode_textures raw = Ret payload ->
  _parse_profile raw = build_profile payload.
Proof. intros H. unfold _parse_profile. now rewrite H. Qed.

(** On a payload of the expected shape, [build_profile] returns the
    profile of the specification, whatever the types of the fields it
    copies. *)
Lemma build_profile_shape (payload : pyval) (s : string) (uid : uuid.UUID) :
  payload_shape payload = true ->
  at_path ["profileId"] payload = Some (PyStr s) ->
  uuid_parse s = inl uid ->
  build_profile payload = Ret (spec_profile uid payload).
Proof.
  unfold payload_shape. intros Hshape Hid Huuid.
  repeat (apply andb_true_iff in Hshape; destruct Hshape as [Hshape ?]).
  destruct payload as [| | | | | |d]; try discriminate.
  unfold build_profile, spec_profile, uuid_UUID. simpl in *.
  destruct (dict_lookup "profileId" d) as [pid|] eqn:Epid; [| discriminate].
  injection Hid as ->.
  lookups; rewrite Huuid; reflexivity.
Qed.

(** A profile comes out only of a blob that decoded. *)
Lemma parse_profile_inv (raw : pyval) (p : UserProfile) :
  _parse_profile raw = Ret p ->
  exists payload : pyval,
    decode_textures raw = Ret payload /\ build_profile payload = Ret p.
Proof.
  unfold _parse_profile. intros H.
  destruct (decode_textures raw) as [payload | [c msg | c st detail]].
  - now exists payload.
  - destruct c; discriminate.
  - discriminate.
Qed.

(** The variant of a profile that was built is the model of the payload,
    or ["classic"] when there is none. *)
Lemma build_profile_skin_variant (payload : pyval) (p : UserProfile) :
  build_profile payload = Ret p ->
  skin_variant p =
    match at_path ["textures"; "SKIN"; "metadata"; "model"] payload with
    | Some model => model
    | None => PyStr "classic"
    end.
Proof.
  intros H. open_profile.
  destruct payload as [| | | | | |d]; try discriminate.
  lookups; injection H as <-; reflexivity.
Qed.

(** Each structural problem ends in the handler of one of the two [try]
    blocks. *)
Lemma structural_problem_raises (raw : pyval) :
  structural_problem raw ->
  exists detail : string,
    _parse_profile raw = Raise (MojangErr MalformedResponse 0 (PyStr detail)).
Proof.
  intros [d Hp | d Hp | d first others Hp Hv | raw' value msg Hv Hb
          | raw' value blob msg Hv Hb Hj
          | raw' payload Hd Hobj Htx Hid
          | raw' payload s msg Hd Htx Hid Hu
          | raw' payload s Hd Htx Hid Hmiss].
  - eexists. unfold _parse_profile, decode_textures. simpl.
    rewrite Hp. reflexivity.
  - eexists. unfold _parse_profile, decode_textures. simpl.
    rewrite Hp. reflexivity.
  - eexists. unfold _parse_profile, decode_textures. simpl.
    rewrite Hp. simpl. rewrite Hv. reflexivity.
  - eexists. unfold _parse_profile.
    rewrite (decode_textures_found raw' value Hv), Hb. reflexivity.
  - eexists. unfold _parse_profile.
    rewrite (decode_textures_found raw' value Hv), Hb. simpl.
    rewrite Hj. reflexivity.
  - rewrite (parse_profile_decoded raw' payload Hd).
    destruct payload as [| | | | | |d]; try discriminate.
    open_profile. lookups; eexists; reflexivity.
  - rewrite (parse_profile_decoded raw' payload Hd).
    destruct payload as [| | | | | |d]; try discriminate.
    open_profile. simpl in *.
    destruct (dict_lookup "profileId" d) as [pid|]; [| discriminate].
    injection Hid as ->.
    lookups; rewrite Hu; eexists; reflexivity.
  - rewrite (parse_profile_decoded raw' payload Hd).
    destruct payload as [| | | | | |d]; try discriminate.
    open_profile. simpl in *.
    destruct (dict_lookup "profileId" d) as [pid|]; [| discriminate].
    injection Hid as ->.
    destruct (uuid_parse s) as [uid | msg];
      [| lookups; eexists; reflexivity].
    destruct Hmiss as [Hmiss | Hmiss];
      lookups; eexists; reflexivity.
Qed.

End Decoder.

Lemma well_formed_shape (payload : pyval) :
  well_formed_payload payload = true -> payload_shape payload = true.
Proof.
  unfold well_formed_payload. intros H.
  do 6 (apply andb_true_iff in H; destruct H as [H _]). exact H.
Qed.

(** C6. For every raw profile document whose [properties[0].value]
    base64-decodes to well-formed profile JSON, [_parse_profile] returns
    the [UserProfile] of the payload: [id] parsed from [profileId], [name]
    from [profileName], [is_legacy_profile] from [legacy] (absent = false),
    [skin_url] and [skin_variant] from [textures.SKIN], [cape_url] from
    [textures.CAPE.url].  For the example payload this is name "Notch",
    not legacy, variant "slim", skin URL "http://x" and no cape; when
    [textures] has no [SKIN], the skin URL is [None] and the variant
    "classic". *)
Theorem parse_profile_well_formed :
  forall (L : PyLib) (raw value : pyval) (blob : list byte)
         (payload : pyval) (s : string) (uid : uuid.UUID),
    textures_value raw = Some value ->
    b64decode value = Ret blob ->
    json_loads blob = Ret payload ->
    well_formed_payload payload = true ->
    at_path ["profileId"] payload = Some (PyStr s) ->
    uuid_parse s = inl uid ->
    _parse_profile raw = Ret (spec_profile uid payload)
    /\ (payload = notch_payload ->
        _parse_profile raw =
          Ret {| id := uid;
                 timestamp := PyInt 1;
                 name := PyStr "Notch";
                 is_legacy_profile := false;
                 skin_variant := PyStr "slim";
                 skin_url := PyStr "http://x";
                 cape_url := PyNone |})
    /\ (at_path ["textures"; "SKIN"] payload = None ->
        exists p : UserProfile,
          _parse_profile raw = Ret p
          /\ skin_url p = PyNone /\ skin_variant p = PyStr "classic").
Proof.
  intros L raw value blob payload s uid Hv Hb Hj Hwf Hid Hu.
  assert (Hrun : _parse_profile raw = Ret (spec_profile uid payload)).
  { rewrite (parse_profile_decoded raw payload).
    - apply (build_profile_shape payload s uid); [| assumption | assumption].
      now apply well_formed_shape.
    - rewrite (decode_textures_found raw value Hv), Hb. exact Hj. }
  split; [exact Hrun |]. split.
  - intros ->. exact Hrun.
  - intros Hskin. exists (spec_profile uid payload).
    split; [exact Hrun |].
    destruct payload as [| | | | | |d]; try discriminate.
    unfold spec_profile. simpl in *.
    destruct (dict_lookup "textures" d) as [[| | | | | |tx]|];
      try (split; reflexivity).
    destruct (dict_lookup "SKIN" tx); [discriminate | split; reflexivity].
Qed.

Lemma parse_profile_well_formed_witness :
  textures_value (raw_profile notch_blob) = Some (PyStr notch_blob)
  /\ b64decode (PyLib := CPython.lib) (PyStr notch_blob) = Ret (blob_of notch_blob)
  /\ json_loads (PyLib := CPython.lib) (blob_of notch_blob) = Ret notch_payload
  /\ well_formed_payload notch_payload = true
  /\ uuid_parse (PyLib := CPython.lib) "069a79f444e94726a5befca90e38aaf5"
     = inl notch_uuid
  /\ _parse_profile (L := CPython.lib) (raw_profile notch_blob) =
       Ret {| id := notch_uuid;
              timestamp := PyInt 1;
              name := PyStr "Notch";
              is_legacy_profile := false;
              skin_variant := PyStr "slim";
              skin_url := PyStr "http://x";
              cape_url := PyNone |}.
Proof.
  split; [reflexivity |]. split; [vm_compute; reflexivity |].
  split; [vm_compute; reflexivity |]. split; [reflexivity |].
  split; [vm_compute; reflexivity |].
  apply (proj1 (proj2
    (parse_profile_well_formed CPython.lib (raw_profile notch_blob)
       (PyStr notch_blob) (blob_of notch_blob) notch_payload
       "069a79f444e94726a5befca90e38aaf5" notch_uuid
       eq_refl
       ltac:(vm_compute; reflexivity)
       ltac:(vm_compute; reflexivity)
       eq_refl eq_refl
       ltac:(vm_compute; reflexivity)))).
  reflexivity.
Defined.

(** C7 (as stated, refuted).  A payload whose [timestamp] is a string and
    whose [profileName] is a number decodes without any error: the
    dataclass stores both values as they are. *)
Lemma mistyped_fields_counterexample :
  _parse_profile (L := CPython.lib) (raw_profile mistyped_blob) =
    Ret {| id := notch_uuid;
           timestamp := PyStr "soon";
           name := PyInt 12345;
           is_legacy_profile := false;
           skin_variant := PyStr "classic";
           skin_url := PyNone;
           cape_url := PyNone |}
  /\ is_int (PyStr "soon") = false
  /\ is_str (PyInt 12345) = false.
Proof. vm_compute. repeat split. Qed.

(** C7 (amended).  [_parse_profile] fails with [MalformedResponse], of
    status 0, whenever the document has one of these structural problems:
    the object has no [properties]; [properties] is an empty list; its
    first item is an object without [value]; the value does not
    base64-decode ([binascii.Error]); the decoded bytes do not parse as JSON
    ([JSONDecodeError]); or, in a decoded object whose [textures] is absent
    or an object, [profileId] is missing or is a string that is not a UUID,
    or, [profileId] being a string, [timestamp] or [profileName] is missing.
    The types of [timestamp] and [profileName] are not checked: on a payload
    of the expected shape they are copied as they are. *)
Theorem structural_problems_are_malformed :
  forall (L : PyLib) (raw : pyval),
    (structural_problem raw ->
     exists detail : string,
       _parse_profile raw
       = Raise (MojangErr MalformedResponse 0 (PyStr detail)))
    /\ (forall (payload : pyval) (s : string) (uid : uuid.UUID),
          decode_textures raw = Ret payload ->
          payload_shape payload = true ->
          at_path ["profileId"] payload = Some (PyStr s) ->
          uuid_parse s = inl uid ->
          exists p : UserProfile,
            _parse_profile raw = Ret p
            /\ timestamp p = or_None (at_path ["timestamp"] payload)
            /\ name p = or_None (at_path ["profileName"] payload)).
Proof.
  intros L raw. split.
  - apply structural_problem_raises.
  - intros payload s uid Hd Hshape Hid Hu.
    exists (spec_profile uid payload).
    rewrite (parse_profile_decoded raw payload Hd).
    rewrite (build_profile_shape payload s uid Hshape Hid Hu).
    repeat split.
Qed.

Lemma structural_problems_are_malformed_witness :
  structural_problem (L := CPython.lib) (raw_profile nameless_blob)
  /\ exists detail : string,
       _parse_profile (L := CPython.lib) (raw_profile nameless_blob)
       = Raise (MojangErr MalformedResponse 0 (PyStr detail)).
Proof.
  assert (P : structural_problem (L := CPython.lib) (raw_profile nameless_blob)).
  { apply (missing_timestamp_or_name (L := CPython.lib)
             (raw_profile nameless_blob)
             (PyDict [("profileId", PyStr "069a79f444e94726a5befca90e38aaf5");
                      ("timestamp", PyInt 1);
                      ("textures", PyDict [])])
             "069a79f444e94726a5befca90e38aaf5").
    - vm_compute; reflexivity.
    - reflexivity.
    - reflexivity.
    - right; reflexivity. }
  split; [exact P |].
  exact (proj1 (structural_problems_are_malformed CPython.lib
                  (raw_profile nameless_blob)) P).
Defined.

(** C9 (as stated, refuted).  A payload whose
    [textures.SKIN.metadata.model] is the empty string decodes to a
    profile whose [skin_variant] is the empty string. *)
Lemma empty_skin_variant_counterexample :
  _parse_profile (L := CPython.lib) (raw_profile empty_model_blob) =
    Ret {| id := notch_uuid;
           timestamp := PyInt 1;
           name := PyStr "Notch";
           is_legacy_profile := false;
           skin_variant := PyStr "";
           skin_url := PyStr "http://x";
           cape_url := PyNone |}
  /\ is_nonempty_str (PyStr "") = false.
Proof. vm_compute. repeat split. Qed.

(** C9 (amended).  For every [UserProfile] that [_parse_profile] returns,
    [skin_variant] is "classic" whenever the payload has no
    [textures.SKIN.metadata.model], and otherwise it is that model value as
    the payload gives it; so it is a non-empty string whenever the model is
    absent or is a non-empty string. *)
Theorem skin_variant_is_model_or_classic :
  forall (L : PyLib) (raw : pyval) (p : UserProfile),
    _parse_profile raw = Ret p ->
    exists payload : pyval,
      decode_textures raw = Ret payload
      /\ skin_variant p =
           match at_path ["textures"; "SKIN"; "metadata"; "model"] payload with
           | Some model => model
           | None => PyStr "classic"
           end
      /\ (absent_or is_nonempty_str
            (at_path ["textures"; "SKIN"; "metadata"; "model"] payload) = true ->
          is_nonempty_str (skin_variant p) = true).
Proof.
  intros L raw p Hrun.
  destruct (parse_profile_inv raw p Hrun) as (payload & Hd & Hb).
  exists payload. split; [exact Hd |].
  pose proof (build_profile_skin_variant payload p Hb) as Hv.
  split; [exact Hv |].
  rewrite Hv.
  destruct (at_path ["textures"; "SKIN"; "metadata"; "model"] payload);
    simpl; [trivial | reflexivity].
Qed.

Lemma skin_variant_is_model_or_classic_witness :
  exists payload : pyval,
    decode_textures (L := CPython.lib) (raw_profile notch_blob) = Ret payload
    /\ PyStr "slim" =
         match at_path ["textures"; "SKIN"; "metadata"; "model"] payload with
         | Some model => model
         | None => PyStr "classic"
         end
    /\ (absent_or is_nonempty_str
          (at_path ["textures"; "SKIN"; "metadata"; "model"] payload) = true ->
        is_nonempty_str (PyStr "slim") = true).
Proof.
  exact (skin_variant_is_model_or_classic CPython.lib (raw_profile notch_blob)
           {| id := notch_uuid;
              timestamp := PyInt 1;
              name := PyStr "Notch";
              is_legacy_profile := false;
              skin_variant := PyStr "slim";
              skin_url := PyStr "http://x";
              cape_url := PyNone |}
           ltac:(vm_compute; reflexivity)).
Defined.

(* ================================================================== *)
(** ** Runs of the whole client *)
(* ================================================================== *)

(** [uuid.hex] prints the 32 digits the session server expects. *)
Example notch_hex : uuid.hex notch_uuid = "069a79f444e94726a5befca90e38aaf5".
Proof. reflexivity. Qed.

(** A truncated blob is reported as [MalformedResponse]. *)
Example truncated_blob_is_malformed :
  _parse_profile (L := CPython.lib) (raw_profile "eyJwcm9maWxlSWQ")
  = Raise (MojangErr MalformedResponse 0
             (PyStr "Cannot decode profile textures: Incorrect padding")).
Proof. vm_compute. reflexivity. Qed.

(** [get_profile] against a server that knows the player: one request to
    the session server, then the decoded profile. *)
Example get_profile_found :
  let answer :=
    {| status := 200; reason := Some "OK";
       url_path := "/session/minecraft/profile/069a79f444e94726a5befca90e38aaf5";
       json := Ret (raw_profile notch_blob); text := Ret ""; read := Ret tt |} in
  let run :=
    get_profile (L := CPython.lib) api3
      (inr "069a79f4-44e9-4726-a5be-fca90e38aaf5") (always answer) in
  fst run = Ret (Some (spec_profile notch_uuid notch_payload))
  /\ filter is_request (trace (snd run))
     = [Request "GET"
          "https://sessionserver.mojang.com/session/minecraft/profile/069a79f444e94726a5befca90e38aaf5"
          []].
Proof. vm_compute. split; reflexivity. Qed.

(** Three 429 replies with [retry_on_ratelimit] and the default pause of
    60: three requests, two pauses of 60, then [TooManyRequests]. *)
Example three_429_with_retry :
  let self :=
    {| _max_attempts := 3; _owns_session := true;
       _retry := true; _retry_delay := 60 |} in
  let run :=
    _get_json self "https://api.mojang.com/x" []
      (always (object_body 429 "Too Many Requests" "slow down")) in
  fst run = Raise (MojangErr TooManyRequests 429 (PyStr "slow down"))
  /\ requests (trace (snd run)) = 3%nat
  /\ sleeps (trace (snd run)) = [60%Q; 60%Q].
Proof. vm_compute. repeat split. Qed.

(* ================================================================== *)
(** ** Further properties of the request loop *)
(* ================================================================== *)

Lemma retry_eligible_pause (self : _HTTPClient) (resp : ClientResponse)
    (attempt : Z) (w : world) :
  attempt < _max_attempts self ->
  drains resp ->
  retry_eligible self resp = true ->
  _maybe_retry self resp attempt w =
    (Ret true,
     after w [Read;
              if (status resp =? 429) && _retry self
              then ratelimit_log self attempt
              else backoff_log self resp attempt;
              Sleep (retry_pause self resp attempt)]).
Proof.
  intros Hlt Hread He. unfold retry_pause.
  destruct ((status resp =? 429) && _retry self) eqn:E.
  - apply andb_true_iff in E as [Hs Hr]. apply Z.eqb_eq in Hs.
    now apply maybe_retry_ratelimit.
  - unfold retry_eligible in He. rewrite E in He. simpl in He.
    now apply maybe_retry_backoff.
Qed.

(** The pause before a retry that is not a rate-limit pause: the int
    [2 ** (attempt - 1)] from attempt 1 on, the float [0.5] at attempt 0. *)
Lemma retry_pause_backoff (self : _HTTPClient) (resp : ClientResponse)
    (attempt : Z) :
  (status resp =? 429) && _retry self = false ->
  (1 <= attempt -> retry_pause self resp attempt = inject_Z (2 ^ (attempt - 1)))
  /\ (attempt = 0 -> retry_pause self resp attempt = 1 # 2).
Proof.
  intros H429. unfold retry_pause. rewrite H429. split.
  - intros Ha. now rewrite pow2_int by lia.
  - intros ->. reflexivity.
Qed.

(** What [_maybe_retry] does, case by case. *)
Lemma maybe_retry_cases (self : _HTTPClient) (resp : ClientResponse)
    (attempt : Z) (w : world) :
  exists (r : outcome bool) (t : list event),
    _maybe_retry self resp attempt w = (r, after w t)
    /\ requests t = 0%nat
    /\ (_max_attempts self <= attempt -> r = Ret false /\ t = [])
    /\ (attempt < _max_attempts self ->
        In Read t
        /\ (forall e : exn, read resp = Raise e -> r = Raise e /\ t = [Read])
        /\ (drains resp ->
            r = Ret (retry_eligible self resp)
            /\ sleeps t =
                 (if retry_eligible self resp
                  then [retry_pause self resp attempt] else [])))
    /\ (r <> Ret true -> sleeps t = [])
    /\ ((status resp =? 429) && _retry self = true ->
        retry_pause self resp attempt = _retry_delay self)
    /\ ((status resp =? 429) && _retry self = false ->
        (1 <= attempt ->
         retry_pause self resp attempt = inject_Z (2 ^ (attempt - 1)))
        /\ (attempt = 0 -> retry_pause self resp attempt = 1 # 2)).
Proof.
  assert (Hpause :
    ((status resp =? 429) && _retry self = true ->
       retry_pause self resp attempt = _retry_delay self)
    /\ ((status resp =? 429) && _retry self = false ->
        (1 <= attempt ->
         retry_pause self resp attempt = inject_Z (2 ^ (attempt - 1)))
        /\ (attempt = 0 -> retry_pause self resp attempt = 1 # 2))).
  { split.
    - intros H. unfold retry_pause. now rewrite H.
    - apply retry_pause_backoff. }
  destruct (Z.lt_ge_cases attempt (_max_attempts self)) as [Hlt | Hge].
  - destruct (read resp) as [[] | e] eqn:Hread.
    + destruct (retry_eligible self resp) eqn:He.
      * eexists. eexists.
        split; [exact (retry_eligible_pause self resp attempt w Hlt Hread He) |].
        split; [now destruct ((status resp =? 429) && _retry self) |].
        split; [lia |].
        split; [| split; [intros H; now destruct H | exact Hpause]].
        intros _. split; [now left |].
        split; [intros e He'; discriminate |].
        intros _. split; [reflexivity |].
        now destruct ((status resp =? 429) && _retry self).
      * exists (Ret false), [Read].
        split; [now apply maybe_retry_declines |].
        split; [reflexivity |]. split; [lia |].
        split; [| split; [reflexivity | exact Hpause]].
        intros _. split; [now left |].
        split; [intros e He'; discriminate |].
        intros _. now split.
    + exists (Raise e), [Read].
      split; [exact (maybe_retry_drain_fails self resp attempt w e Hlt Hread) |].
      split; [reflexivity |]. split; [lia |].
      split; [| split; [reflexivity | exact Hpause]].
      intros _. split; [now left |].
      split; [intros e' He'; injection He' as <-; now split |].
      unfold drains. intros Hd. congruence.
  - exists (Ret false), []. split.
    + rewrite maybe_retry_exhausted by assumption.
      unfold after. rewrite app_nil_r. now destruct w.
    + split; [reflexivity |]. split; [now split |].
      split; [lia |]. split; [reflexivity | exact Hpause].
Qed.

(** [_maybe_retry] sends nothing and sleeps exactly when it answers
    [True], which needs an attempt left. *)
Lemma maybe_retry_run (self : _HTTPClient) (resp : ClientResponse)
    (attempt : Z) (w : world) :
  exists (r : outcome bool) (t : list event),
    _maybe_retry self resp attempt w = (r, after w t)
    /\ requests t = 0%nat
    /\ ((r = Ret true /\ attempt < _max_attempts self
         /\ List.length (sleeps t) = 1%nat)
        \/ (r <> Ret true /\ sleeps t = [])).
Proof.
  destruct (maybe_retry_cases self resp attempt w)
    as (r & t & E & Hreq & Hge & Hlt & Hquiet & _).
  exists r, t. split; [exact E |]. split; [exact Hreq |].
  destruct r as [[|] | e].
  - left. split; [reflexivity |].
    destruct (Z.lt_ge_cases attempt (_max_attempts self)) as [Ha | Ha].
    + split; [exact Ha |].
      destruct (Hlt Ha) as (_ & Hfail & Hdrain).
      destruct (read resp) as [[] | e] eqn:Hread.
      * destruct (Hdrain Hread) as [Hr Hsl].
        injection Hr as Hr. rewrite <- Hr in Hsl. now rewrite Hsl.
      * destruct (Hfail e eq_refl) as [Hr _]. discriminate.
    + destruct (Hge Ha) as [Hr _]. discriminate.
  - right. split; [discriminate | apply Hquiet; discriminate].
  - right. split; [discriminate | apply Hquiet; discriminate].
Qed.



(** Called with attempt 0, below the attempts of [_request], [_maybe_retry]
    sleeps half a second. *)
Example maybe_retry_at_attempt_0 :
  let run :=
    _maybe_retry client3 (object_body 503 "Service Unavailable" "down") 0
      (always (object_body 503 "Service Unavailable" "down")) in
  fst run = Ret true /\ sleeps (trace (snd run)) = [1 # 2].
Proof. vm_compute. split; reflexivity. Qed.

Section Shape.

Context {T : Type}.
Variables (self : _HTTPClient) (method url : string).
Variable deserialize : ClientResponse -> outcome T.
Variable kwargs : list (string * pyval).

Let turn := _request_attempt self method url deserialize kwargs.

Lemma only_requests_app (t1 t2 : list event) :
  only_requests method url kwargs t1 ->
  only_requests method url kwargs t2 ->
  only_requests method url kwargs (t1 ++ t2).
Proof. unfold only_requests. intros H1 H2. apply Forall_app. now split. Qed.

Lemma only_requests_quiet (t : list event) :
  requests t = 0%nat -> only_requests method url kwargs t.
Proof.
  unfold only_requests, requests. intros H. apply Forall_forall.
  intros e Hin He.
  assert (Hf : In e (filter is_request t)) by (apply filter_In; now split).
  destruct (filter is_request t); [destruct Hf | discriminate].
Qed.

(** A transport failure ends the turn after the request. *)
Lemma turn_fails (attempt : Z) (w : world) (e : exn) :
  next_reply w = Fails e ->
  turn attempt w = (Raise e, after w [Request method url kwargs]).
Proof.
  intros Hr. unfold turn, _request_attempt, IO.session_request.
  cbv [IO.bind]. unfold next_reply in Hr. now rewrite Hr.
Qed.

(** One turn: one request, the request of the call; it goes on to the next
    turn only with an attempt left and after exactly one sleep, and
    otherwise has not slept. *)
Lemma turn_run (attempt : Z) (w : world) :
  exists (r : outcome (IO.flow T)) (t : list event),
    turn attempt w = (r, after w t)
    /\ requests t = 1%nat
    /\ only_requests method url kwargs t
    /\ ((r = Ret IO.Continue /\ attempt < _max_attempts self
         /\ List.length (sleeps t) = 1%nat)
        \/ (r <> Ret IO.Continue /\ sleeps t = [])).
Proof.
  destruct (next_reply w) as [resp | e] eqn:Hr.
  - destruct (ok resp) eqn:Hok.
    + eexists. eexists.
      split;
        [exact (turn_ok self method url deserialize kwargs attempt w resp
                  Hr Hok) |].
      split; [reflexivity |]. split.
      * repeat constructor. discriminate.
      * right. split; [| reflexivity].
        destruct (deserialize resp) as [v | [c msg | c st d]]; simpl;
          try discriminate.
        destruct (builtin_subclass c JSONDecodeError
                  || (builtin_subclass c ContentTypeError || false));
          discriminate.
    + unfold turn, _request_attempt, IO.session_request.
      cbv [IO.bind]. unfold next_reply in Hr. rewrite Hr.
      cbv [IO.emit]. rewrite Hok.
      match goal with
      | |- context [_maybe_retry self resp attempt ?w0] =>
          destruct (maybe_retry_run self resp attempt w0)
            as (r0 & t' & E & Hreq & Hcase); rewrite E
      end.
      exists (match r0 with
              | Ret true => Ret IO.Continue
              | Ret false => Raise (_raise_for_status resp)
              | Raise e => Raise e
              end),
        ([Request method url kwargs; attempt_log method url resp attempt] ++ t').
      split.
      { destruct r0 as [[|] | e];
          cbv [IO.ret IO.raise]; f_equal; unfold emit_to, after, attempt_log;
          simpl; now rewrite <- !app_assoc. }
      split; [rewrite requests_app, Hreq; reflexivity |].
      split.
      { apply only_requests_app; [| now apply only_requests_quiet].
        repeat constructor. discriminate. }
      rewrite sleeps_app. simpl.
      destruct Hcase as [(-> & Hlt & Hsl) | (Hr0 & Hsl)].
      * left. split; [reflexivity |]. split; [exact Hlt | exact Hsl].
      * right. rewrite Hsl. split; [| reflexivity].
        destruct r0 as [[|] | e]; [now destruct Hr0 | discriminate ..].
  - exists (Raise e), [Request method url kwargs].
    split; [now apply turn_fails |].
    split; [reflexivity |]. split.
    + repeat constructor.
    + right. split; [discriminate | reflexivity].
Qed.

(** The loop from attempt [a], with [k] attempts after it. *)
Lemma loop_shape (k : nat) :
  forall (a : Z) (w : world),
    a + Z.of_nat k = _max_attempts self ->
    exists (r : outcome (option T)) (t : list event),
      IO.for_each (range a (_max_attempts self + 1)) turn w = (r, after w t)
      /\ r <> Ret None
      /\ requests t = S (List.length (sleeps t))
      /\ only_requests method url kwargs t
      /\ (requests t <= S k)%nat.
Proof.
  induction k as [|k IH]; intros a w Ha;
    rewrite range_cons by lia; rewrite for_each_cons;
    destruct (turn_run a w) as (r1 & t1 & E1 & Hreq1 & Honly1 & Hcase);
    rewrite E1;
    destruct Hcase as [(-> & Hlt & Hsl1) | (Hr1 & Hsl1)].
  - lia.
  - exists (match r1 with
            | Ret (IO.Return v) => Ret (Some v)
            | Ret IO.Continue => Ret None
            | Raise e => Raise e
            end), t1.
    split; [destruct r1 as [[|v]|e]; [now destruct Hr1 | reflexivity ..] |].
    split; [destruct r1 as [[|v]|e]; [now destruct Hr1 | discriminate ..] |].
    rewrite Hsl1, Hreq1. repeat split; try assumption. lia.
  - destruct (IH (a + 1) (after w t1)) as (r2 & t2 & E2 & Hr2 & Hreq2 & Honly2 & Hle2);
      [lia |].
    exists r2, (t1 ++ t2). rewrite E2, after_after.
    split; [reflexivity |]. split; [assumption |].
    rewrite requests_app, sleeps_app, length_app, Hreq1, Hsl1, Hreq2.
    split; [reflexivity |].
    split; [now apply only_requests_app |]. simpl. lia.
  - exists (match r1 with
            | Ret (IO.Return v) => Ret (Some v)
            | Ret IO.Continue => Ret None
            | Raise e => Raise e
            end), t1.
    split; [destruct r1 as [[|v]|e]; [now destruct Hr1 | reflexivity ..] |].
    split; [destruct r1 as [[|v]|e]; [now destruct Hr1 | discriminate ..] |].
    rewrite Hsl1, Hreq1. repeat split; try assumption. lia.
Qed.

Lemma request_shape (w : world) :
  1 <= _max_attempts self ->
  exists (r : outcome (option T)) (t : list event),
    _request self method url deserialize kwargs w = (r, after w t)
    /\ r <> Ret None
    /\ requests t = S (List.length (sleeps t))
    /\ only_requests method url kwargs t
    /\ Z.of_nat (requests t) <= _max_attempts self.
Proof.
  intros Hmax.
  destruct (loop_shape (Z.to_nat (_max_attempts self) - 1) 1 w)
    as (r & t & E & Hr & Hreq & Honly & Hle); [lia |].
  exists r, t. unfold _request. fold turn. rewrite E.
  repeat split; try assumption. lia.
Qed.

End Shape.

(** X2. With [max_attempts >= 1], [_request] never falls off the end of
    its loop: it returns a deserialized value or raises, and never returns
    the implicit [None].  It sends at least one request and sleeps exactly
    once between two consecutive requests, never after the last one: the
    number of requests is the number of sleeps plus one. *)
Theorem request_returns_or_raises :
  forall (T : Type) (self : _HTTPClient) (method url : string)
         (deserialize : ClientResponse -> outcome T)
         (kwargs : list (string * pyval)) (w : world),
    1 <= _max_attempts self ->
    exists (r : outcome (option T)) (t : list event),
      _request self method url deserialize kwargs w = (r, after w t)
      /\ r <> Ret None
      /\ requests t = S (List.length (sleeps t)).
Proof.
  intros T self method url deserialize kwargs w Hmax.
  destruct (request_shape self method url deserialize kwargs w Hmax)
    as (r & t & E & Hr & Hreq & _ & _).
  exists r, t. now repeat split.
Qed.

Lemma request_returns_or_raises_witness :
  1 <= _max_attempts client3
  /\ exists (r : outcome (option pyval)) (t : list event),
       _request client3 "GET" "/lookup" json []
         (always (object_body 503 "Service Unavailable" "down"))
       = (r, after (always (object_body 503 "Service Unavailable" "down")) t)
       /\ r <> Ret None
       /\ requests t = S (List.length (sleeps t)).
Proof.
  split; [simpl; lia |].
  apply (request_returns_or_raises pyval client3 "GET" "/lookup" json []
           (always (object_body 503 "Service Unavailable" "down"))).
  simpl; lia.
Defined.

(** X3. Every request that one call to [_request] sends is the same
    request: the method, the URL and the keyword arguments of the call,
    on the first attempt and on every retry. *)
Theorem retries_resend_same_request :
  forall (T : Type) (self : _HTTPClient) (method url : string)
         (deserialize : ClientResponse -> outcome T)
         (kwargs : list (string * pyval)) (w : world),
    1 <= _max_attempts self ->
    exists t : list event,
      snd (_request self method url deserialize kwargs w) = after w t
      /\ forall e : event,
           In e t -> is_request e = true -> e = Request method url kwargs.
Proof.
  intros T self method url deserialize kwargs w Hmax.
  destruct (request_shape self method url deserialize kwargs w Hmax)
    as (r & t & E & _ & _ & Honly & _).
  exists t. rewrite E. split; [reflexivity |].
  unfold only_requests in Honly. rewrite Forall_forall in Honly. exact Honly.
Qed.

Lemma retries_resend_same_request_witness :
  1 <= _max_attempts client3
  /\ exists t : list event,
       snd (_request client3 "POST" "/profiles"  json
              [("json", PyList [PyStr "Notch"])]
              (always (object_body 503 "Service Unavailable" "down")))
       = after (always (object_body 503 "Service Unavailable" "down")) t
       /\ forall e : event,
            In e t -> is_request e = true ->
            e = Request "POST" "/profiles" [("json", PyList [PyStr "Notch"])].
Proof.
  split; [simpl; lia |].
  apply (retries_resend_same_request pyval client3 "POST" "/profiles" json
           [("json", PyList [PyStr "Notch"])]
           (always (object_body 503 "Service Unavailable" "down"))).
  simpl; lia.
Defined.


Lemma always_reply (resp : ClientResponse) (n : nat) :
  reply_after (always resp) n = Answer resp.
Proof. reflexivity. Qed.




Section Recover.

Context {T : Type}.
Variables (self : _HTTPClient) (method url : string).
Variable deserialize : ClientResponse -> outcome T.
Variable kwargs : list (string * pyval).


End Recover.



(** X7. Every status below 400 counts as success, the 1xx and 3xx ones
    included ([resp.ok]): a first reply below 400 that deserializes is
    returned after one request, without draining the body, without
    sleeping and without consulting the classifier. *)
Theorem below_400_is_success :
  forall (T : Type) (self : _HTTPClient) (method url : string)
         (deserialize : ClientResponse -> outcome T)
         (kwargs : list (string * pyval)) (w : world)
         (resp : ClientResponse) (v : T),
    1 <= _max_attempts self ->
    next_reply w = Answer resp ->
    status resp < 400 ->
    deserialize resp = Ret v ->
    _request self method url deserialize kwargs w
    = (Ret (Some v),
       after w [Request method url kwargs; attempt_log method url resp 1]).
Proof.
  intros T self method url deserialize kwargs w resp v Hmax Hr Hs Hd.
  apply success_returns; try assumption. unfold ok. lia.
Qed.

Lemma below_400_is_success_witness :
  _request client3 "GET" "/lookup" json []
    (always {| status := 304; reason := Some "Not Modified";
               url_path := "/lookup"; json := Ret PyNone; text := Ret "";
               read := Ret tt |})
  = (Ret (Some PyNone),
     after
       (always {| status := 304; reason := Some "Not Modified";
                  url_path := "/lookup"; json := Ret PyNone; text := Ret "";
                  read := Ret tt |})
       [Request "GET" "/lookup" [];
        attempt_log "GET" "/lookup"
          {| status := 304; reason := Some "Not Modified";
             url_path := "/lookup"; json := Ret PyNone; text := Ret "";
             read := Ret tt |} 1]).
Proof.
  apply (below_400_is_success pyval client3 "GET" "/lookup" json []
           (always {| status := 304; reason := Some "Not Modified";
                      url_path := "/lookup"; json := Ret PyNone;
                      text := Ret ""; read := Ret tt |})).
  - simpl; lia.
  - reflexivity.
  - simpl; lia.
  - reflexivity.
Defined.

(** X8. Only [JSONDecodeError] and [ContentTypeError] are turned into
    [MalformedResponse].  Any other exception of the deserializer on a
    successful reply, such as the [UnicodeDecodeError] of [resp.text()],
    leaves [_request] as it is, after one request and without a retry. *)
Theorem foreign_deserializer_error_escapes :
  forall (T : Type) (self : _HTTPClient) (method url : string)
         (deserialize : ClientResponse -> outcome T)
         (kwargs : list (string * pyval)) (w : world)
         (resp : ClientResponse) (e : exn),
    1 <= _max_attempts self ->
    next_reply w = Answer resp ->
    status resp < 400 ->
    deserialize resp = Raise e ->
    isinstance e [Builtin JSONDecodeError; Builtin ContentTypeError] = false ->
    _request self method url deserialize kwargs w
    = (Raise e,
       after w [Request method url kwargs; attempt_log method url resp 1]).
Proof.
  intros T self method url deserialize kwargs w resp e Hmax Hr Hs Hd He.
  unfold _request. rewrite range_cons by lia.
  apply other_deserializer_failure_propagates; try assumption.
  unfold ok. lia.
Qed.

Lemma foreign_deserializer_error_escapes_witness :
  _request client3 "GET" "/blockedservers" text []
    (always {| status := 200; reason := Some "OK";
               url_path := "/blockedservers";
               json := Ret PyNone;
               text := Raise (PyErr UnicodeDecodeError "invalid start byte");
               read := Ret tt |})
  = (Raise (PyErr UnicodeDecodeError "invalid start byte"),
     after
       (always {| status := 200; reason := Some "OK";
                  url_path := "/blockedservers";
                  json := Ret PyNone;
                  text := Raise (PyErr UnicodeDecodeError "invalid start byte");
                  read := Ret tt |})
       [Request "GET" "/blockedservers" [];
        attempt_log "GET" "/blockedservers"
          {| status := 200; reason := Some "OK";
             url_path := "/blockedservers";
             json := Ret PyNone;
             text := Raise (PyErr UnicodeDecodeError "invalid start byte");
             read := Ret tt |} 1]).
Proof.
  apply (foreign_deserializer_error_escapes string client3 "GET"
           "/blockedservers" text []
           (always {| status := 200; reason := Some "OK";
                      url_path := "/blockedservers";
                      json := Ret PyNone;
                      text := Raise (PyErr UnicodeDecodeError
                                       "invalid start byte"); read := Ret tt |})).
  - simpl; lia.
  - reflexivity.
  - simpl; lia.
  - reflexivity.
  - reflexivity.
Defined.

(** X9. An exception of the transport (a refused connection, a timeout)
    is never retried: at whatever attempt [session.request] raises, the
    loop stops with that exception right after the request, whatever
    attempts remain, without a sleep. *)
Theorem transport_failure_not_retried :
  forall (T : Type) (self : _HTTPClient) (method url : string)
         (deserialize : ClientResponse -> outcome T)
         (kwargs : list (string * pyval)) (w : world) (e : exn),
    next_reply w = Fails e ->
    (forall (attempt : Z) (rest : list Z),
        IO.for_each (attempt :: rest)
          (_request_attempt self method url deserialize kwargs) w
        = (Raise e, after w [Request method url kwargs]))
    /\ (1 <= _max_attempts self ->
        _request self method url deserialize kwargs w
        = (Raise e, after w [Request method url kwargs])).
Proof.
  intros T self method url deserialize kwargs w e Hr.
  assert (Hloop : forall attempt rest,
             IO.for_each (attempt :: rest)
               (_request_attempt self method url deserialize kwargs) w
             = (Raise e, after w [Request method url kwargs])).
  { intros attempt rest. rewrite for_each_cons.
    now rewrite (turn_fails self method url deserialize kwargs attempt w e Hr). }
  split; [exact Hloop |].
  intros Hmax. unfold _request. rewrite range_cons by lia. apply Hloop.
Qed.

Lemma transport_failure_not_retried_witness :
  next_reply unreachable = Fails (PyErr ClientError "Cannot connect to host")
  /\ (1 <= _max_attempts client3 ->
      _request client3 "GET" "/lookup" json [] unreachable
      = (Raise (PyErr ClientError "Cannot connect to host"),
         after unreachable [Request "GET" "/lookup" []])).
Proof.
  split; [reflexivity |].
  apply (transport_failure_not_retried pyval client3 "GET" "/lookup" json []
           unreachable (PyErr ClientError "Cannot connect to host")).
  reflexivity.
Defined.

(** The class of a status, by cases. *)
Lemma classify_cases (s : Z) :
  (classify s = BadRequest <-> s = 400)
  /\ (classify s = Unauthorized <-> s = 401)
  /\ (classify s = Forbidden <-> s = 403)
  /\ (classify s = NotFound <-> s = 404)
  /\ (classify s = TooManyRequests <-> s = 429)
  /\ (classify s = ServerError <-> 500 <= s)
  /\ (classify s = MojangError <->
      s < 500 /\ s <> 400 /\ s <> 401 /\ s <> 403 /\ s <> 404 /\ s <> 429)
  /\ classify s <> MalformedResponse
  /\ classify s <> LoginFailure
  /\ classify s <> MissingMinecraftLicense
  /\ classify s <> MissingMinecraftProfile.
Proof.
  unfold classify, _STATUS_TO_ERROR. cbn [status_lookup].
  repeat match goal with
         | |- context [?k =? s] => destruct (Z.eqb_spec k s)
         end;
    try destruct (s >=? 500) eqn:E;
    repeat split; intros; try discriminate; try lia; try reflexivity.
Qed.

(** X10. Whenever the detail derivation succeeds, the error
    [_raise_for_status] raises carries the status of the response, and its
    class is a function of that status alone: [BadRequest] exactly for 400,
    [Unauthorized] for 401, [Forbidden] for 403, [NotFound] for 404,
    [TooManyRequests] for 429, [ServerError] exactly from 500 on, and the
    base class [MojangError] for every other status; it is never
    [MalformedResponse] nor a login class. *)
Theorem raise_for_status_class_by_status :
  forall (resp : ClientResponse) (detail : pyval),
    error_detail resp = Ret detail ->
    exists cls : mojang_exc,
      _raise_for_status resp = MojangErr cls (status resp) detail
      /\ (cls = BadRequest <-> status resp = 400)
      /\ (cls = Unauthorized <-> status resp = 401)
      /\ (cls = Forbidden <-> status resp = 403)
      /\ (cls = NotFound <-> status resp = 404)
      /\ (cls = TooManyRequests <-> status resp = 429)
      /\ (cls = ServerError <-> 500 <= status resp)
      /\ (cls = MojangError <->
          status resp < 500 /\ status resp <> 400 /\ status resp <> 401
          /\ status resp <> 403 /\ status resp <> 404 /\ status resp <> 429)
      /\ cls <> MalformedResponse
      /\ cls <> LoginFailure
      /\ cls <> MissingMinecraftLicense
      /\ cls <> MissingMinecraftProfile.
Proof.
  intros resp detail Hd. exists (classify (status resp)).
  split; [now apply raise_for_status_classified |].
  apply classify_cases.
Qed.

Lemma raise_for_status_class_by_status_witness :
  error_detail (object_body 404 "Not Found" "no such player")
    = Ret (PyStr "no such player")
  /\ exists cls : mojang_exc,
       _raise_for_status (object_body 404 "Not Found" "no such player")
       = MojangErr cls 404 (PyStr "no such player")
       /\ (cls = NotFound <-> 404 = 404).
Proof.
  split; [reflexivity |].
  destruct (raise_for_status_class_by_status
              (object_body 404 "Not Found" "no such player")
              (PyStr "no such player") eq_refl)
    as (cls & Hrun & _ & _ & _ & Hnf & _).
  exists cls. split; [exact Hrun | exact Hnf].
Defined.

(** X11. Whenever the detail derivation of [_raise_for_status] succeeds,
    the detail is never empty: it is truthy, since a field that is empty,
    [null] or 0 falls through to the next one and finally to
    ["HTTP <status>"].  On a JSON object, a truthy [errorMessage] wins over
    [error], and [error] is used only when [errorMessage] is missing or
    falsy. *)
Theorem error_detail_truthy_and_ordered :
  forall (resp : ClientResponse) (detail : pyval),
    error_detail resp = Ret detail ->
    truthy detail = true
    /\ (forall (d : list (string * pyval)) (m : pyval),
          json resp = Ret (PyDict d) ->
          dict_lookup "errorMessage" d = Some m ->
          truthy m = true ->
          detail = m)
    /\ (forall (d : list (string * pyval)) (e : pyval),
          json resp = Ret (PyDict d) ->
          (dict_lookup "errorMessage" d = None
           \/ exists m, dict_lookup "errorMessage" d = Some m
                        /\ truthy m = false) ->
          dict_lookup "error" d = Some e ->
          truthy e = true ->
          detail = e).
Proof.
  intros resp detail Hd. split; [| split].
  - unfold error_detail in Hd.
    destruct (json resp) as [v | [c msg | c st d]].
    + destruct v as [| | | | | |d]; try discriminate.
      unfold get, try_except_as, Py.bind in Hd.
      destruct (dict_lookup "errorMessage" d) as [m|];
        [destruct (truthy m) eqn:Hm; [now injection Hd as <- |] |];
        (destruct (dict_lookup "error" d) as [e|];
          [destruct (truthy e) eqn:He; [now injection Hd as <- |] |]);
        simpl in Hd; injection Hd as <-; reflexivity.
    + simpl in Hd.
      destruct (builtin_subclass c JSONDecodeError
                || (builtin_subclass c ContentTypeError || false));
        [| discriminate].
      injection Hd as <-. reflexivity.
    + discriminate.
  - intros d m Hj Hm Ht.
    rewrite (error_detail_object resp d Hj) in Hd. injection Hd as <-.
    unfold object_detail. now rewrite Hm, Ht.
  - intros d e Hj Hm He Ht.
    rewrite (error_detail_object resp d Hj) in Hd. injection Hd as <-.
    unfold object_detail.
    destruct Hm as [Hm | (m & Hm & Hf)].
    + now rewrite Hm, He, Ht.
    + now rewrite Hm, Hf, He, Ht.
Qed.

Lemma error_detail_truthy_and_ordered_witness :
  error_detail (object_body 404 "Not Found" "no such player")
    = Ret (PyStr "no such player")
  /\ truthy (PyStr "no such player") = true.
Proof.
  split; [reflexivity |].
  exact (proj1 (error_detail_truthy_and_ordered
                  (object_body 404 "Not Found" "no such player")
                  (PyStr "no such player") eq_refl)).
Defined.

(* ================================================================== *)
(** ** Further properties of the lookups *)
(* ================================================================== *)

Lemma assert_valid_username_spec (username : string) :
  (valid_username username -> _assert_valid_username username = Ret tt)
  /\ (~ valid_username username ->
      exists msg : string,
        _assert_valid_username username = Raise (PyErr ValueError msg)).
Proof.
  unfold valid_username, _assert_valid_username.
  destruct (len username <? 3) eqn:E1; simpl.
  - split; [lia | intros _; eexists; reflexivity].
  - destruct (len username >? 16) eqn:E2; simpl.
    + split; [lia | intros _; eexists; reflexivity].
    + destruct (isascii username); simpl.
      * split; [reflexivity |]. intros H. destruct H. split; [lia | reflexivity].
      * split; [intros [_ H]; discriminate | intros _; eexists; reflexivity].
Qed.

(** X12. [_assert_valid_username] accepts a name exactly when it has 3
    to 16 characters, all ASCII (the bounds 3 and 16 included), and raises
    [ValueError] for every other name. *)
Theorem username_validation :
  forall username : string,
    (_assert_valid_username username = Ret tt <-> valid_username username)
    /\ (~ valid_username username ->
        exists msg : string,
          _assert_valid_username username = Raise (PyErr ValueError msg)).
Proof.
  intros username.
  destruct (assert_valid_username_spec username) as [Hok Hbad].
  split; [| exact Hbad]. split; [| exact Hok].
  intros H. unfold valid_username.
  unfold _assert_valid_username in H.
  destruct (len username <? 3) eqn:E1; simpl in H; [discriminate |].
  destruct (len username >? 16) eqn:E2; simpl in H; [discriminate |].
  destruct (isascii username); simpl in H; [| discriminate].
  split; [lia | reflexivity].
Qed.

Lemma username_validation_witness :
  ~ valid_username "ab"
  /\ exists msg : string,
       _assert_valid_username "ab" = Raise (PyErr ValueError msg).
Proof.
  assert (H : ~ valid_username "ab").
  { unfold valid_username, len. simpl. lia. }
  split; [exact H |].
  exact (proj2 (username_validation "ab") H).
Defined.

Lemma assert_valid_usernames_all (names : list string) :
  Forall valid_username names -> assert_valid_usernames names = Ret tt.
Proof.
  induction 1 as [|n rest Hn _ IH]; [reflexivity |].
  simpl. rewrite (proj1 (assert_valid_username_spec n) Hn). exact IH.
Qed.




(** The request of a lookup, answered at once by a reply below 400 whose
    body is JSON. *)
Lemma get_json_success (self : _HTTPClient) (url : string) (w : world)
    (resp : ClientResponse) (data : pyval) :
  1 <= _max_attempts self ->
  next_reply w = Answer resp ->
  status resp < 400 ->
  json resp = Ret data ->
  _get_json self url [] w
  = (Ret data, after w [Request "GET" url []; attempt_log "GET" url resp 1]).
Proof.
  intros Hmax Hr Hs Hj. unfold _get_json. cbv [IO.bind].
  rewrite (success_returns pyval self "GET" url json [] w resp data Hr).
  - reflexivity.
  - unfold ok. lia.
  - exact Hj.
  - exact Hmax.
Qed.

Lemma getitem_at_path (data : pyval) (key : string) :
  match at_path [key] data with
  | Some v => getitem data key = Ret v
  | None =>
      exists (c : builtin_exc) (msg : string),
        getitem data key = Raise (PyErr c msg)
        /\ (c = KeyError \/ c = TypeError)
  end.
Proof.
  destruct data as [| | | | | |d]; simpl;
    try (do 2 eexists; split; [reflexivity | now right]).
  destruct (dict_lookup key d); [reflexivity |].
  do 2 eexists; split; [reflexivity | now left].
Qed.

(** X14. On a successful reply, [get_username] either returns the value
    of the key ["name"] of the body or raises [MalformedResponse], and
    nothing else: a body that is not an object (a list, a string, [null])
    or has no ["name"] is reported as [MalformedResponse] with status 0. *)
Theorem get_username_on_success :
  forall (L : PyLib) (self : API) (player : uuid.UUID + string)
         (uid : uuid.UUID) (w : world) (resp : ClientResponse) (data : pyval),
    _parse_uuid player = Ret uid ->
    1 <= _max_attempts (_http self) ->
    next_reply w = Answer resp ->
    status resp < 400 ->
    json resp = Ret data ->
    let w' := after w [Request "GET" (profile_url uid) [];
                       attempt_log "GET" (profile_url uid) resp 1] in
    (forall v : pyval,
        at_path ["name"] data = Some v ->
        get_username self player w = (Ret v, w'))
    /\ (at_path ["name"] data = None ->
        exists detail : string,
          get_username self player w
          = (Raise (MojangErr MalformedResponse 0 (PyStr detail)), w')).
Proof.
  intros L self player uid w resp data Hp Hmax Hr Hs Hj w'.
  assert (Hrun : get_username self player w
                 = (try_except_as (getitem data "name")
                      [KeyError; TypeError; AttributeError]
                      (fun exc =>
                         Raise (errors.new_MalformedResponse
                                  ("Profile response missing 'name': " ++ exc))),
                    w')).
  { unfold get_username. cbv [IO.bind IO.lift IO.catch]. rewrite Hp.
    fold (profile_url uid).
    now rewrite (get_json_success (_http self) (profile_url uid) w resp data
                   Hmax Hr Hs Hj). }
  pose proof (getitem_at_path data "name") as Hget.
  split.
  - intros v Hv. rewrite Hv in Hget. now rewrite Hrun, Hget.
  - intros Hv. rewrite Hv in Hget.
    destruct Hget as (c & msg & Hget & [-> | ->]);
      rewrite Hrun, Hget; eexists; reflexivity.
Qed.

Lemma get_username_on_success_witness :
  exists detail : string,
    get_username (L := CPython.lib) api3 (inl notch_uuid)
      (always (json_success (PyList [])))
    = (Raise (MojangErr MalformedResponse 0 (PyStr detail)),
       after (always (json_success (PyList [])))
         [Request "GET" (profile_url notch_uuid) [];
          attempt_log "GET" (profile_url notch_uuid)
            (json_success (PyList [])) 1]).
Proof.
  apply (proj2 (get_username_on_success CPython.lib api3 (inl notch_uuid)
                  notch_uuid (always (json_success (PyList [])))
                  (json_success (PyList [])) (PyList [])
                  eq_refl ltac:(simpl; lia) eq_refl ltac:(simpl; lia) eq_refl)).
  reflexivity.
Defined.

(** X15. On a successful reply, [get_uuid] reports a body that is not an
    object or has no ["id"] as [MalformedResponse]; it returns the UUID
    when ["id"] is a non-empty string that [uuid.UUID] accepts; and when
    ["id"] is a non-empty string that [uuid.UUID] rejects, the [ValueError]
    of [uuid.UUID] leaves [get_uuid] as it is, not wrapped in a
    [MalformedResponse]. *)
Theorem get_uuid_on_success :
  forall (L : PyLib) (self : API) (username : string) (w : world)
         (resp : ClientResponse) (data : pyval),
    valid_username username ->
    1 <= _max_attempts (_http self) ->
    next_reply w = Answer resp ->
    status resp < 400 ->
    json resp = Ret data ->
    let url := (_UUID_API_URL ++ "/" ++ username)%string in
    let w' := after w [Request "GET" url []; attempt_log "GET" url resp 1] in
    (at_path ["id"] data = None ->
     exists detail : string,
       get_uuid self username w
       = (Raise (MojangErr MalformedResponse 0 (PyStr detail)), w'))
    /\ (forall (s : string) (u : uuid.UUID),
          at_path ["id"] data = Some (PyStr s) -> s <> "" ->
          uuid_parse s = inl u ->
          get_uuid self username w = (Ret (Some u), w'))
    /\ (forall s msg : string,
          at_path ["id"] data = Some (PyStr s) -> s <> "" ->
          uuid_parse s = inr msg ->
          get_uuid self username w = (Raise (PyErr ValueError msg), w')).
Proof.
  intros L self username w resp data Hvalid Hmax Hr Hs Hj url w'.
  subst w' url.
  set (url := (_UUID_API_URL ++ "/" ++ username)%string).
  set (w' := after w [Request "GET" url []; attempt_log "GET" url resp 1]).
  assert (Hrun : get_uuid self username w
                 = IO.bind
                     (IO.lift
                        (try_except_as (getitem data "id")
                           [KeyError; TypeError; AttributeError]
                           (fun exc =>
                              Raise (errors.new_MalformedResponse
                                       ("UUID lookup response missing 'id': "
                                          ++ exc)))))
                     (fun raw =>
                        if truthy raw
                        then IO.bind (IO.lift (uuid_UUID raw))
                               (fun u => IO.ret (Some u))
                        else IO.ret None) w').
  { unfold get_uuid. cbv [IO.bind IO.lift IO.catch].
    rewrite (proj1 (assert_valid_username_spec username) Hvalid).
    fold url.
    now rewrite (get_json_success (_http self) url w resp data Hmax Hr Hs Hj). }
  pose proof (getitem_at_path data "id") as Hget.
  assert (Htruthy : forall s, s <> "" -> truthy (PyStr s) = true).
  { intros s Hne. simpl. destruct (String.eqb_spec s ""); [contradiction |].
    reflexivity. }
  split; [| split].
  - intros Hid. rewrite Hid in Hget.
    destruct Hget as (c & msg & Hget & [-> | ->]);
      rewrite Hrun; cbv [IO.bind IO.lift]; rewrite Hget;
      eexists; reflexivity.
  - intros s u Hid Hne Hu. rewrite Hid in Hget.
    rewrite Hrun. cbv [IO.bind IO.lift IO.ret]. rewrite Hget.
    cbv [try_except_as]. rewrite (Htruthy s Hne).
    unfold uuid_UUID. now rewrite Hu.
  - intros s msg Hid Hne Hu. rewrite Hid in Hget.
    rewrite Hrun. cbv [IO.bind IO.lift IO.ret]. rewrite Hget.
    cbv [try_except_as]. rewrite (Htruthy s Hne).
    unfold uuid_UUID. now rewrite Hu.
Qed.

Lemma get_uuid_on_success_witness :
  valid_username "Notch"
  /\ get_uuid (L := CPython.lib) api3 "Notch"
       (always (json_success
                  (PyDict [("id", PyStr "069a79f444e94726a5befca90e38aaf5");
                           ("name", PyStr "Notch")])))
     = (Ret (Some notch_uuid),
        after
          (always (json_success
                     (PyDict [("id", PyStr "069a79f444e94726a5befca90e38aaf5");
                              ("name", PyStr "Notch")])))
          [Request "GET" (_UUID_API_URL ++ "/" ++ "Notch") [];
           attempt_log "GET" (_UUID_API_URL ++ "/" ++ "Notch")
             (json_success
                (PyDict [("id", PyStr "069a79f444e94726a5befca90e38aaf5");
                         ("name", PyStr "Notch")])) 1]).
Proof.
  assert (H : valid_username "Notch").
  { unfold valid_username, len. split; [simpl; lia | reflexivity]. }
  split; [exact H |].
  apply (proj1 (proj2
    (get_uuid_on_success CPython.lib api3 "Notch"
       (always (json_success
                  (PyDict [("id", PyStr "069a79f444e94726a5befca90e38aaf5");
                           ("name", PyStr "Notch")])))
       (json_success
          (PyDict [("id", PyStr "069a79f444e94726a5befca90e38aaf5");
                   ("name", PyStr "Notch")]))
       (PyDict [("id", PyStr "069a79f444e94726a5befca90e38aaf5");
                ("name", PyStr "Notch")])
       H ltac:(simpl; lia) eq_refl ltac:(simpl; lia) eq_refl))
    "069a79f444e94726a5befca90e38aaf5" notch_uuid).
  - reflexivity.
  - discriminate.
  - vm_compute. reflexivity.
Defined.

(** The request of the batch lookup, answered at once by a reply below
    400 whose body is JSON. *)
Lemma post_json_success (self : _HTTPClient) (url : string)
    (kwargs : list (string * pyval)) (w : world)
    (resp : ClientResponse) (data : pyval) :
  1 <= _max_attempts self ->
  next_reply w = Answer resp ->
  status resp < 400 ->
  json resp = Ret data ->
  _post_json self url kwargs w
  = (Ret data,
     after w [Request "POST" url kwargs; attempt_log "POST" url resp 1]).
Proof.
  intros Hmax Hr Hs Hj. unfold _post_json. cbv [IO.bind].
  rewrite (success_returns pyval self "POST" url json kwargs w resp data Hr).
  - reflexivity.
  - unfold ok. lia.
  - exact Hj.
  - exact Hmax.
Qed.

Section Batch.

Context {L : PyLib}.

Lemma as_dict_app (p q : list (string * uuid.UUID)) :
  as_dict (p ++ q) = as_dict p ++ as_dict q.
Proof. unfold as_dict. apply map_app. Qed.

(** Storing under a name that is not a key yet appends the item. *)
Lemma dict_store_fresh (done : list (string * uuid.UUID)) (n : string)
    (u : uuid.UUID) :
  ~ In n (map fst done) ->
  dict_store (as_dict done) (PyStr n) u = as_dict (done ++ [(n, u)]).
Proof.
  induction done as [|[m v] done IH]; intros Hn; [reflexivity |].
  simpl in *. destruct (String.eqb_spec m n) as [-> | Hne].
  - destruct Hn. now left.
  - f_equal. apply IH. intros Hin. apply Hn. now right.
Qed.

Lemma names_to_uuids_distinct (entries : list pyval)
    (pairs : list (string * uuid.UUID)) :
  Forall2 batch_entry entries pairs ->
  forall done : list (string * uuid.UUID),
    NoDup (map fst (done ++ pairs)) ->
    names_to_uuids entries (as_dict done) = Ret (as_dict (done ++ pairs)).
Proof.
  induction 1 as [|entry [n u] entries pairs Hentry _ IH]; intros done Hnodup.
  - now rewrite app_nil_r.
  - destruct Hentry as (d & s & -> & Hname & Hid & Hu). simpl in *.
    rewrite Hname, Hid. simpl. rewrite Hu. simpl.
    rewrite map_app in Hnodup. simpl in Hnodup.
    pose proof (NoDup_remove_2 _ _ _ Hnodup) as Hfresh.
    rewrite dict_store_fresh.
    + replace (done ++ (n, u) :: pairs) with ((done ++ [(n, u)]) ++ pairs)
        by (now rewrite <- app_assoc).
      apply IH. rewrite <- app_assoc, map_app. exact Hnodup.
    + intros Hin. apply Hfresh. apply in_or_app. now left.
Qed.

(** Well-formed entries are passed over. *)
Lemma names_to_uuids_prefix (good : list pyval)
    (pairs : list (string * uuid.UUID)) (tail : list pyval) :
  Forall2 batch_entry good pairs ->
  forall acc : list (pyval * uuid.UUID),
  exists acc' : list (pyval * uuid.UUID),
    names_to_uuids (good ++ tail) acc = names_to_uuids tail acc'.
Proof.
  induction 1 as [|entry [n u] good pairs Hentry _ IH]; intros acc.
  - now exists acc.
  - destruct Hentry as (d & s & -> & Hname & Hid & Hu). simpl in *.
    rewrite Hname, Hid. simpl. rewrite Hu. simpl. apply IH.
Qed.

(** An entry without name or without id stops the comprehension with
    [KeyError] or [TypeError]. *)
Lemma names_to_uuids_bad (bad : pyval) (rest : list pyval)
    (acc : list (pyval * uuid.UUID)) :
  at_path ["name"] bad = None \/ at_path ["id"] bad = None ->
  exists (c : builtin_exc) (msg : string),
    names_to_uuids (bad :: rest) acc = Raise (PyErr c msg)
    /\ (c = KeyError \/ c = TypeError).
Proof.
  intros Hbad. simpl.
  pose proof (getitem_at_path bad "name") as Hname.
  pose proof (getitem_at_path bad "id") as Hid.
  destruct (at_path ["name"] bad) as [k|].
  - destruct Hbad as [Hbad | Hbad]; [discriminate |].
    rewrite Hbad in Hid. destruct Hid as (c & msg & Hid & Hc).
    exists c, msg. rewrite Hname. simpl. rewrite Hid. now split.
  - destruct Hname as (c & msg & Hname & Hc).
    exists c, msg. rewrite Hname. now split.
Qed.

End Batch.

(** X16. When the batch lookup is answered by a list of entries
    [{"name": ..., "id": ...}] with valid ids and pairwise distinct names,
    [get_uuids] sends one POST whose JSON body is the list of the names
    asked for, and returns the dict that maps each name as the server
    spells it to its UUID, in the order of the response. *)
Theorem get_uuids_on_success :
  forall (L : PyLib) (self : API) (names : list string) (w : world)
         (resp : ClientResponse) (entries : list pyval)
         (pairs : list (string * uuid.UUID)),
    Z.of_nat (List.length names) <= _MAX_BATCH ->
    Forall valid_username names ->
    1 <= _max_attempts (_http self) ->
    next_reply w = Answer resp ->
    status resp < 400 ->
    json resp = Ret (PyList entries) ->
    Forall2 batch_entry entries pairs ->
    NoDup (map fst pairs) ->
    get_uuids self names w
    = (Ret (as_dict pairs),
       after w [Request "POST" (_API_BASE_URL ++ "/profiles/minecraft")
                  [("json", PyList (map PyStr names))];
                attempt_log "POST" (_API_BASE_URL ++ "/profiles/minecraft")
                  resp 1]).
Proof.
  intros L self names w resp entries pairs Hlen Hvalid Hmax Hr Hs Hj He Hnd.
  unfold get_uuids.
  destruct (Z.of_nat (List.length names) >? _MAX_BATCH) eqn:E; [lia |].
  cbv [IO.bind IO.lift IO.catch].
  rewrite (assert_valid_usernames_all names Hvalid).
  rewrite (post_json_success (_http self) _ _ w resp (PyList entries)
             Hmax Hr Hs Hj).
  pose proof (names_to_uuids_distinct entries pairs He [] Hnd) as Hrun.
  change (as_dict []) with (@nil (pyval * uuid.UUID)) in Hrun.
  change ([] ++ pairs) with pairs in Hrun.
  cbv [IO.ret]. simpl. now rewrite Hrun.
Qed.

Lemma get_uuids_on_success_witness :
  get_uuids (L := CPython.lib) api3 ["notch"]
    (always (json_success
               (PyList [PyDict [("id", PyStr "069a79f444e94726a5befca90e38aaf5");
                                ("name", PyStr "Notch")]])))
  = (Ret [(PyStr "Notch", notch_uuid)],
     after
       (always (json_success
                  (PyList [PyDict [("id", PyStr "069a79f444e94726a5befca90e38aaf5");
                                   ("name", PyStr "Notch")]])))
       [Request "POST" (_API_BASE_URL ++ "/profiles/minecraft")
          [("json", PyList (map PyStr ["notch"]))];
        attempt_log "POST" (_API_BASE_URL ++ "/profiles/minecraft")
          (json_success
             (PyList [PyDict [("id", PyStr "069a79f444e94726a5befca90e38aaf5");
                              ("name", PyStr "Notch")]])) 1]).
Proof.
  apply (get_uuids_on_success CPython.lib api3 ["notch"]
           (always (json_success
                      (PyList [PyDict [("id", PyStr "069a79f444e94726a5befca90e38aaf5");
                                       ("name", PyStr "Notch")]])))
           (json_success
              (PyList [PyDict [("id", PyStr "069a79f444e94726a5befca90e38aaf5");
                               ("name", PyStr "Notch")]]))
           [PyDict [("id", PyStr "069a79f444e94726a5befca90e38aaf5");
                    ("name", PyStr "Notch")]]
           [("Notch", notch_uuid)]).
  - unfold _MAX_BATCH; simpl; lia.
  - constructor; [split; [unfold len; simpl; lia | reflexivity] | constructor].
  - simpl; lia.
  - reflexivity.
  - simpl; lia.
  - reflexivity.
  - constructor; [| constructor].
    exists [("id", PyStr "069a79f444e94726a5befca90e38aaf5");
            ("name", PyStr "Notch")],
      "069a79f444e94726a5befca90e38aaf5".
    split; [reflexivity |]. split; [reflexivity |]. split; [reflexivity |].
    vm_compute. reflexivity.
  - constructor; [intros [] | constructor].
Defined.

(** X17. A batch response of the wrong shape is reported as
    [MalformedResponse]: a body that cannot be iterated ([null], a boolean,
    a number), and a list in which, after any number of well-formed
    entries, an entry is not an object or lacks ["name"] or ["id"]. *)
Theorem get_uuids_bad_shape :
  forall (L : PyLib) (self : API) (names : list string) (w : world)
         (resp : ClientResponse) (data : pyval),
    Z.of_nat (List.length names) <= _MAX_BATCH ->
    Forall valid_username names ->
    1 <= _max_attempts (_http self) ->
    next_reply w = Answer resp ->
    status resp < 400 ->
    json resp = Ret data ->
    (data = PyNone \/ (exists b, data = PyBool b) \/ (exists z, data = PyInt z)
     \/ (exists q, data = PyFloat q)
     \/ (exists good pairs bad rest,
           data = PyList (good ++ bad :: rest)
           /\ Forall2 batch_entry good pairs
           /\ (at_path ["name"] bad = None \/ at_path ["id"] bad = None))) ->
    exists detail : string,
      get_uuids self names w
      = (Raise (MojangErr MalformedResponse 0 (PyStr detail)),
         after w [Request "POST" (_API_BASE_URL ++ "/profiles/minecraft")
                    [("json", PyList (map PyStr names))];
                  attempt_log "POST" (_API_BASE_URL ++ "/profiles/minecraft")
                    resp 1]).
Proof.
  intros L self names w resp data Hlen Hvalid Hmax Hr Hs Hj Hshape.
  unfold get_uuids.
  destruct (Z.of_nat (List.length names) >? _MAX_BATCH) eqn:E; [lia |].
  cbv [IO.bind IO.lift IO.catch].
  rewrite (assert_valid_usernames_all names Hvalid).
  rewrite (post_json_success (_http self) _ _ w resp data Hmax Hr Hs Hj).
  destruct Hshape as [-> | [[b ->] | [[z ->] | [[q ->] | Hlist]]]];
    try (eexists; reflexivity).
  destruct Hlist as (good & pairs & bad & rest & -> & Hgood & Hbad).
  simpl.
  destruct (names_to_uuids_prefix good pairs (bad :: rest) Hgood [])
    as [acc' Hpre].
  destruct (names_to_uuids_bad bad rest acc' Hbad) as (c & msg & Hraise & Hc).
  rewrite Hpre, Hraise.
  destruct Hc as [-> | ->]; eexists; reflexivity.
Qed.

Lemma get_uuids_bad_shape_witness :
  exists detail : string,
    get_uuids (L := CPython.lib) api3 ["notch"]
      (always (json_success PyNone))
    = (Raise (MojangErr MalformedResponse 0 (PyStr detail)),
       after (always (json_success PyNone))
         [Request "POST" (_API_BASE_URL ++ "/profiles/minecraft")
            [("json", PyList (map PyStr ["notch"]))];
          attempt_log "POST" (_API_BASE_URL ++ "/profiles/minecraft")
            (json_success PyNone) 1]).
Proof.
  apply (get_uuids_bad_shape CPython.lib api3 ["notch"]
           (always (json_success PyNone)) (json_success PyNone) PyNone).
  - unfold _MAX_BATCH; simpl; lia.
  - constructor; [split; [unfold len; simpl; lia | reflexivity] | constructor].
  - simpl; lia.
  - reflexivity.
  - simpl; lia.
  - reflexivity.
  - left; reflexivity.
Defined.

(** X18. [get_username] and [get_profile] have the same effects for the
    same player, whatever the server answers: the same requests to the
    same URL, the same drains and sleeps.  They differ only in what they
    make of the body. *)
Theorem username_and_profile_same_effects :
  forall (L : PyLib) (self : API) (player : uuid.UUID + string) (w : world),
    snd (get_username self player w) = snd (get_profile self player w).
Proof.
  intros L self player w. unfold get_username, get_profile.
  cbv [IO.bind IO.lift IO.catch IO.ret].
  destruct (_parse_uuid player) as [uid | e]; [| reflexivity].
  destruct (_get_json (_http self) _ [] w) as [[data | e] w1].
  - simpl. destruct (_parse_profile data); reflexivity.
  - destruct (isinstance e _NOT_FOUND_ERRORS); reflexivity.
Qed.

(** X19. [_parse_profile] reads nothing of the raw document but
    [properties[0].value]: two documents with the same value there decode
    alike, whatever their other keys and their further properties. *)
Theorem parse_profile_reads_first_value_only :
  forall (L : PyLib) (raw raw' value : pyval),
    textures_value raw = Some value ->
    textures_value raw' = Some value ->
    _parse_profile raw = _parse_profile raw'.
Proof.
  intros L raw raw' value H H'. unfold _parse_profile.
  now rewrite (decode_textures_found raw value H),
              (decode_textures_found raw' value H').
Qed.

Lemma parse_profile_reads_first_value_only_witness :
  _parse_profile (L := CPython.lib) (raw_profile notch_blob)
  = _parse_profile (L := CPython.lib)
      (PyDict [("properties",
                PyList [PyDict [("value", PyStr notch_blob)];
                        PyDict [("value", PyStr mistyped_blob)]])]).
Proof.
  apply (parse_profile_reads_first_value_only CPython.lib
           (raw_profile notch_blob)
           (PyDict [("properties",
                     PyList [PyDict [("value", PyStr notch_blob)];
                             PyDict [("value", PyStr mistyped_blob)]])])
           (PyStr notch_blob)); reflexivity.
Defined.

(** X20. When the profile endpoint answers successfully with a body that
    is not a JSON object (a list, a string, [null]), [get_profile] raises
    [TypeError], not [MalformedResponse]: [data["properties"]] fails with
    an exception the first [try] of [_parse_profile] does not catch. *)
Theorem get_profile_non_object_body :
  forall (L : PyLib) (self : API) (player : uuid.UUID + string)
         (uid : uuid.UUID) (w : world) (resp : ClientResponse) (data : pyval),
    _parse_uuid player = Ret uid ->
    1 <= _max_attempts (_http self) ->
    next_reply w = Answer resp ->
    status resp < 400 ->
    json resp = Ret data ->
    is_dict data = false ->
    exists msg : string,
      _parse_profile data = Raise (PyErr TypeError msg)
      /\ get_profile self player w
         = (Raise (PyErr TypeError msg),
            after w [Request "GET" (profile_url uid) [];
                     attempt_log "GET" (profile_url uid) resp 1]).
Proof.
  intros L self player uid w resp data Hp Hmax Hr Hs Hj Hd.
  assert (Hraise : exists msg, _parse_profile data = Raise (PyErr TypeError msg)).
  { destruct data; try discriminate; eexists; reflexivity. }
  destruct Hraise as [msg Hmsg]. exists msg. split; [exact Hmsg |].
  unfold get_profile. cbv [IO.bind IO.lift IO.catch]. rewrite Hp.
  fold (profile_url uid).
  rewrite (get_json_success (_http self) (profile_url uid) w resp data
             Hmax Hr Hs Hj).
  now rewrite Hmsg.
Qed.

Lemma get_profile_non_object_body_witness :
  exists msg : string,
    _parse_profile (L := CPython.lib) PyNone = Raise (PyErr TypeError msg)
    /\ get_profile (L := CPython.lib) api3 (inl notch_uuid)
         (always (json_success PyNone))
       = (Raise (PyErr TypeError msg),
          after (always (json_success PyNone))
            [Request "GET" (profile_url notch_uuid) [];
             attempt_log "GET" (profile_url notch_uuid)
               (json_success PyNone) 1]).
Proof.
  apply (get_profile_non_object_body CPython.lib api3 (inl notch_uuid)
           notch_uuid (always (json_success PyNone)) (json_success PyNone)
           PyNone).
  - reflexivity.
  - simpl; lia.
  - reflexivity.
  - simpl; lia.
  - reflexivity.
  - reflexivity.
Defined.

(* ================================================================== *)
(** ** The blocked-server list, shutdown and construction *)
(* ================================================================== *)

Lemma has_linebreak_snoc (line : string) (c : ascii) :
  has_linebreak (line ++ String c "") = has_linebreak line || is_linebreak c.
Proof.
  induction line as [|c' line IH]; simpl.
  - now rewrite orb_false_r.
  - now rewrite IH, orb_assoc.
Qed.

Lemma append_snoc (line : string) (c : ascii) (rest : string) :
  ((line ++ String c "") ++ rest)%string = (line ++ String c rest)%string.
Proof. induction line as [|c' line IH]; simpl; [reflexivity | now rewrite IH]. Qed.

Lemma append_empty (line : string) : (line ++ "")%string = line.
Proof. induction line as [|c line IH]; simpl; [reflexivity | now rewrite IH]. Qed.

Lemma join_cons (line : string) (lines : list string) :
  join (line :: lines) = (line ++ join lines)%string.
Proof. reflexivity. Qed.

(** The two facts about [splitlines_from], for every text of at most [n]
    characters. *)
Lemma splitlines_from_facts (n : nat) :
  forall (text_ line : string),
    (String.length text_ <= n)%nat ->
    has_linebreak line = false ->
    Forall (fun l => has_linebreak l = false) (splitlines_from text_ line)
    /\ join (splitlines_from text_ line)
       = (line ++ without_linebreaks text_)%string.
Proof.
  induction n as [|n IH]; intros text_ line Hlen Hline.
  - destruct text_ as [|c rest]; [| simpl in Hlen; lia]. simpl.
    destruct (String.eqb_spec line "") as [-> | Hne].
    + split; [constructor | reflexivity].
    + split; [repeat constructor; assumption |].
      simpl. reflexivity.
  - destruct text_ as [|c rest].
    + simpl. destruct (String.eqb_spec line "") as [-> | Hne].
      * split; [constructor | reflexivity].
      * split; [repeat constructor; assumption | reflexivity].
    + simpl in Hlen. simpl. destruct (is_linebreak c) eqn:Hc.
      * assert (Hrest : Forall (fun l => has_linebreak l = false)
                          (splitlines_from rest "")
                        /\ join (splitlines_from rest "")
                           = without_linebreaks rest).
        { apply (IH rest ""); [lia | reflexivity]. }
        destruct rest as [|c' rest'].
        -- destruct Hrest as [HF HJ]. split.
           ++ constructor; assumption.
           ++ now rewrite join_cons, HJ.
        -- destruct (Ascii.eqb c "013" && Ascii.eqb c' "010") eqn:Hcrlf.
           ++ apply andb_true_iff in Hcrlf as [_ Hlf].
              apply Ascii.eqb_eq in Hlf. subst c'.
              destruct (IH rest' "") as [HF HJ];
                [simpl in Hlen; lia | reflexivity |].
              split; [constructor; assumption |].
              rewrite join_cons, HJ. simpl.
              unfold is_linebreak. simpl. reflexivity.
           ++ destruct Hrest as [HF HJ]. split.
              ** constructor; assumption.
              ** rewrite join_cons. now rewrite HJ.
      * destruct (IH rest (line ++ String c "")%string) as [HF HJ].
        -- lia.
        -- now rewrite has_linebreak_snoc, Hline, Hc.
        -- split; [exact HF |]. now rewrite HJ, append_snoc.
Qed.

Lemma splitlines_single (text_ line : string) :
  has_linebreak text_ = false ->
  (line ++ text_)%string <> "" ->
  splitlines_from text_ line = [(line ++ text_)%string].
Proof.
  revert line. induction text_ as [|c rest IH]; intros line Hno Hne; simpl.
  - rewrite append_empty in *.
    destruct (String.eqb_spec line ""); [contradiction | reflexivity].
  - simpl in Hno. apply orb_false_iff in Hno as [Hc Hrest]. rewrite Hc.
    rewrite IH; [now rewrite append_snoc | assumption |].
    rewrite append_snoc. exact Hne.
Qed.

(** X21. [get_blocked_servers] sends one GET to [/blockedservers] and
    returns the lines of the text ([str.splitlines]): no line contains a
    line boundary, the lines put end to end are the text without its line
    boundaries (nothing else is dropped), and a non-empty text without a
    boundary is a single line.  An error of the request, a 404 included,
    is raised as it is: this call has no not-found policy. *)
Theorem blocked_servers_lines :
  forall (self : API) (w : world) (resp : ClientResponse) (body : string),
    1 <= _max_attempts (_http self) ->
    next_reply w = Answer resp ->
    status resp < 400 ->
    text resp = Ret body ->
    (exists lines : list string,
        get_blocked_servers self w
        = (Ret lines,
           after w [Request "GET" (_SESSIONSERVER_BASE_URL ++ "/blockedservers") [];
                    attempt_log "GET"
                      (_SESSIONSERVER_BASE_URL ++ "/blockedservers") resp 1])
        /\ Forall (fun l => has_linebreak l = false) lines
        /\ join lines = without_linebreaks body
        /\ (has_linebreak body = false -> body <> "" -> lines = [body]))
    /\ (forall (w0 w1 : world) (e : exn),
          _get_text (_http self)
            (_SESSIONSERVER_BASE_URL ++ "/blockedservers") [] w0
            = (Raise e, w1) ->
          get_blocked_servers self w0 = (Raise e, w1)).
Proof.
  intros self w resp body Hmax Hr Hs Ht. split.
  - exists (splitlines body). split; [| split; [| split]].
    + unfold get_blocked_servers, _get_text. cbv [IO.bind].
      rewrite (success_returns string (_http self) "GET" _ text [] w resp body
                 Hr); try assumption; [reflexivity |].
      unfold ok. lia.
    + apply (splitlines_from_facts (String.length body) body "");
        [lia | reflexivity].
    + apply (splitlines_from_facts (String.length body) body "");
        [lia | reflexivity].
    + intros Hno Hne. unfold splitlines. now apply splitlines_single.
  - intros w0 w1 e Hraise. unfold get_blocked_servers. cbv [IO.bind].
    now rewrite Hraise.
Qed.

Lemma blocked_servers_lines_witness :
  exists lines : list string,
    get_blocked_servers api3
      (always (text_success
                 ("0b8f1e" ++ String "010" "a55d47" ++ String "010" "")))
    = (Ret lines,
       after
         (always (text_success
                    ("0b8f1e" ++ String "010" "a55d47" ++ String "010" "")))
         [Request "GET" (_SESSIONSERVER_BASE_URL ++ "/blockedservers") [];
          attempt_log "GET" (_SESSIONSERVER_BASE_URL ++ "/blockedservers")
            (text_success
               ("0b8f1e" ++ String "010" "a55d47" ++ String "010" "")) 1])
    /\ Forall (fun l => has_linebreak l = false) lines
    /\ join lines
       = without_linebreaks
           ("0b8f1e" ++ String "010" "a55d47" ++ String "010" "")
    /\ (has_linebreak ("0b8f1e" ++ String "010" "a55d47" ++ String "010" "")
        = false ->
        ("0b8f1e" ++ String "010" "a55d47" ++ String "010" "")%string <> "" ->
        lines = [("0b8f1e" ++ String "010" "a55d47" ++ String "010" "")%string]).
Proof.
  apply (proj1 (blocked_servers_lines api3
                  (always (text_success
                             ("0b8f1e" ++ String "010" "a55d47"
                                ++ String "010" "")))
                  (text_success
                     ("0b8f1e" ++ String "010" "a55d47" ++ String "010" ""))
                  ("0b8f1e" ++ String "010" "a55d47" ++ String "010" "")
                  ltac:(simpl; lia) eq_refl ltac:(simpl; lia) eq_refl)).
Defined.

Lemma close_again (self : _HTTPClient) (session : ClientSession) :
  close self (close self session) = close self session.
Proof.
  unfold close.
  destruct (_owns_session self); destruct (closed session) eqn:E; simpl;
    rewrite ?E; reflexivity.
Qed.

Lemma close_repeated (self : _HTTPClient) (session : ClientSession) (n : nat) :
  Nat.iter (S n) (close self) session = close self session.
Proof.
  induction n as [|n IH]; [reflexivity |].
  change (Nat.iter (S (S n)) (close self) session)
    with (close self (Nat.iter (S n) (close self) session)).
  rewrite IH. apply close_again.
Qed.

(** X22. Shutdown is idempotent and respects ownership.  However often
    [close] is called ([API.close] and [__aexit__] are the same call), the
    session's own [close()] runs at most once; it never runs on a session
    the caller supplied, nor on one that is already closed; and after one
    or more calls a session the client created is closed. *)
Theorem close_at_most_once :
  forall (self : API) (session : ClientSession) (n : nat),
    let final := Nat.iter n (__aexit__ self) session in
    (close_calls final <= close_calls session + 1)%nat
    /\ (_owns_session (_http self) = false -> final = session)
    /\ (closed session = true -> final = session)
    /\ (_owns_session (_http self) = true -> (0 < n)%nat ->
        closed final = true)
    /\ API_close self (API_close self session) = API_close self session.
Proof.
  intros self session n final. subst final.
  unfold __aexit__, API_close.
  destruct n as [|n].
  - simpl. split; [lia |]. split; [reflexivity |]. split; [reflexivity |].
    split; [lia | apply close_again].
  - change (fun session0 => close (_http self) session0)
      with (close (_http self)).
    rewrite close_repeated. unfold close.
    destruct (_owns_session (_http self)); destruct (closed session) eqn:E;
      simpl; rewrite ?E; simpl;
      (split; [lia |]); (split; [try reflexivity; discriminate |]);
      (split; [try reflexivity; discriminate |]);
      (split; [try discriminate; try (intros _ _; assumption); reflexivity |]);
      reflexivity.
Qed.

(** X23. The defaults of [errors.py] and the table of [_http_client.py]
    agree: each status of [_STATUS_TO_ERROR] is the default status of the
    class it maps to, an instance built without arguments of one of the
    six HTTP classes is classified back to its own class, and
    [MalformedResponse] carries status 0, which no class of the table
    has. *)
Theorem defaults_agree_with_table :
  (forall (s : Z) (cls : mojang_exc),
      In (s, cls) _STATUS_TO_ERROR -> default_status cls = s)
  /\ (forall cls : mojang_exc,
        In cls [BadRequest; Unauthorized; Forbidden; NotFound;
                TooManyRequests; ServerError] ->
        classify (default_status cls) = cls)
  /\ (forall detail : string,
        errors.new_MalformedResponse detail
        = MojangErr MalformedResponse (default_status MalformedResponse)
            (PyStr detail))
  /\ (forall (s : Z) (cls : mojang_exc),
        In (s, cls) _STATUS_TO_ERROR -> s <> default_status MalformedResponse).
Proof.
  split; [| split; [| split]].
  - intros s cls Hin. simpl in Hin.
    repeat (destruct Hin as [Hin | Hin];
            [injection Hin as <- <-; reflexivity |]).
    destruct Hin.
  - intros cls Hin. simpl in Hin.
    repeat (destruct Hin as [Hin | Hin]; [subst cls; reflexivity |]).
    destruct Hin.
  - reflexivity.
  - intros s cls Hin. simpl in Hin.
    repeat (destruct Hin as [Hin | Hin];
            [injection Hin as <- <-; discriminate |]).
    destruct Hin.
Qed.

Lemma defaults_agree_with_table_witness :
  In (404, NotFound) _STATUS_TO_ERROR /\ default_status NotFound = 404.
Proof.
  assert (H : In (404, NotFound) _STATUS_TO_ERROR).
  { simpl. right. right. right. left. reflexivity. }
  split; [exact H |].
  exact (proj1 defaults_agree_with_table 404 NotFound H).
Defined.

(** X24. The constructors reject [max_attempts < 1] with [ValueError],
    0 and negative numbers alike, and a client they accept keeps their
    promise: it owns its session exactly when none was passed, and every
    call of [_request] on it ends with a value or an exception after at
    least one and at most [max_attempts] requests. *)
Theorem constructed_client_bounds :
  forall (session_given retry_on_ratelimit : bool) (ratelimit_sleep_time : Q)
         (max_attempts : Z),
    (max_attempts < 1 ->
     _HTTPClient_init session_given retry_on_ratelimit ratelimit_sleep_time
       max_attempts
     = Raise (PyErr ValueError
                ("max_attempts must be at least 1, got " ++ str_int max_attempts))
     /\ API_init session_given retry_on_ratelimit ratelimit_sleep_time
          max_attempts
        = Raise (PyErr ValueError
                   ("max_attempts must be at least 1, got "
                      ++ str_int max_attempts)))
    /\ (1 <= max_attempts ->
        exists self : _HTTPClient,
          _HTTPClient_init session_given retry_on_ratelimit
            ratelimit_sleep_time max_attempts = Ret self
          /\ API_init session_given retry_on_ratelimit ratelimit_sleep_time
               max_attempts = Ret {| _http := self |}
          /\ _owns_session self = negb session_given
          /\ forall (T : Type) (method url : string)
                    (deserialize : ClientResponse -> outcome T)
                    (kwargs : list (string * pyval)) (w : world),
             exists (r : outcome (option T)) (t : list event),
               _request self method url deserialize kwargs w = (r, after w t)
               /\ r <> Ret None
               /\ (1 <= requests t)%nat
               /\ Z.of_nat (requests t) <= max_attempts).
Proof.
  intros session_given retry_on_ratelimit ratelimit_sleep_time max_attempts.
  unfold API_init, _HTTPClient_init. split.
  - intros Hlt. destruct (max_attempts <? 1) eqn:E; [| lia]. now split.
  - intros Hge. destruct (max_attempts <? 1) eqn:E; [lia |].
    eexists. split; [reflexivity |]. split; [reflexivity |].
    split; [reflexivity |].
    intros T method url deserialize kwargs w.
    match goal with
    | |- context [_request ?c _ _ _ _ _] =>
        destruct (request_shape c method url deserialize kwargs w)
          as (r & t & Hrun & Hr & Hreq & _ & Hle); [exact Hge |]
    end.
    exists r, t. simpl in Hle. repeat split; try assumption. lia.
Qed.

Lemma constructed_client_bounds_witness :
  0 < 1
  /\ _HTTPClient_init false false 60 0
     = Raise (PyErr ValueError
                ("max_attempts must be at least 1, got " ++ str_int 0)).
Proof.
  split; [lia |].
  exact (proj1 (proj1 (constructed_client_bounds false false 60 0)
                  ltac:(lia))).
Defined.

(** X25. A body that cannot be drained ends the call.  With an attempt left
    ([max_attempts > 1]), a first reply from 400 on whose body makes
    [await resp.read()] raise ends [_request] with that exception right
    after the drain: one request, no retry and no sleep even for a 429 or a
    503, and [_raise_for_status] is not reached, so the status is not
    turned into a class of [errors.py]. *)
Theorem undrainable_body_ends_call :
  forall (T : Type) (self : _HTTPClient) (method url : string)
         (deserialize : ClientResponse -> outcome T)
         (kwargs : list (string * pyval)) (w : world)
         (resp : ClientResponse) (e : exn),
    1 < _max_attempts self ->
    next_reply w = Answer resp ->
    400 <= status resp ->
    read resp = Raise e ->
    _request self method url deserialize kwargs w
    = (Raise e,
       after w [Request method url kwargs; attempt_log method url resp 1;
                Read]).
Proof.
  intros T self method url deserialize kwargs w resp e Hmax Hr Hs Hread.
  unfold _request. rewrite range_cons by lia. rewrite for_each_cons.
  assert (Hok : ok resp = false) by (unfold ok; lia).
  now rewrite (turn_drain_fails self method url deserialize kwargs 1 w resp e
                 Hr Hok Hmax Hread).
Qed.

Lemma undrainable_body_ends_call_witness :
  _request client_retrying "GET" "/lookup" json []
    (always (truncated_body 429 "Too Many Requests"))
  = (Raise (PyErr ClientPayloadError "Response payload is not completed"),
     after (always (truncated_body 429 "Too Many Requests"))
       [Request "GET" "/lookup" [];
        attempt_log "GET" "/lookup" (truncated_body 429 "Too Many Requests") 1;
        Read]).
Proof.
  apply (undrainable_body_ends_call pyval client_retrying "GET" "/lookup" json
           [] (always (truncated_body 429 "Too Many Requests"))
           (truncated_body 429 "Too Many Requests")).
  - simpl; lia.
  - reflexivity.
  - simpl; lia.
  - reflexivity.
Defined.
